(** * The navigation decision engine of the browser automation tool

    A shallow embedding of the Python sources

      - [utils/bbox_guards.py]  (geometric gate of the candidate filter),
      - [agent/state.py]        (session state and its history buffers),
      - [tools/validator.py]    (stuck detector and stage heuristics),
      - [tools/vision.py]       (action schema and payload normalizer),
      - [tools/browser.py]      (browser session on top of a page),
      - [agent/graph.py]        (observe / decide / act / validate / extract),
      - [navigate.py]           (initial state of a run),

    followed by the properties of the specification that concern them.

    Python integers are [Z]; Python floats are binary64 values ([PyFloat]);
    [str] and [bytes] are [string]; JSON-like values ([dict], [list], ...)
    are the type [json]; exceptions are the left summand of [res]; the
    browser page, the vision service, the image decoder, the drawing of
    the bbox overlay and the trace directory are the fields of the class
    [Env]. *)

From Stdlib Require Import ZArith List String Ascii Bool Lia.
Import ListNotations.
Local Open Scope string_scope.
Local Open Scope Z_scope.

Set Implicit Arguments.

(* ===================================================================== *)
(** * Exceptions and results *)
(* ===================================================================== *)

Inductive error : Type :=
| ValidationError   (* pydantic: the value does not fit the schema *)
| RuntimeError (msg : string)
| ValueError
| TypeError
| KeyError
| IndexError
| AttributeError
| OverflowError
| ZeroDivisionError.

Definition res (A : Type) : Type := (error + A)%type.

Definition ok {A} (a : A) : res A := inr a.
Definition raise {A} (e : error) : res A := inl e.

Definition rbind {A B} (c : res A) (k : A -> res B) : res B :=
  match c with
  | inl e => inl e
  | inr a => k a
  end.

Declare Scope res_scope.
Delimit Scope res_scope with res.
Notation "x <- c ;; k" := (rbind c (fun x => k))
  (at level 61, c at next level, right associativity) : res_scope.
Notation "' p <- c ;; k" := (rbind c (fun x => match x with p => k end))
  (at level 61, p pattern, c at next level, right associativity) : res_scope.

Fixpoint mapM {A B} (f : A -> res B) (l : list A) : res (list B) :=
  match l with
  | [] => ok []
  | a :: l' =>
      (b <- f a ;; bs <- mapM f l' ;; ok (b :: bs))%res
  end.

(* ===================================================================== *)
(** * Strings *)
(* ===================================================================== *)

Module Str.

(** [s.startswith(p)] *)
Fixpoint startswith (p s : string) : bool :=
  match p, s with
  | EmptyString, _ => true
  | String a p', String b s' => Ascii.eqb a b && startswith p' s'
  | String _ _, EmptyString => false
  end.

(** [needle in hay] *)
Fixpoint contains (needle hay : string) : bool :=
  startswith needle hay ||
  match hay with
  | EmptyString => false
  | String _ hay' => contains needle hay'
  end.

Definition lower_ascii (c : ascii) : ascii :=
  let n := nat_of_ascii c in
  if (Nat.leb 65 n && Nat.leb n 90)%bool then ascii_of_nat (n + 32) else c.

(** [s.lower()], on ASCII letters *)
Fixpoint lower (s : string) : string :=
  match s with
  | EmptyString => EmptyString
  | String c s' => String (lower_ascii c) (lower s')
  end.

(** truth value of a string or of a byte string: non-empty *)
Definition truthy (s : string) : bool :=
  match s with EmptyString => false | _ => true end.

(** truth value of an [Optional[str]] / [Optional[bytes]] *)
Definition otruthy (o : option string) : bool :=
  match o with Some s => truthy s | None => false end.

(** the double quote character, for prompts that quote a name *)
Definition dquote : string := String (ascii_of_nat 34) EmptyString.

End Str.

(* ===================================================================== *)
(** * Python floats: IEEE 754 binary64, round to nearest, ties to even *)
(* ===================================================================== *)

Module PyFloat.

(** [Fin m e] is the number [m * 2^e].  The values built by the
    operations below are in IEEE form: either [2^52 <= |m| < 2^53] and
    [-1074 <= e <= 971], or [e = -1074] and [|m| < 2^52] (subnormal),
    or [Fin 0 0] for zero (the sign of zero is not tracked). *)
Inductive float : Type :=
| Fin (m e : Z)
| Inf (neg : bool)
| NaN.

Definition emin : Z := -1074.
Definition emax : Z := 971.

(** [floor (log2 (n / d))] for [n, d > 0] *)
Definition ilog2_frac (n d : Z) : Z :=
  let k := Z.log2 n - Z.log2 d in
  if n * 2 ^ Z.max 0 (- k) <? d * 2 ^ Z.max 0 k then k - 1 else k.

Definition mk (m e : Z) : float :=
  if m =? 0 then Fin 0 0 else Fin m e.

(** the binary64 value nearest to [n / d], for [n >= 0] and [d > 0],
    with sign [neg]; [Inf] when the rounded value needs an exponent
    above [emax] *)
Definition round_pos (neg : bool) (n d : Z) : float :=
  if n =? 0 then Fin 0 0 else
  let e := Z.max emin (ilog2_frac n d - 52) in
  let num := n * 2 ^ Z.max 0 (- e) in
  let den := d * 2 ^ Z.max 0 e in
  let q := num / den in
  let r := num mod den in
  let m := if 2 * r <? den then q
           else if den <? 2 * r then q + 1
           else if Z.even q then q else q + 1 in
  let '(m, e) := if m =? 2 ^ 53 then (2 ^ 52, e + 1) else (m, e) in
  if emax <? e then Inf neg
  else mk (if neg then - m else m) e.

(** the binary64 value nearest to [n / d], for [d > 0] *)
Definition round (n d : Z) : float :=
  if n <? 0 then round_pos true (- n) d else round_pos false n d.

(** a decimal literal [n/d] of the source text, e.g. [0.16] is
    [literal 16 100] *)
Definition literal (n d : Z) : float := round n d.

(** [float(n)]; Python raises OverflowError when [n] is too large *)
Definition of_int (n : Z) : res float :=
  match round n 1 with
  | Fin m e => ok (Fin m e)
  | _ => raise OverflowError
  end.

(** [a / b] on integers (true division, correctly rounded) *)
Definition int_truediv (a b : Z) : res float :=
  if b =? 0 then raise ZeroDivisionError else
  match (if b <? 0 then round (- a) (- b) else round a b) with
  | Fin m e => ok (Fin m e)
  | _ => raise OverflowError
  end.

Definition is_zero (x : float) : bool :=
  match x with Fin m _ => m =? 0 | _ => false end.

Definition is_neg (x : float) : bool :=
  match x with Fin m _ => m <? 0 | Inf s => s | NaN => false end.

(** [x * y] on floats *)
Definition mul (x y : float) : float :=
  match x, y with
  | NaN, _ | _, NaN => NaN
  | Fin m1 e1, Fin m2 e2 =>
      round (m1 * m2 * 2 ^ Z.max 0 (e1 + e2)) (2 ^ Z.max 0 (- (e1 + e2)))
  | _, _ =>
      if is_zero x || is_zero y then NaN
      else Inf (xorb (is_neg x) (is_neg y))
  end.

(** [x / y] on floats; Python raises ZeroDivisionError on a zero
    divisor *)
Definition div (x y : float) : res float :=
  if is_zero y then raise ZeroDivisionError else
  match x, y with
  | NaN, _ | _, NaN => ok NaN
  | Fin m1 e1, Fin m2 e2 =>
      let n := m1 * 2 ^ Z.max 0 (e1 - e2) in
      let d := m2 * 2 ^ Z.max 0 (e2 - e1) in
      ok (if d <? 0 then round (- n) (- d) else round n d)
  | Inf _, Inf _ => ok NaN
  | Inf s, Fin _ _ => ok (Inf (xorb s (is_neg y)))
  | Fin _ _, Inf _ => ok (Fin 0 0)
  end.

(** [int(x)]: truncation toward zero *)
Definition trunc (x : float) : res Z :=
  match x with
  | Fin m e => ok (if 0 <=? e then m * 2 ^ e else Z.quot m (2 ^ (- e)))
  | Inf _ => raise OverflowError
  | NaN => raise ValueError
  end.

(** [round(x)]: nearest integer, ties to even *)
Definition round_int (x : float) : res Z :=
  match x with
  | Fin m e =>
      if 0 <=? e then ok (m * 2 ^ e) else
      let den := 2 ^ (- e) in
      let q := m / den in
      let r := m mod den in
      ok (if 2 * r <? den then q
          else if den <? 2 * r then q + 1
          else if Z.even q then q else q + 1)
  | Inf _ => raise OverflowError
  | NaN => raise ValueError
  end.

(** the integer [m * 2^(e - emin)]: finite floats compare as these *)
Definition scaled (m e : Z) : Z := m * 2 ^ (e - emin).

(** [x < y] *)
Definition ltb (x y : float) : bool :=
  match x, y with
  | NaN, _ | _, NaN => false
  | Fin m1 e1, Fin m2 e2 => scaled m1 e1 <? scaled m2 e2
  | Fin _ _, Inf s => negb s
  | Inf s, Fin _ _ => s
  | Inf s1, Inf s2 => s1 && negb s2
  end.

(** [x <= y] *)
Definition leb (x y : float) : bool :=
  match x, y with
  | NaN, _ | _, NaN => false
  | Fin m1 e1, Fin m2 e2 => scaled m1 e1 <=? scaled m2 e2
  | Fin _ _, Inf s => negb s
  | Inf s, Fin _ _ => s
  | Inf s1, Inf s2 => s1 || negb s2
  end.

(** [p >= x] for an integer [p] and a float [x]: Python compares the
    two numbers exactly *)
Definition int_geb (p : Z) (x : float) : bool :=
  match x with
  | Fin m e => if 0 <=? e then m * 2 ^ e <=? p else m <=? p * 2 ^ (- e)
  | Inf s => s
  | NaN => false
  end.

Definition is_nan (x : float) : bool :=
  match x with NaN => true | _ => false end.

Definition eqb (x y : float) : bool :=
  match x, y with
  | Fin m1 e1, Fin m2 e2 => (m1 =? m2) && (e1 =? e2)
  | Inf a, Inf b => Bool.eqb a b
  | _, _ => false
  end.

End PyFloat.

Import PyFloat(float, Fin, Inf, NaN).

(* ===================================================================== *)
(** * JSON-like values: what [json.loads] returns and [model_dump] builds *)
(* ===================================================================== *)

#[local] Unset Elimination Schemes.
Inductive json : Type :=
| JNull
| JBool (b : bool)
| JInt (n : Z)
| JFloat (f : float)
| JStr (s : string)
| JList (l : list json)
| JObj (kv : list (string * json)).
#[local] Set Elimination Schemes.

(** A Python [dict] with string keys, in insertion order. *)
Module Dict.

Definition t : Type := list (string * json).

Fixpoint get (k : string) (d : t) : option json :=
  match d with
  | [] => None
  | (k', v) :: d' => if String.eqb k k' then Some v else get k d'
  end.

(** [k in d] *)
Definition has (k : string) (d : t) : bool :=
  match get k d with Some _ => true | None => false end.

(** [d.get(k)]: [None] when the key is missing *)
Definition getd (k : string) (d : t) : json :=
  match get k d with Some v => v | None => JNull end.

(** [d[k] = v]: an existing key keeps its place *)
Fixpoint set (k : string) (v : json) (d : t) : t :=
  match d with
  | [] => [(k, v)]
  | (k', v') :: d' =>
      if String.eqb k k' then (k, v) :: d' else (k', v') :: set k v d'
  end.

(** [{**a, **b}] *)
Definition merge (a b : t) : t :=
  fold_left (fun acc kv => set (fst kv) (snd kv) acc) b a.

End Dict.

(* ===================================================================== *)
(** * The action schema ([tools/vision.py]) *)
(* ===================================================================== *)

Module ScrollSpec.
Record t : Type := mk { direction : string; amount : Z }.
End ScrollSpec.

Module ExpectSpec.
Record t : Type := mk {
  url_contains : option string;
  page_contains_text : option string }.
End ExpectSpec.

Module CandidateBBox.
Record t : Type := mk {
  bbox : list Z;
  confidence : option float;
  text : option string;
  reason : option string }.
End CandidateBBox.

Module Action.
Record t : Type := mk {
  type : string;
  reason : string;
  bbox : option (list Z);
  text : option string;
  key : option string;
  scroll : option ScrollSpec.t;
  expect : option ExpectSpec.t;
  candidates : option (list CandidateBBox.t) }.
End Action.

Module ReleaseExtract.
Record t : Type := mk {
  version : option string;
  tag : option string;
  author : option string }.
End ReleaseExtract.

(** ** Validation against the schema ([Model.model_validate])

    The models are pydantic models in the default (lax) mode: a missing
    required field or a value of the wrong kind is a [ValidationError],
    unknown keys are ignored, an [int] field takes an integer, a boolean
    or a float without fractional part, and a numeric string as far as
    [str_int] reads it; a [float] field takes a float, an integer or a
    boolean, and a string as far as [str_float] reads it. *)
Section Schema.

Variable str_int : string -> option Z.
Variable str_float : string -> option float.

Definition v_str (j : json) : res string :=
  match j with
  | JStr s => ok s
  | _ => raise ValidationError
  end.

Definition v_int (j : json) : res Z :=
  match j with
  | JInt n => ok n
  | JBool b => ok (if b then 1 else 0)
  | JFloat (Fin m e) =>
      if 0 <=? e then ok (m * 2 ^ e)
      else if m mod 2 ^ (- e) =? 0 then ok (m / 2 ^ (- e))
      else raise ValidationError
  | JStr s =>
      match str_int s with
      | Some n => ok n
      | None => raise ValidationError
      end
  | _ => raise ValidationError
  end.

Definition v_float (j : json) : res float :=
  match j with
  | JFloat f => ok f
  | JInt n =>
      match PyFloat.of_int n with
      | inr f => ok f
      | inl _ => raise ValidationError
      end
  | JBool b => ok (if b then Fin (2 ^ 52) (-52) else Fin 0 0)
  | JStr s =>
      match str_float s with
      | Some f => ok f
      | None => raise ValidationError
      end
  | _ => raise ValidationError
  end.

Definition v_list {A} (v : json -> res A) (j : json) : res (list A) :=
  match j with
  | JList l => mapM v l
  | _ => raise ValidationError
  end.

(** a required field *)
Definition required {A} (v : json -> res A) (k : string) (d : Dict.t)
  : res A :=
  match Dict.get k d with
  | Some j => v j
  | None => raise ValidationError
  end.

(** a field [Optional[A] = None] *)
Definition optional {A} (v : json -> res A) (k : string) (d : Dict.t)
  : res (option A) :=
  match Dict.get k d with
  | None | Some JNull => ok None
  | Some j => (a <- v j ;; ok (Some a))%res
  end.

Definition ScrollSpec_model_validate (j : json) : res ScrollSpec.t :=
  match j with
  | JObj d =>
      (direction <- required v_str "direction" d ;;
       amount <- required v_int "amount" d ;;
       ok (ScrollSpec.mk direction amount))%res
  | _ => raise ValidationError
  end.

Definition ExpectSpec_model_validate (j : json) : res ExpectSpec.t :=
  match j with
  | JObj d =>
      (url_contains <- optional v_str "url_contains" d ;;
       page_contains_text <- optional v_str "page_contains_text" d ;;
       ok (ExpectSpec.mk url_contains page_contains_text))%res
  | _ => raise ValidationError
  end.

Definition CandidateBBox_model_validate (j : json) : res CandidateBBox.t :=
  match j with
  | JObj d =>
      (bbox <- required (v_list v_int) "bbox" d ;;
       confidence <- optional v_float "confidence" d ;;
       text <- optional v_str "text" d ;;
       reason <- optional v_str "reason" d ;;
       ok (CandidateBBox.mk bbox confidence text reason))%res
  | _ => raise ValidationError
  end.

Definition Action_model_validate (j : json) : res Action.t :=
  match j with
  | JObj d =>
      (type <- required v_str "type" d ;;
       reason <- required v_str "reason" d ;;
       bbox <- optional (v_list v_int) "bbox" d ;;
       text <- optional v_str "text" d ;;
       key <- optional v_str "key" d ;;
       scroll <- optional ScrollSpec_model_validate "scroll" d ;;
       expect <- optional ExpectSpec_model_validate "expect" d ;;
       candidates <-
         optional (v_list CandidateBBox_model_validate) "candidates" d ;;
       ok (Action.mk type reason bbox text key scroll expect candidates))%res
  | _ => raise ValidationError
  end.

Definition ReleaseExtract_model_validate (j : json) : res ReleaseExtract.t :=
  match j with
  | JObj d =>
      (version <- optional v_str "version" d ;;
       tag <- optional v_str "tag" d ;;
       author <- optional v_str "author" d ;;
       ok (ReleaseExtract.mk version tag author))%res
  | _ => raise ValidationError
  end.

End Schema.

(** ** Serialization ([Model.model_dump]) *)

Definition dump_opt {A} (f : A -> json) (o : option A) : json :=
  match o with Some a => f a | None => JNull end.

Definition dump_ints (l : list Z) : json := JList (map JInt l).

Definition ScrollSpec_model_dump (s : ScrollSpec.t) : json :=
  JObj [("direction", JStr (ScrollSpec.direction s));
        ("amount", JInt (ScrollSpec.amount s))].

Definition ExpectSpec_model_dump (x : ExpectSpec.t) : json :=
  JObj [("url_contains", dump_opt JStr (ExpectSpec.url_contains x));
        ("page_contains_text", dump_opt JStr (ExpectSpec.page_contains_text x))].

Definition CandidateBBox_model_dump (c : CandidateBBox.t) : json :=
  JObj [("bbox", dump_ints (CandidateBBox.bbox c));
        ("confidence", dump_opt JFloat (CandidateBBox.confidence c));
        ("text", dump_opt JStr (CandidateBBox.text c));
        ("reason", dump_opt JStr (CandidateBBox.reason c))].

Definition Action_model_dump (a : Action.t) : Dict.t :=
       [("type", JStr (Action.type a));
        ("reason", JStr (Action.reason a));
        ("bbox", dump_opt dump_ints (Action.bbox a));
        ("text", dump_opt JStr (Action.text a));
        ("key", dump_opt JStr (Action.key a));
        ("scroll", dump_opt ScrollSpec_model_dump (Action.scroll a));
        ("expect", dump_opt ExpectSpec_model_dump (Action.expect a));
        ("candidates",
         dump_opt (fun l => JList (map CandidateBBox_model_dump l))
                  (Action.candidates a))].

(** ** The payload normalizer ([VisionClient._normalize_action_payload]) *)

Definition is_str_in (j : json) (names : list string) : bool :=
  match j with
  | JStr s => existsb (String.eqb (Str.lower s)) names
  | _ => false
  end.

Definition allowed_keys : list string :=
  ["Enter"; "Tab"; "Escape"; "ArrowDown"; "ArrowUp"; "ArrowLeft";
   "ArrowRight"; "PageDown"; "PageUp"; "Home"; "End"; "Backspace";
   "Delete"].

(** one pass of the loop over [cands]: the candidate to append, if any *)
Definition normalize_candidate (c : json) : option json :=
  match c with
  | JObj c =>
      let c :=
        if Dict.has "coords" c && negb (Dict.has "bbox" c)
        then Dict.set "bbox" (Dict.getd "coords" c) c else c in
      let c :=
        match Dict.getd "bbox" c with
        | JObj b => Dict.merge c b
        | _ => c
        end in
      match Dict.get "bbox" c with
      | Some (JList _) => Some (JObj c)
      | _ => None
      end
  | JList l =>
      if (Z.of_nat (List.length l) =? 4) then Some (JObj [("bbox", JList l)])
      else None
  | _ => None
  end.

Fixpoint filter_map {A B} (f : A -> option B) (l : list A) : list B :=
  match l with
  | [] => []
  | a :: l' =>
      match f a with
      | Some b => b :: filter_map f l'
      | None => filter_map f l'
      end
  end.

Definition _normalize_action_payload (payload : json) : res json :=
  match payload with
  | JObj payload =>
      let action_type := Dict.getd "type" payload in
      let payload :=
        if is_str_in action_type ["bbox"; "box"]
        then Dict.set "type" (JStr "click") payload else payload in
      let payload :=
        if is_str_in action_type ["click_type"; "click-and-type"; "click_and_type"]
        then Dict.set "type" (JStr "click") payload else payload in
      (* Map top-level coords -> bbox if present. *)
      let payload :=
        if Dict.has "coords" payload && negb (Dict.has "bbox" payload)
        then Dict.set "bbox" (Dict.getd "coords" payload) payload
        else payload in
      (* If bbox is a list of bboxes, move them into candidates. *)
      let bbox_val := Dict.getd "bbox" payload in
      let payload :=
        match bbox_val with
        | JList ((JList _ :: _) as boxes) =>
            Dict.set "bbox" JNull
              (Dict.set "candidates"
                 (JList (map (fun b => JObj [("bbox", b)]) boxes)) payload)
        | _ => payload
        end in
      (* Normalize candidates *)
      let cands := Dict.getd "candidates" payload in
      let payload :=
        match cands with
        | JList cands =>
            Dict.set "candidates"
              (JList (filter_map normalize_candidate cands)) payload
        | _ => payload
        end in
      let expect := Dict.getd "expect" payload in
      let payload :=
        match expect with
        | JStr s =>
            Dict.set "expect" (JObj [("page_contains_text", JStr s)]) payload
        | _ => payload
        end in
      let scroll := Dict.getd "scroll" payload in
      let '(payload, scroll) :=
        match scroll with
        | JBool false => (Dict.set "scroll" JNull payload, JNull)
        | _ => (payload, scroll)
        end in
      (payload <-
         match scroll with
         | JObj sc =>
             match Dict.get "amount" sc with
             | Some (JFloat amount) =>
                 if PyFloat.ltb (Fin 0 0) amount
                    && PyFloat.ltb amount (Fin (2 ^ 52) (-52))
                 then ok (Dict.set "scroll"
                            (JObj (Dict.set "amount" (JInt 400) sc)) payload)
                 else
                   (n <- PyFloat.round_int amount ;;
                    ok (Dict.set "scroll"
                          (JObj (Dict.set "amount" (JInt n) sc)) payload))
             | _ => ok payload
             end
         | _ => ok payload
         end ;;
       let key := Dict.getd "key" payload in
       let payload :=
         match key with
         | JStr k =>
             if existsb (String.eqb k) allowed_keys then payload
             else Dict.set "key" JNull payload
         | _ => payload
         end in
       ok (JObj payload))%res
  | _ => raise AttributeError
  end.

(* ===================================================================== *)
(** * The geometric gate ([utils/bbox_guards.py]) *)
(* ===================================================================== *)

Definition bbox4 : Type := (Z * Z * Z * Z)%type.

(** [x1, y1, x2, y2 = bbox]: a ValueError unless there are four items *)
Definition unpack4 (l : list Z) : res bbox4 :=
  match l with
  | [x1; y1; x2; y2] => ok (x1, y1, x2, y2)
  | _ => raise ValueError
  end.

Definition header_frac : float := Eval vm_compute in PyFloat.literal 10 100.
Definition left_frac : float := Eval vm_compute in PyFloat.literal 16 100.
Definition right_frac : float := Eval vm_compute in PyFloat.literal 82 100.
Definition two : float := Eval vm_compute in PyFloat.literal 2 1.

(** the float [(a + b) / 2.0] *)
Definition center (a b : Z) : res float :=
  (s <- PyFloat.of_int (a + b) ;; PyFloat.div s two)%res.

(** the float [n * frac] *)
Definition scale_by (n : Z) (frac : float) : res float :=
  (f <- PyFloat.of_int n ;; ok (PyFloat.mul f frac))%res.

Definition bbox_in_valid_column (bbox : bbox4) (img_w img_h : Z) : res bool :=
  let '(x1, y1, x2, y2) := bbox in
  if (x2 <=? x1) || (y2 <=? y1) then ok false else
  if (x2 - x1 <? 5) || (y2 - y1 <? 5) then ok false else
  (cx <- center x1 x2 ;;
   cy <- center y1 y2 ;;
   header <- scale_by img_h header_frac ;;
   if PyFloat.ltb cy header then ok false else
   left <- scale_by img_w left_frac ;;
   if PyFloat.ltb cx left then ok false else
   right <- scale_by img_w right_frac ;;
   if PyFloat.ltb right cx then ok false else
   ok true)%res.

(* ===================================================================== *)
(** * Session state ([agent/state.py]) *)
(* ===================================================================== *)

Inductive Stage : Type :=
| HOME | SEARCH_RESULTS | REPO | RELEASES | EXTRACTED | DONE.

Definition Stage_eqb (a b : Stage) : bool :=
  match a, b with
  | HOME, HOME | SEARCH_RESULTS, SEARCH_RESULTS | REPO, REPO
  | RELEASES, RELEASES | EXTRACTED, EXTRACTED | DONE, DONE => true
  | _, _ => false
  end.

(** [stage.value] *)
Definition Stage_value (s : Stage) : string :=
  match s with
  | HOME => "HOME"
  | SEARCH_RESULTS => "SEARCH_RESULTS"
  | REPO => "REPO"
  | RELEASES => "RELEASES"
  | EXTRACTED => "EXTRACTED"
  | DONE => "DONE"
  end.

Module ReleaseInfo.
Record t : Type := mk {
  version : option string;
  tag : option string;
  author : option string }.
End ReleaseInfo.

Module AgentState.

Record t : Type := mk {
  target_repo : string;
  start_url : string;
  prompt : option string;
  vlm_model : option string;
  router_model : option string;
  prompt_model : option string;
  current_url : option string;
  page_title : option string;
  last_png_bytes : option string;
  last_png_bytes_raw : option string;
  last_screenshot_path : option string;
  step_count : Z;
  retry_count : Z;
  max_steps : Z;
  max_retries_per_stage : Z;
  last_urls : list string;
  last_screenshot_hashes : list string;
  stage : Stage;
  last_action : option Dict.t;
  last_bbox : option (list Z);
  refine_level : Z;
  pending_candidates : list Dict.t;
  extracted_release : option ReleaseInfo.t;
  run_dir : option string;
  next_node : option string }.

Definition set_current_url (v : option string) (s : t) : t :=
  mk (target_repo s) (start_url s) (prompt s) (vlm_model s) (router_model s) (prompt_model s) v (page_title s) (last_png_bytes s) (last_png_bytes_raw s) (last_screenshot_path s) (step_count s) (retry_count s) (max_steps s) (max_retries_per_stage s) (last_urls s) (last_screenshot_hashes s) (stage s) (last_action s) (last_bbox s) (refine_level s) (pending_candidates s) (extracted_release s) (run_dir s) (next_node s).

Definition set_page_title (v : option string) (s : t) : t :=
  mk (target_repo s) (start_url s) (prompt s) (vlm_model s) (router_model s) (prompt_model s) (current_url s) v (last_png_bytes s) (last_png_bytes_raw s) (last_screenshot_path s) (step_count s) (retry_count s) (max_steps s) (max_retries_per_stage s) (last_urls s) (last_screenshot_hashes s) (stage s) (last_action s) (last_bbox s) (refine_level s) (pending_candidates s) (extracted_release s) (run_dir s) (next_node s).

Definition set_last_png_bytes (v : option string) (s : t) : t :=
  mk (target_repo s) (start_url s) (prompt s) (vlm_model s) (router_model s) (prompt_model s) (current_url s) (page_title s) v (last_png_bytes_raw s) (last_screenshot_path s) (step_count s) (retry_count s) (max_steps s) (max_retries_per_stage s) (last_urls s) (last_screenshot_hashes s) (stage s) (last_action s) (last_bbox s) (refine_level s) (pending_candidates s) (extracted_release s) (run_dir s) (next_node s).

Definition set_last_png_bytes_raw (v : option string) (s : t) : t :=
  mk (target_repo s) (start_url s) (prompt s) (vlm_model s) (router_model s) (prompt_model s) (current_url s) (page_title s) (last_png_bytes s) v (last_screenshot_path s) (step_count s) (retry_count s) (max_steps s) (max_retries_per_stage s) (last_urls s) (last_screenshot_hashes s) (stage s) (last_action s) (last_bbox s) (refine_level s) (pending_candidates s) (extracted_release s) (run_dir s) (next_node s).

Definition set_last_screenshot_path (v : option string) (s : t) : t :=
  mk (target_repo s) (start_url s) (prompt s) (vlm_model s) (router_model s) (prompt_model s) (current_url s) (page_title s) (last_png_bytes s) (last_png_bytes_raw s) v (step_count s) (retry_count s) (max_steps s) (max_retries_per_stage s) (last_urls s) (last_screenshot_hashes s) (stage s) (last_action s) (last_bbox s) (refine_level s) (pending_candidates s) (extracted_release s) (run_dir s) (next_node s).

Definition set_step_count (v : Z) (s : t) : t :=
  mk (target_repo s) (start_url s) (prompt s) (vlm_model s) (router_model s) (prompt_model s) (current_url s) (page_title s) (last_png_bytes s) (last_png_bytes_raw s) (last_screenshot_path s) v (retry_count s) (max_steps s) (max_retries_per_stage s) (last_urls s) (last_screenshot_hashes s) (stage s) (last_action s) (last_bbox s) (refine_level s) (pending_candidates s) (extracted_release s) (run_dir s) (next_node s).

Definition set_retry_count (v : Z) (s : t) : t :=
  mk (target_repo s) (start_url s) (prompt s) (vlm_model s) (router_model s) (prompt_model s) (current_url s) (page_title s) (last_png_bytes s) (last_png_bytes_raw s) (last_screenshot_path s) (step_count s) v (max_steps s) (max_retries_per_stage s) (last_urls s) (last_screenshot_hashes s) (stage s) (last_action s) (last_bbox s) (refine_level s) (pending_candidates s) (extracted_release s) (run_dir s) (next_node s).

Definition set_last_urls (v : list string) (s : t) : t :=
  mk (target_repo s) (start_url s) (prompt s) (vlm_model s) (router_model s) (prompt_model s) (current_url s) (page_title s) (last_png_bytes s) (last_png_bytes_raw s) (last_screenshot_path s) (step_count s) (retry_count s) (max_steps s) (max_retries_per_stage s) v (last_screenshot_hashes s) (stage s) (last_action s) (last_bbox s) (refine_level s) (pending_candidates s) (extracted_release s) (run_dir s) (next_node s).

Definition set_last_screenshot_hashes (v : list string) (s : t) : t :=
  mk (target_repo s) (start_url s) (prompt s) (vlm_model s) (router_model s) (prompt_model s) (current_url s) (page_title s) (last_png_bytes s) (last_png_bytes_raw s) (last_screenshot_path s) (step_count s) (retry_count s) (max_steps s) (max_retries_per_stage s) (last_urls s) v (stage s) (last_action s) (last_bbox s) (refine_level s) (pending_candidates s) (extracted_release s) (run_dir s) (next_node s).

Definition set_stage (v : Stage) (s : t) : t :=
  mk (target_repo s) (start_url s) (prompt s) (vlm_model s) (router_model s) (prompt_model s) (current_url s) (page_title s) (last_png_bytes s) (last_png_bytes_raw s) (last_screenshot_path s) (step_count s) (retry_count s) (max_steps s) (max_retries_per_stage s) (last_urls s) (last_screenshot_hashes s) v (last_action s) (last_bbox s) (refine_level s) (pending_candidates s) (extracted_release s) (run_dir s) (next_node s).

Definition set_last_action (v : option Dict.t) (s : t) : t :=
  mk (target_repo s) (start_url s) (prompt s) (vlm_model s) (router_model s) (prompt_model s) (current_url s) (page_title s) (last_png_bytes s) (last_png_bytes_raw s) (last_screenshot_path s) (step_count s) (retry_count s) (max_steps s) (max_retries_per_stage s) (last_urls s) (last_screenshot_hashes s) (stage s) v (last_bbox s) (refine_level s) (pending_candidates s) (extracted_release s) (run_dir s) (next_node s).

Definition set_last_bbox (v : option (list Z)) (s : t) : t :=
  mk (target_repo s) (start_url s) (prompt s) (vlm_model s) (router_model s) (prompt_model s) (current_url s) (page_title s) (last_png_bytes s) (last_png_bytes_raw s) (last_screenshot_path s) (step_count s) (retry_count s) (max_steps s) (max_retries_per_stage s) (last_urls s) (last_screenshot_hashes s) (stage s) (last_action s) v (refine_level s) (pending_candidates s) (extracted_release s) (run_dir s) (next_node s).

Definition set_refine_level (v : Z) (s : t) : t :=
  mk (target_repo s) (start_url s) (prompt s) (vlm_model s) (router_model s) (prompt_model s) (current_url s) (page_title s) (last_png_bytes s) (last_png_bytes_raw s) (last_screenshot_path s) (step_count s) (retry_count s) (max_steps s) (max_retries_per_stage s) (last_urls s) (last_screenshot_hashes s) (stage s) (last_action s) (last_bbox s) v (pending_candidates s) (extracted_release s) (run_dir s) (next_node s).

Definition set_pending_candidates (v : list Dict.t) (s : t) : t :=
  mk (target_repo s) (start_url s) (prompt s) (vlm_model s) (router_model s) (prompt_model s) (current_url s) (page_title s) (last_png_bytes s) (last_png_bytes_raw s) (last_screenshot_path s) (step_count s) (retry_count s) (max_steps s) (max_retries_per_stage s) (last_urls s) (last_screenshot_hashes s) (stage s) (last_action s) (last_bbox s) (refine_level s) v (extracted_release s) (run_dir s) (next_node s).

Definition set_extracted_release (v : option ReleaseInfo.t) (s : t) : t :=
  mk (target_repo s) (start_url s) (prompt s) (vlm_model s) (router_model s) (prompt_model s) (current_url s) (page_title s) (last_png_bytes s) (last_png_bytes_raw s) (last_screenshot_path s) (step_count s) (retry_count s) (max_steps s) (max_retries_per_stage s) (last_urls s) (last_screenshot_hashes s) (stage s) (last_action s) (last_bbox s) (refine_level s) (pending_candidates s) v (run_dir s) (next_node s).

Definition set_run_dir (v : option string) (s : t) : t :=
  mk (target_repo s) (start_url s) (prompt s) (vlm_model s) (router_model s) (prompt_model s) (current_url s) (page_title s) (last_png_bytes s) (last_png_bytes_raw s) (last_screenshot_path s) (step_count s) (retry_count s) (max_steps s) (max_retries_per_stage s) (last_urls s) (last_screenshot_hashes s) (stage s) (last_action s) (last_bbox s) (refine_level s) (pending_candidates s) (extracted_release s) v (next_node s).

Definition set_next_node (v : option string) (s : t) : t :=
  mk (target_repo s) (start_url s) (prompt s) (vlm_model s) (router_model s) (prompt_model s) (current_url s) (page_title s) (last_png_bytes s) (last_png_bytes_raw s) (last_screenshot_path s) (step_count s) (retry_count s) (max_steps s) (max_retries_per_stage s) (last_urls s) (last_screenshot_hashes s) (stage s) (last_action s) (last_bbox s) (refine_level s) (pending_candidates s) (extracted_release s) (run_dir s) v.

(** [state.push_url(url)] with [max_keep = 6] *)
Definition keep_last {A} (max_keep : nat) (l : list A) : list A :=
  if Nat.ltb max_keep (List.length l)
  then skipn (List.length l - max_keep) l else l.

Definition push_url (url : string) (s : t) : t :=
  set_last_urls (keep_last 6 (last_urls s ++ [url])) s.

Definition push_hash (h : string) (s : t) : t :=
  set_last_screenshot_hashes
    (keep_last 6 (last_screenshot_hashes s ++ [h])) s.

(** [AgentState.model_validate(state_dict)] on a dumped state: every
    field has the type it was dumped with, except that [last_bbox] must
    be a 4-tuple *)
Definition model_validate (s : t) : res t :=
  match last_bbox s with
  | Some [_; _; _; _] | None => ok s
  | Some _ => raise ValidationError
  end.

End AgentState.

(* ===================================================================== *)
(** * The collaborators of the loop *)
(* ===================================================================== *)

(** Everything the sources reach through a library: the Playwright page,
    the clock, the vision service behind [VisionClient._call_json], the
    image decoder, the trace directory, and the string coercions of the
    schema validator.  A [World] is the state of all of them. *)
Class Env : Type := {
  World : Type;
  (* the page *)
  page_url : World -> string;
  page_viewport_size : World -> option (Z * Z);
  page_title : World -> option string;  (* [None]: the call raises *)
  page_wait_for_load_state : string -> Z -> World -> bool * World;
                                        (* [false]: the wait timed out *)
  page_screenshot : World -> string * World;
  page_go_back : World -> World;
  page_mouse_click : Z -> Z -> World -> World;
  page_mouse_wheel : Z -> Z -> World -> World;
  page_keyboard_press : string -> World -> World;
  page_keyboard_type : string -> World -> World;
  time_sleep : float -> World -> World;
  (* the vision service: model, system prompt, user prompt, screenshot *)
  _call_json : string -> string -> string -> string -> World -> res (json * World);
  model_vlm : string;
  (* the image decoder: size, and the pixels of
     [convert("L").resize((n, n)).getdata()] *)
  image_size : string -> res (Z * Z);
  image_gray : string -> Z -> res (list Z);
  (* the picture of [_save_bbox_overlay]: [os.makedirs], [Image.open],
     [convert("RGBA")] and [ImageDraw.Draw] on the screenshot; then
     [draw.rectangle] on the four coordinates and [img.save] under the
     step number *)
  overlay_open : string -> World -> res unit;
  overlay_draw : string -> bbox4 -> Z -> World -> res unit;
  (* the trace writer *)
  tracer_run_dir : string;
  tracer_save_image : Z -> string -> string;
  (* the schema's string coercions *)
  str_int : string -> option Z;
  str_float : string -> option float
}.

Section Program.

Context {E : Env}.

(** ** Computations that use the collaborators and may raise *)

Definition M (A : Type) : Type := World -> res (A * World).

Definition ret {A} (a : A) : M A := fun w => ok (a, w).

Definition bind {A B} (c : M A) (k : A -> M B) : M B :=
  fun w =>
    match c w with
    | inl e => inl e
    | inr (a, w') => k a w'
    end.

Definition lift {A} (r : res A) : M A :=
  fun w => match r with inl e => inl e | inr a => ok (a, w) end.

(** a call made for its effect on the world *)
Definition effect (f : World -> World) : M unit := fun w => ok (tt, f w).

(** a call that reads the world *)
Definition query {A} (f : World -> A) : M A := fun w => ok (f w, w).

(** a call that returns a value and changes the world *)
Definition call {A} (f : World -> A * World) : M A := fun w => ok (f w).

Declare Scope m_scope.
Delimit Scope m_scope with M.
Notation "x <- c ;; k" := (bind c (fun x => k))
  (at level 61, c at next level, right associativity) : m_scope.
Notation "' p <- c ;; k" := (bind c (fun x => match x with p => k end))
  (at level 61, p pattern, c at next level, right associativity) : m_scope.
Notation "c ;; k" := (bind c (fun _ => k))
  (at level 61, right associativity) : m_scope.
Local Open Scope m_scope.

(** [for x in l: body(x)] *)
Fixpoint for_each {A} (l : list A) (body : A -> M unit) : M unit :=
  match l with
  | [] => ret tt
  | a :: l' => body a ;; for_each l' body
  end.

(** ** The perceptual hash ([utils/image_hash.py]) *)

Definition hex_digit (n : Z) : string :=
  match n with
  | 0 => "0" | 1 => "1" | 2 => "2" | 3 => "3" | 4 => "4" | 5 => "5"
  | 6 => "6" | 7 => "7" | 8 => "8" | 9 => "9" | 10 => "a" | 11 => "b"
  | 12 => "c" | 13 => "d" | 14 => "e" | _ => "f"
  end.

Definition bit (b : bool) : Z := if b then 1 else 0.

(** the hexadecimal digits of the bits, four at a time *)
Fixpoint hex_of_bits (bits : list bool) : string :=
  match bits with
  | [] => ""
  | [a] => hex_digit (bit a)
  | [a; b] => hex_digit (2 * bit a + bit b)
  | [a; b; c] => hex_digit (4 * bit a + 2 * bit b + bit c)
  | a :: b :: c :: d :: rest =>
      hex_digit (8 * bit a + 4 * bit b + 2 * bit c + bit d)
      ++ hex_of_bits rest
  end.

Definition sum (l : list Z) : Z := fold_left Z.add l 0.

Definition average_hash (png : string) (hash_size : Z) : res string :=
  (pixels <- image_gray png hash_size ;;
   avg <- PyFloat.int_truediv (sum pixels) (Z.of_nat (List.length pixels)) ;;
   let bits := map (fun p => PyFloat.int_geb p avg) pixels in
   ok (hex_of_bits bits))%res.

(** ** The validator ([tools/validator.py]) *)

Record ValidationResult : Type := mkValidationResult {
  new_stage : option Stage;
  recovery_action : option Dict.t;
  should_extract : bool;
  should_stop : bool;
  reason : option string }.

Record Validator : Type := mkValidator { _repeat_threshold : Z }.

(** [Validator()] *)
Definition default_validator : Validator := mkValidator 3.

(** [l.count(x)] *)
Definition count (x : string) (l : list string) : Z :=
  Z.of_nat (List.length (filter (String.eqb x) l)).

Definition stuck_recovery_scroll_down : Dict.t :=
  [("type", JStr "scroll");
   ("reason", JStr "stuck_recovery_scroll_down");
   ("scroll", JObj [("direction", JStr "down"); ("amount", JInt 500)])].

Definition stuck_recovery_scroll_up : Dict.t :=
  [("type", JStr "scroll");
   ("reason", JStr "stuck_recovery_scroll_up");
   ("scroll", JObj [("direction", JStr "up"); ("amount", JInt 400)])].

Definition stuck_recovery_back : Dict.t :=
  [("type", JStr "back");
   ("reason", JStr "stuck_recovery_back")].

Definition stage_in (s : Stage) (l : list Stage) : bool :=
  existsb (Stage_eqb s) l.

(** [state.push_hash(h)], then [state.push_url(state.current_url)] when
    there is a current URL *)
Definition record_observation (h : string) (state : AgentState.t) : AgentState.t :=
  let state := AgentState.push_hash h state in
  match AgentState.current_url state with
  | Some url =>
      if Str.truthy url then AgentState.push_url url state else state
  | None => state
  end.

(** [stuck]: the hash and the URL both repeat in the histories *)
Definition stuck (self : Validator) (h : string) (state : AgentState.t) : bool :=
  let repeated_hashes := count h (AgentState.last_screenshot_hashes state) in
  let repeated_urls :=
    match AgentState.current_url state with
    | Some url =>
        if Str.truthy url then count url (AgentState.last_urls state) else 0
    | None => 0
    end in
  (_repeat_threshold self <=? repeated_hashes)
  && (_repeat_threshold self <=? repeated_urls).

(** the recovery action chosen by [state.retry_count % 3] *)
Definition stuck_recovery (state : AgentState.t) : Dict.t :=
  let recovery_step := AgentState.retry_count state mod 3 in
  if recovery_step =? 0 then stuck_recovery_scroll_down
  else if recovery_step =? 1 then stuck_recovery_scroll_up
  else stuck_recovery_back.

(** Heuristic stage progression based on URL *)
Definition stage_progression (state : AgentState.t) : ValidationResult :=
  let result := mkValidationResult None None false false None in
  match AgentState.current_url state with
  | Some url =>
      if Str.truthy url then
        let stage := AgentState.stage state in
        let result :=
          if Str.contains "github.com/search" url && Stage_eqb stage HOME
          then mkValidationResult (Some SEARCH_RESULTS) None false false None
          else result in
        let result :=
          if Str.contains (Str.lower (AgentState.target_repo state)) (Str.lower url)
             && stage_in stage [SEARCH_RESULTS; HOME]
          then mkValidationResult (Some REPO) (recovery_action result)
                 (should_extract result) (should_stop result) (reason result)
          else result in
        let result :=
          if Str.contains "/releases" url && stage_in stage [REPO; SEARCH_RESULTS]
          then mkValidationResult (Some RELEASES) (recovery_action result)
                 true (should_stop result) (reason result)
          else result in
        result
      else result
  | None => result
  end.

(** the verdict on a state whose histories are up to date *)
Definition verdict (self : Validator) (h : string) (state : AgentState.t)
  : ValidationResult :=
  if AgentState.max_steps state <=? AgentState.step_count state then
    mkValidationResult None None false true (Some "max_steps")
  else if stuck self h state then
    mkValidationResult None (Some (stuck_recovery state)) false false (Some "stuck")
  else stage_progression state.

(** [validator.assess(state, png_bytes)]: the state with its two
    histories extended, the verdict and the hash *)
Definition assess (self : Validator) (state : AgentState.t) (png_bytes : string)
  : res (AgentState.t * (ValidationResult * string)) :=
  (h <- average_hash png_bytes 8 ;;
   let state := record_observation h state in
   ok (state, (verdict self h state, h)))%res.

(** ** The browser session ([tools/browser.py]) *)

Definition default_viewport : Z * Z := (1280, 720).

(** [page.viewport_size or {"width": 1280, "height": 720}] *)
Definition viewport_or_default (w : World) : Z * Z :=
  match page_viewport_size w with
  | Some v => v
  | None => default_viewport
  end.

(** [action_delay_ms / 1000.0] with the default [action_delay_ms = 250] *)
Definition _action_delay_s : float :=
  Eval vm_compute in PyFloat.literal 250 1000.

Definition seconds (n d : Z) : float := PyFloat.literal n d.

Definition _delay : M unit :=
  if PyFloat.ltb (Fin 0 0) _action_delay_s
  then effect (time_sleep _action_delay_s) else ret tt.

Definition scroll (direction : string) (amount : Z) : M unit :=
  let sign := if String.eqb direction "down" then 1 else -1 in
  effect (page_mouse_wheel 0 (sign * amount)) ;;
  _delay.

Definition _ensure_in_viewport (x y : Z) : M unit :=
  '(width, height) <- query viewport_or_default ;;
  if (x <? 0) || (width <? x) || (y <? 0) || (height <? y) then
    scroll "down" 500 ;;
    effect (time_sleep (seconds 1 10))
  else ret tt.

Definition wait_for_idle : M unit :=
  let timeout_ms := 8000 in
  ok1 <- call (page_wait_for_load_state "networkidle" timeout_ms) ;;
  (if ok1 : bool then ret tt
   else _ <- call (page_wait_for_load_state "domcontentloaded" timeout_ms) ;;
        ret tt) ;;
  _delay.

Definition back : M unit :=
  effect page_go_back ;; _delay.

Definition press_key (key : string) : M unit :=
  effect (page_keyboard_press key) ;; _delay.

Definition type_text (text : string) : M unit :=
  effect (page_keyboard_type text) ;;
  _delay ;;
  effect (time_sleep (seconds 2 10)).

Definition click_bbox (bbox : bbox4) : M unit :=
  let '(x1, y1, x2, y2) := bbox in
  cx <- lift (f <- PyFloat.int_truediv (x1 + x2) 2 ;; PyFloat.trunc f)%res ;;
  cy <- lift (f <- PyFloat.int_truediv (y1 + y2) 2 ;; PyFloat.trunc f)%res ;;
  _ensure_in_viewport cx cy ;;
  let jitter_x := Z.max (-2) (Z.min 2 ((x2 - x1) / 10)) in
  let jitter_y := Z.max (-2) (Z.min 2 ((y2 - y1) / 10)) in
  effect (page_mouse_click (cx + jitter_x) (cy + jitter_y)) ;;
  _delay.

Definition click_point (x y : Z) : M unit :=
  _ensure_in_viewport x y ;;
  effect (page_mouse_click x y) ;;
  _delay.

Definition type_into_bbox (bbox : bbox4) (text : string) : M unit :=
  click_bbox bbox ;;
  effect (time_sleep (seconds 1 10)) ;;
  type_text text.

Record Observation : Type := mkObservation {
  obs_url : string;
  obs_title : string;
  obs_screenshot_png : string;
  obs_viewport : Z * Z }.

Definition observe : M Observation :=
  viewport <- query viewport_or_default ;;
  effect (time_sleep (seconds 1 1)) ;;
  t <- query page_title ;;
  title <-
    match t with
    | Some title => ret title
    | None =>
        loaded <- call (page_wait_for_load_state "domcontentloaded" 3000) ;;
        if loaded : bool then
          t <- query page_title ;;
          ret (match t with Some title => title | None => "" end)
        else ret ""
    end ;;
  png <- call page_screenshot ;;
  url <- query page_url ;;
  ret (mkObservation url title png viewport).

(** ** The vision client ([tools/vision.py]) and the extractor *)

Definition _call_action (model system user png_bytes : string) : M Action.t :=
  payload <- _call_json model system user png_bytes ;;
  payload <- lift (_normalize_action_payload payload) ;;
  match Action_model_validate str_int str_float payload with
  | inr a => ret a
  | inl ValidationError => lift (raise (RuntimeError "Invalid Action JSON"))
  | inl e => lift (raise e)
  end.

Definition _call_extract (model system user png_bytes : string)
  : M ReleaseExtract.t :=
  payload <- _call_json model system user png_bytes ;;
  match ReleaseExtract_model_validate payload with
  | inr a => ret a
  | inl ValidationError => lift (raise (RuntimeError "Invalid Release JSON"))
  | inl e => lift (raise e)
  end.

Definition get_action (png_bytes subgoal stage : string) : M Action.t :=
  let system :=
    "You are a VLM navigation agent. Use ONLY the screenshot to decide the next UI action. "
    ++ "Return STRICT JSON that matches the Action schema. No prose. "
    ++ "Choose large, unambiguous targets. If a search box is present, click it and type. "
    ++ "If you need to scroll, return type=scroll with direction and amount." in
  let user :=
    "Stage: " ++ stage ++ ". Subgoal: " ++ subgoal ++ ". "
    ++ "Return JSON: {type, reason, bbox?, text?, key?, scroll?, expect?}. "
    ++ "bbox uses pixel coordinates [x1,y1,x2,y2] in the screenshot." in
  _call_action model_vlm system user png_bytes.

Definition get_release_extract (png_bytes repo : string) : M ReleaseExtract.t :=
  let system :=
    "You are a VLM extraction agent. Use ONLY the screenshot to read the latest release info. "
    ++ "Return STRICT JSON with keys: version, tag, author. No prose." in
  let user :=
    "Repository: " ++ repo ++ ". Extract latest release info from the page." in
  _call_extract model_vlm system user png_bytes.

(** [ReleaseExtractor.extract] *)
Definition extract (png_bytes repo : string) : M ReleaseInfo.t :=
  data <- get_release_extract png_bytes repo ;;
  ret (ReleaseInfo.mk (ReleaseExtract.version data) (ReleaseExtract.tag data)
         (ReleaseExtract.author data)).

(** ** The grid-exploration fallback ([agent/graph.py]) *)

Definition _clamp_bbox_to_viewport (bbox : bbox4) : M bbox4 :=
  let '(x1, y1, x2, y2) := bbox in
  '(w, h) <- query viewport_or_default ;;
  let x1 := Z.max 220 (Z.min x1 w) in
  let x2 := Z.max 220 (Z.min x2 w) in
  let y1 := Z.max 0 (Z.min y1 h) in
  let y2 := Z.max 0 (Z.min y2 h) in
  ret (x1, y1, x2, y2).

(** [range(n)] *)
Definition range (n : Z) : list Z := map Z.of_nat (seq 0 (Z.to_nat n)).

(** [[(i + 1) / (n + 1) for i in range(n)]] *)
Definition fracs (n : Z) : res (list float) :=
  mapM (fun i => PyFloat.int_truediv (i + 1) (n + 1)) (range n).

(** [int(f * n)] for a float [f] and an integer [n] *)
Definition int_scaled (f : float) (n : Z) : res Z :=
  (nf <- PyFloat.of_int n ;; PyFloat.trunc (PyFloat.mul f nf))%res.

Definition _grid_points (x1 y1 x2 y2 xs ys : Z) : res (list (Z * Z)) :=
  let w := Z.max 1 (x2 - x1) in
  let h := Z.max 1 (y2 - y1) in
  (xs_fracs <- fracs xs ;;
   ys_fracs <- fracs ys ;;
   rows <-
     mapM (fun fy =>
       mapM (fun fx =>
         dx <- int_scaled fx w ;;
         let px := Z.min (Z.max (x1 + dx) (x1 + 4)) (x2 - 4) in
         dy <- int_scaled fy h ;;
         let py := Z.min (Z.max (y1 + dy) (y1 + 4)) (y2 - 4) in
         ok (px, py)) xs_fracs) ys_fracs ;;
   ok (firstn 10 (List.concat rows)))%res.

Definition scale_0_70 : float := Eval vm_compute in PyFloat.literal 70 100.

Definition _shrink_top_left (bbox : bbox4) (scale : float) : res bbox4 :=
  let '(x1, y1, x2, y2) := bbox in
  let w := Z.max 1 (x2 - x1) in
  let h := Z.max 1 (y2 - y1) in
  (dw <- int_scaled scale w ;;
   dh <- int_scaled scale h ;;
   ok (x1, y1, x1 + dw, y1 + dh))%res.

(** the body of the loop over the points of one round: [true] as soon
    as a click lands on the target repository *)
Fixpoint click_until_hit (target_path : string) (points : list (Z * Z))
  : M bool :=
  match points with
  | [] => ret false
  | (px, py) :: rest =>
      before <- query page_url ;;
      click_point px py ;;
      effect (time_sleep (seconds 8 10)) ;;
      _ <- call (page_wait_for_load_state "domcontentloaded" 1500) ;;
      after <- query page_url ;;
      if negb (String.eqb after before)
         && Str.contains target_path (Str.lower after)
      then ret true
      else click_until_hit target_path rest
  end.

(** the loop over the rounds *)
Fixpoint explore_rounds (target_path : string)
  (rounds : list (string * bbox4 * list (Z * Z))) : M bool :=
  match rounds with
  | [] => ret false
  | (_, _, points) :: rest =>
      hit <- click_until_hit target_path points ;;
      if hit : bool then ret true else explore_rounds target_path rest
  end.

Definition _explore_click_points_multi (bbox : bbox4) (target_repo : string)
  : M bool :=
  '(x1, y1, x2, y2) <- _clamp_bbox_to_viewport bbox ;;
  if (x2 <=? x1 + 20) || (y2 <=? y1 + 20) then ret false else
  pa <- lift (_grid_points x1 y1 x2 y2 3 2) ;;
  '(bx1, by1, bx2, by2) <- lift (_shrink_top_left (x1, y1, x2, y2) scale_0_70) ;;
  pb <- lift (_grid_points bx1 by1 bx2 by2 5 2) ;;
  '(cx1, cy1, cx2, cy2) <- lift (_shrink_top_left (bx1, by1, bx2, by2) scale_0_70) ;;
  pc <- lift (_grid_points cx1 cy1 cx2 cy2 5 2) ;;
  let rounds :=
    [("A", (x1, y1, x2, y2), pa);
     ("B", (bx1, by1, bx2, by2), pb);
     ("C", (cx1, cy1, cx2, cy2), pc)] in
  let target_path := Str.lower ("/" ++ target_repo) in
  explore_rounds target_path rounds.

(** ** The nodes of the graph ([agent/graph.py]) *)

Definition END : string := "__end__".

Definition _subgoal_for_stage (state : AgentState.t) : string :=
  match AgentState.stage state with
  | HOME =>
      "Find the search bar and search for " ++ AgentState.target_repo state ++ "."
  | SEARCH_RESULTS =>
      "You are on GitHub search results. "
      ++ "Find the FIRST result card for " ++ Str.dquote
      ++ AgentState.target_repo state ++ Str.dquote
      ++ " and return a coarse bbox around the entire card "
      ++ "(rounded rectangle containing avatar, title, description). Do NOT return a tight link bbox."
  | REPO =>
      "Find and click the Releases section in the right sidebar. "
      ++ "If Releases is not visible, scroll down until it appears, then click it."
  | RELEASES => "Ensure the latest release card is visible and readable."
  | _ => "Wait or noop."
  end.

(** truth value of [action.bbox] *)
Definition bbox_truthy (b : option (list Z)) : bool :=
  match b with Some (_ :: _) => true | _ => false end.

Definition is_some {A} (o : option A) : bool :=
  match o with Some _ => true | None => false end.

Definition or_empty (o : option string) : string :=
  match o with Some s => s | None => "" end.

Definition bbox_or_nil (b : option (list Z)) : list Z :=
  match b with Some l => l | None => [] end.

Definition _execute_action (action : Action.t) (state : AgentState.t) : M unit :=
  if String.eqb (Action.type action) "click" && bbox_truthy (Action.bbox action) then
    bbox <- lift (unpack4 (bbox_or_nil (Action.bbox action))) ;;
    click_bbox bbox ;;
    (if Str.otruthy (Action.text action) && Stage_eqb (AgentState.stage state) HOME then
       press_key "Meta+A" ;;
       press_key "Backspace" ;;
       type_text (or_empty (Action.text action)) ;;
       press_key "Enter"
     else ret tt) ;;
    (if Str.otruthy (Action.key action)
     then press_key (or_empty (Action.key action)) else ret tt) ;;
    wait_for_idle
  else if String.eqb (Action.type action) "type" then
    (if bbox_truthy (Action.bbox action) then
       bbox <- lift (unpack4 (bbox_or_nil (Action.bbox action))) ;;
       type_into_bbox bbox (or_empty (Action.text action))
     else type_text (or_empty (Action.text action))) ;;
    (if Str.otruthy (Action.key action)
     then press_key (or_empty (Action.key action))
     else if Str.otruthy (Action.text action) then press_key "Enter"
     else ret tt)
  else if String.eqb (Action.type action) "press" && Str.otruthy (Action.key action) then
    press_key (or_empty (Action.key action)) ;;
    wait_for_idle
  else if String.eqb (Action.type action) "scroll" && is_some (Action.scroll action) then
    match Action.scroll action with
    | Some sc => scroll (ScrollSpec.direction sc) (ScrollSpec.amount sc)
    | None => ret tt
    end
  else if String.eqb (Action.type action) "back" then back
  else if String.eqb (Action.type action) "wait" then wait_for_idle
  else (* noop *) ret tt.

Definition observe_node (state_dict : AgentState.t) : M AgentState.t :=
  state <- lift (AgentState.model_validate state_dict) ;;
  obs <- observe ;;
  let state := AgentState.set_current_url (Some (obs_url obs)) state in
  let state := AgentState.set_page_title (Some (obs_title obs)) state in
  let state := AgentState.set_last_png_bytes (Some (obs_screenshot_png obs)) state in
  let state := AgentState.set_last_png_bytes_raw (Some (obs_screenshot_png obs)) state in
  let state :=
    if (AgentState.step_count state =? 0)
       && negb (Str.otruthy (AgentState.run_dir state))
    then AgentState.set_run_dir (Some tracer_run_dir) state else state in
  let state :=
    if Str.otruthy (AgentState.run_dir state) then
      let path :=
        tracer_save_image (AgentState.step_count state + 1) (obs_screenshot_png obs) in
      AgentState.set_last_screenshot_path (Some path) state
    else state in
  let state := AgentState.set_next_node (Some "decide") state in
  ret state.

(** [state.current_url and "/login" in state.current_url] *)
Definition on_login_page (state : AgentState.t) : bool :=
  match AgentState.current_url state with
  | Some url => Str.truthy url && Str.contains "/login" url
  | None => false
  end.

(** [state.current_url and "/search" in state.current_url] *)
Definition on_search_page (state : AgentState.t) : bool :=
  match AgentState.current_url state with
  | Some url => Str.truthy url && Str.contains "/search" url
  | None => false
  end.


(** [if state.current_url and "/search" in state.current_url:
    state.stage = Stage.SEARCH_RESULTS] *)
Definition force_search_stage (state : AgentState.t) : AgentState.t :=
  if on_search_page state
  then AgentState.set_stage SEARCH_RESULTS state else state.

(** truth value of a list *)
Definition nonempty {A} (l : list A) : bool :=
  match l with [] => false | _ => true end.

(** [l[0]] *)
Definition first {A} (l : list A) : res A :=
  match l with a :: _ => ok a | [] => raise IndexError end.

(** the head of the pending queue as a click payload *)
Definition pending_click (cand : Dict.t) : res json :=
  match Dict.get "bbox" cand with
  | Some bbox =>
      ok (JObj [("type", JStr "click");
                ("reason", JStr "pending_candidate");
                ("bbox", bbox)])
  | None => raise KeyError
  end.

Definition critique : string :=
  " The previous attempt did not change the URL. Return a corrected bbox or a new action using the current screenshot.".

(** [_save_bbox_overlay]: the screenshot is opened, the bbox unpacked,
    the rectangle drawn and the picture saved; each of these may raise,
    and the file written is no part of the state of the run *)
Definition _save_bbox_overlay (png_bytes : string) (bbox : list Z) (step : Z)
  : M unit :=
  fun w =>
    (opened <- overlay_open png_bytes w ;;
     box <- unpack4 bbox ;;
     saved <- overlay_draw png_bytes box step w ;;
     ok (tt, w))%res.

Definition decide_node (state_dict : AgentState.t) : M AgentState.t :=
  state <- lift (AgentState.model_validate state_dict) ;;
  let state := force_search_stage state in
  let subgoal := _subgoal_for_stage state in
  let raw := or_empty (AgentState.last_png_bytes_raw state) in
  action <-
    (if nonempty (AgentState.pending_candidates state)
        && Stage_eqb (AgentState.stage state) SEARCH_RESULTS
     then
       lift (cand <- first (AgentState.pending_candidates state) ;;
             payload <- pending_click cand ;;
             Action_model_validate str_int str_float payload)%res
     else if 0 <? AgentState.retry_count state then
       get_action raw (subgoal ++ critique) (Stage_value (AgentState.stage state))
     else
       get_action raw subgoal (Stage_value (AgentState.stage state))) ;;
  let state :=
    AgentState.set_last_action (Some (Action_model_dump action)) state in
  let state :=
    if bbox_truthy (Action.bbox action)
    then AgentState.set_last_bbox (Action.bbox action) state else state in
  (if bbox_truthy (Action.bbox action)
      && Str.otruthy (AgentState.last_png_bytes state)
   then _save_bbox_overlay (or_empty (AgentState.last_png_bytes state))
          (bbox_or_nil (Action.bbox action)) (AgentState.step_count state + 1)
   else ret tt) ;;
  let state := AgentState.set_next_node (Some "act") state in
  ret state.

(** a candidate of [act_node]:
    [{"bbox": ..., "confidence": ..., "reason": ...}] *)
Record Candidate : Type := mkCandidate {
  c_bbox : list Z;
  c_confidence : option float;
  c_reason : option string }.

Definition Candidate_dict (c : Candidate) : Dict.t :=
  [("bbox", dump_ints (c_bbox c));
   ("confidence", dump_opt JFloat (c_confidence c));
   ("reason", dump_opt JStr (c_reason c))].

Definition list_Z_eqb (a b : list Z) : bool :=
  if list_eq_dec Z.eq_dec a b then true else false.

(** the loop over the candidates: the first bbox in the valid column *)
Fixpoint choose (candidates : list Candidate) (img_w img_h : Z)
  : res (option (list Z)) :=
  match candidates with
  | [] => ok None
  | c :: rest =>
      (bbox <- unpack4 (c_bbox c) ;;
       in_col <- bbox_in_valid_column bbox img_w img_h ;;
       if in_col : bool then ok (Some (c_bbox c))
       else choose rest img_w img_h)%res
  end.

(** the candidates of an action: those of its list that have four
    coordinates, then its own bbox *)
Definition candidates_of (action : Action.t) : list Candidate :=
  let candidates :=
    match Action.candidates action with
    | Some cs =>
        map (fun c => mkCandidate (CandidateBBox.bbox c)
                        (CandidateBBox.confidence c) (CandidateBBox.reason c))
            (filter (fun c => Z.of_nat (List.length (CandidateBBox.bbox c)) =? 4) cs)
    | None => []
    end in
  if bbox_truthy (Action.bbox action)
  then (candidates
        ++ [mkCandidate (bbox_or_nil (Action.bbox action)) None (Some "primary")])%list
  else candidates.

Definition noop_missing : Dict.t :=
  [("type", JStr "noop"); ("reason", JStr "missing")].

(** [state.last_action or {"type": "noop", "reason": "missing"}] *)
Definition last_action_or_noop (state : AgentState.t) : Dict.t :=
  match AgentState.last_action state with
  | Some ((_ :: _) as d) => d
  | _ => noop_missing
  end.

Definition act_node (state_dict : AgentState.t) : M AgentState.t :=
  state <- lift (AgentState.model_validate state_dict) ;;
  action <- lift (Action_model_validate str_int str_float
                    (JObj (last_action_or_noop state))) ;;
  if Stage_eqb (AgentState.stage state) SEARCH_RESULTS
     && String.eqb (Action.type action) "click"
     && bbox_truthy (Action.bbox action)
  then
    bbox <- lift (unpack4 (bbox_or_nil (Action.bbox action))) ;;
    success <- _explore_click_points_multi bbox (AgentState.target_repo state) ;;
    let state :=
      if success : bool then AgentState.set_stage REPO state else state in
    let state := AgentState.set_step_count (AgentState.step_count state + 1) state in
    let state := AgentState.set_next_node (Some "validate") state in
    ret state
  else
    let finish (action : Action.t) (state : AgentState.t) : M AgentState.t :=
      _execute_action action state ;;
      let state := AgentState.set_step_count (AgentState.step_count state + 1) state in
      let state := AgentState.set_next_node (Some "validate") state in
      ret state in
    if Stage_eqb (AgentState.stage state) SEARCH_RESULTS
       && Str.otruthy (AgentState.last_png_bytes_raw state)
    then
      '(img_w, img_h) <-
        lift (image_size (or_empty (AgentState.last_png_bytes_raw state))) ;;
      let candidates := candidates_of action in
      match candidates with
      | _ :: _ =>
          if String.eqb (Action.type action) "click"
             || String.eqb (Action.type action) "click_candidates"
          then
            chosen <- lift (choose candidates img_w img_h) ;;
            match chosen with
            | None =>
                let state :=
                  AgentState.set_retry_count (AgentState.retry_count state + 1) state in
                if AgentState.max_retries_per_stage state <? AgentState.retry_count state
                then
                  let state := AgentState.set_stage DONE state in
                  let state := AgentState.set_next_node (Some END) state in
                  ret state
                else
                  let state := AgentState.set_next_node (Some "validate") state in
                  ret state
            | Some chosen =>
                let remaining :=
                  filter (fun c => negb (list_Z_eqb (c_bbox c) chosen)) candidates in
                let state :=
                  AgentState.set_pending_candidates (map Candidate_dict remaining) state in
                action <-
                  lift (Action_model_validate str_int str_float
                          (JObj (Dict.set "type" (JStr "click")
                                   (Dict.set "bbox" (dump_ints chosen)
                                      (Action_model_dump action))))) ;;
                finish action state
            end
          else finish action state
      | [] => finish action state
      end
    else finish action state.

(** [state.last_action.get("type") == "click"] on a non-empty dict *)
Definition last_action_is_click (state : AgentState.t) : bool :=
  match AgentState.last_action state with
  | Some ((_ :: _) as d) =>
      match Dict.getd "type" d with
      | JStr t => String.eqb t "click"
      | _ => false
      end
  | _ => false
  end.

(** [len(l) >= 2 and l[-1] == l[-2]] *)
Definition last_two_equal (l : list string) : bool :=
  match rev l with
  | a :: b :: _ => String.eqb a b
  | _ => false
  end.

Variable validator : Validator.

(** [if result.new_stage: ...]: the transition and its three resets *)
Definition apply_transition (result : ValidationResult) (state : AgentState.t)
  : AgentState.t :=
  match new_stage result with
  | Some st =>
      let state := AgentState.set_stage st state in
      let state := AgentState.set_retry_count 0 state in
      let state := AgentState.set_refine_level 0 state in
      AgentState.set_pending_candidates [] state
  | None => state
  end.

(** in SEARCH_RESULTS, after a click, the last two URLs are equal *)
Definition failed_navigation (state : AgentState.t) : bool :=
  Stage_eqb (AgentState.stage state) SEARCH_RESULTS
  && last_action_is_click state
  && last_two_equal (AgentState.last_urls state).

Definition next_candidate_click (bbox : json) : Dict.t :=
  [("type", JStr "click"); ("reason", JStr "next_candidate"); ("bbox", bbox)].

Definition validate_node (state_dict : AgentState.t) : M AgentState.t :=
  state <- lift (AgentState.model_validate state_dict) ;;
  if negb (Str.otruthy (AgentState.last_png_bytes state)) then
    ret (AgentState.set_next_node (Some "observe") state)
  else
    '(state, (result, img_hash)) <-
      lift (assess validator state (or_empty (AgentState.last_png_bytes state))) ;;
    if on_login_page state
    then ret (AgentState.set_next_node (Some "observe") state)
    else
      let state := apply_transition result state in
      if should_stop result then
        let state := AgentState.set_stage DONE state in
        ret (AgentState.set_next_node (Some END) state)
      else
        match recovery_action result with
        | Some ((_ :: _) as recovery) =>
            let state :=
              AgentState.set_retry_count (AgentState.retry_count state + 1) state in
            if AgentState.max_retries_per_stage state <? AgentState.retry_count state
            then
              let state := AgentState.set_stage DONE state in
              ret (AgentState.set_next_node (Some END) state)
            else
              let state := AgentState.set_last_action (Some recovery) state in
              ret (AgentState.set_next_node (Some "act") state)
        | _ =>
            if failed_navigation state then
              match AgentState.pending_candidates state with
              | next_cand :: rest =>
                  let state := AgentState.set_pending_candidates rest state in
                  bbox <- lift (match Dict.get "bbox" next_cand with
                                | Some bbox => ok bbox
                                | None => raise KeyError
                                end) ;;
                  let state :=
                    AgentState.set_last_action
                      (Some (next_candidate_click bbox)) state in
                  ret (AgentState.set_next_node (Some "act") state)
              | [] =>
                  let state :=
                    AgentState.set_refine_level
                      (Z.min (AgentState.refine_level state + 1) 2) state in
                  let state :=
                    AgentState.set_retry_count (AgentState.retry_count state + 1) state in
                  ret (AgentState.set_next_node (Some "observe") state)
              end
            else if should_extract result
                    && Stage_eqb (AgentState.stage state) RELEASES
            then ret (AgentState.set_next_node (Some "extract") state)
            else ret (AgentState.set_next_node (Some "observe") state)
        end.

Definition extract_node (state_dict : AgentState.t) : M AgentState.t :=
  state <- lift (AgentState.model_validate state_dict) ;;
  if negb (Str.otruthy (AgentState.last_png_bytes state)) then
    ret (AgentState.set_next_node (Some "observe") state)
  else
    release <- extract (or_empty (AgentState.last_png_bytes state))
                 (AgentState.target_repo state) ;;
    let state := AgentState.set_extracted_release (Some release) state in
    let state := AgentState.set_stage EXTRACTED state in
    ret (AgentState.set_next_node (Some END) state).

(** ** The graph: nodes, conditional edges, and a run *)

Inductive Node : Type :=
| N_observe | N_decide | N_act | N_validate | N_extract.

Definition node_fn (n : Node) : AgentState.t -> M AgentState.t :=
  match n with
  | N_observe => observe_node
  | N_decide => decide_node
  | N_act => act_node
  | N_validate => validate_node
  | N_extract => extract_node
  end.

(** the path map of the conditional edges leaving a node; [None] is
    the end of the graph *)
Definition edges (n : Node) : list (string * option Node) :=
  match n with
  | N_observe => [("decide", Some N_decide)]
  | N_decide => [("act", Some N_act)]
  | N_act => [("validate", Some N_validate)]
  | N_validate =>
      [("observe", Some N_observe); ("act", Some N_act);
       ("extract", Some N_extract); (END, None)]
  | N_extract => [(END, None)]
  end.

Fixpoint lookup {A} (k : string) (l : list (string * A)) : option A :=
  match l with
  | [] => None
  | (k', v) :: l' => if String.eqb k k' then Some v else lookup k l'
  end.

(** the node chosen by [s.get("next_node", default)] through the path
    map of node [n] *)
Definition route (n : Node) (s : AgentState.t) : res (option Node) :=
  match AgentState.next_node s with
  | Some name =>
      match lookup name (edges n) with
      | Some target => ok target
      | None => raise KeyError
      end
  | None => raise KeyError
  end.

(** one node of the graph and the edge out of it *)
Definition step (n : Node) (s : AgentState.t) : M (option Node * AgentState.t) :=
  s' <- node_fn n s ;;
  next <- lift (route n s') ;;
  ret (next, s').

(** [graph.invoke(state)] cut after [fuel] nodes: the final state, or
    the node and state where the fuel ran out *)
Fixpoint run (fuel : nat) (n : Node) (s : AgentState.t)
  : M (AgentState.t + Node * AgentState.t) :=
  match fuel with
  | O => ret (inr (n, s))
  | S fuel' =>
      '(next, s') <- step n s ;;
      match next with
      | None => ret (inl s')
      | Some n' => run fuel' n' s'
      end
  end.

(** ** The initial state ([navigate.py]) *)

Definition initial_state (repo url : string) (prompt : option string)
  (vlm router promptm : string) (max_steps max_retries : Z) : AgentState.t :=
  AgentState.mk repo url prompt (Some vlm) (Some router) (Some promptm)
    None None None None None
    0 0 max_steps max_retries
    [] []
    HOME None None 0 [] None
    (Some tracer_run_dir) None.

(** the configurations of a run: the entry point is [observe] *)
Inductive reachable : Node -> AgentState.t -> World -> Prop :=
| reach_start repo url prompt vlm router promptm max_steps max_retries w :
    reachable N_observe
      (initial_state repo url prompt vlm router promptm max_steps max_retries) w
| reach_step n s w n' s' w' :
    reachable n s w ->
    step n s w = inr ((Some n', s'), w') ->
    reachable n' s' w'.

End Program.

(* ===================================================================== *)
(** * A scripted environment *)
(* ===================================================================== *)

(** A small deterministic world on which runs can be computed: the page
    has a URL and one link; the vision service answers with the next
    payload of a script; every click is logged. *)
Module Sim.

Record world : Type := mkWorld {
  url : string;            (* [page.url] *)
  dest : string;           (* where the link of the page leads *)
  replies : list json;     (* the payloads the vision service will return *)
  clicks : list (Z * Z) }. (* the clicks so far, latest first *)

(** the link: the title of the second result card of a search page *)
Definition on_link (x y : Z) : bool :=
  (300 <=? x) && (x <=? 520) && (340 <=? y) && (y <=? 400).

Definition click (x y : Z) (w : world) : world :=
  mkWorld
    (if on_link x y && Str.contains "/search" (url w) then dest w else url w)
    (dest w) (replies w) ((x, y) :: clicks w).

Definition next_reply (w : world) : res (json * world) :=
  match replies w with
  | r :: rest => ok (r, mkWorld (url w) (dest w) rest (clicks w))
  | [] => raise (RuntimeError "Vision call failed")
  end.

Fixpoint codes (s : string) : list Z :=
  match s with
  | EmptyString => []
  | String c s' => Z.of_nat (nat_of_ascii c) :: codes s'
  end.

(** the first [n * n] character codes of the file, padded with zeros *)
Definition gray (png : string) (n : Z) : res (list Z) :=
  let k := Z.to_nat (n * n) in
  ok (firstn k (codes png ++ repeat 0 k)).

(** [draw.rectangle] refuses a box whose corners are out of order *)
Definition draw (png : string) (box : bbox4) (step : Z) (w : world) : res unit :=
  let '(x1, y1, x2, y2) := box in
  if (x2 <? x1) || (y2 <? y1) then raise ValueError else ok tt.

#[export] Instance env : Env := {|
  World := world;
  page_url := url;
  page_viewport_size := fun _ => Some (1280, 720);
  page_title := fun _ => Some "GitHub";
  page_wait_for_load_state := fun _ _ w => (true, w);
  page_screenshot := fun w => ("PNG " ++ url w, w);
  page_go_back := fun w => w;
  page_mouse_click := click;
  page_mouse_wheel := fun _ _ w => w;
  page_keyboard_press := fun _ w => w;
  page_keyboard_type := fun _ w => w;
  time_sleep := fun _ w => w;
  _call_json := fun _ _ _ _ => next_reply;
  model_vlm := "gpt-5-mini";
  image_size := fun _ => ok (1280, 720);
  image_gray := gray;
  overlay_open := fun _ _ => ok tt;
  overlay_draw := draw;
  tracer_run_dir := "runs/20240101_000000";
  tracer_save_image := fun _ _ => "runs/20240101_000000/step.png";
  str_int := fun _ => None;
  str_float := fun _ => None
|}.

Definition start (repo : string) (max_steps max_retries : Z) : AgentState.t :=
  initial_state repo "https://github.com" None
    "gpt-5-mini" "gpt-5-nano" "gpt-5-mini" max_steps max_retries.

Definition search_url : string := "https://github.com/search?q=openclaw".
Definition repo_url : string := "https://github.com/openclaw/openclaw".

Definition card_a : json := JList [JInt 300; JInt 200; JInt 900; JInt 320].
Definition card_b : json := JList [JInt 300; JInt 340; JInt 900; JInt 460].
Definition banner : json := JList [JInt 10; JInt 10; JInt 100; JInt 40].

(** the configuration after [fuel] nodes of a run from [observe] *)
Definition after (fuel : nat) (s0 : AgentState.t) (w0 : world)
  : Node * AgentState.t * world :=
  match run default_validator fuel N_observe s0 w0 with
  | inr (inr (n, s), w) => (n, s, w)
  | _ => (N_observe, s0, w0)
  end.

Definition node_at (fuel : nat) (s0 : AgentState.t) (w0 : world) : Node :=
  fst (fst (after fuel s0 w0)).

Definition state_at (fuel : nat) (s0 : AgentState.t) (w0 : world) : AgentState.t :=
  snd (fst (after fuel s0 w0)).

Definition world_at (fuel : nat) (s0 : AgentState.t) (w0 : world) : world :=
  snd (after fuel s0 w0).

(** the default run and runs with a low step ceiling *)
Definition default_start : AgentState.t := start "openclaw/openclaw" 25 3.
Definition one_step_start : AgentState.t := start "openclaw/openclaw" 1 3.
Definition three_step_start : AgentState.t := start "openclaw/openclaw" 3 3.
Definition no_retry_start : AgentState.t := start "openclaw/openclaw" 25 0.

Definition home_url : string := "https://github.com".
Definition home_png : string := "PNG https://github.com".
Definition home_hash : string := "fffffc0000000000".

(** a payload [{"type": ..., "reason": ..., ...}] *)
Definition reply (type reason : string) (fields : Dict.t) : json :=
  JObj (("type", JStr type) :: ("reason", JStr reason) :: fields).

Definition wait : json := reply "wait" "nothing to do" [].

(** the sign-in page, where the model only waits *)
Definition login_world : world :=
  mkWorld "https://github.com/login" repo_url [wait; wait] [].

(** the home page, where the model only waits *)
Definition idle_world : world :=
  mkWorld home_url repo_url [wait; wait; wait; wait] [].

(** the page of the repository itself *)
Definition repo_world : world := mkWorld repo_url repo_url [wait] [].

(** a search page: the model first proposes the banner, then the second
    result card *)
Definition banner_then_card_world : world :=
  mkWorld search_url repo_url
    [reply "click_candidates" "results" [("candidates", JList [JObj [("bbox", banner)]])];
     reply "click" "card" [("bbox", card_b)]] [].

(** a search page: the model proposes the two result cards at once *)
Definition two_cards_world : world :=
  mkWorld search_url repo_url
    [reply "click_candidates" "results"
       [("candidates", JList [JObj [("bbox", card_a)]; JObj [("bbox", card_b)]])]] [].

(** the same, on a search page whose query names the repository *)
Definition named_query_world : world :=
  mkWorld "https://github.com/search?q=openclaw/openclaw" repo_url
    [reply "click_candidates" "results"
       [("candidates", JList [JObj [("bbox", card_a)]; JObj [("bbox", card_b)]])]] [].


(** a page on which the model answers
    [{"type": "bbox", "coords": [10, 10, 50, 30]}], without or with a
    reason *)
Definition bbox_world : world :=
  mkWorld "https://github.com" repo_url
    [JObj [("type", JStr "bbox");
           ("coords", JList [JInt 10; JInt 10; JInt 50; JInt 30])]] [].

Definition bbox_reason_world : world :=
  mkWorld "https://github.com" repo_url
    [JObj [("type", JStr "bbox"); ("reason", JStr "search box");
           ("coords", JList [JInt 10; JInt 10; JInt 50; JInt 30])]] [].

End Sim.

(* ===================================================================== *)
(** * Notions used by the statements *)
(* ===================================================================== *)

Unset Implicit Arguments.


(** a binary64 value below one, as the fractions of the grid are *)
Definition small_fraction (f : PyFloat.float) : Prop :=
exists m e, f = PyFloat.Fin m e /\ Z.abs m < 2 ^ 53 /\ e <= -53.

(** a point at least four pixels inside the region *)
Definition within_margin (x1 y1 x2 y2 : Z) (p : Z * Z) : Prop :=
x1 + 4 <= fst p <= x2 - 4 /\ y1 + 4 <= snd p <= y2 - 4.

(** [a <= b] for two float computations that both return *)
Definition float_le (a b : res PyFloat.float) : Prop :=
exists x y, a = ok x /\ b = ok y /\ PyFloat.leb x y = true.

Section Notions.
Context {E : Env}.

(** the click on a bbox, with nothing else set *)
Definition click_action (reason : string) (bbox : list Z) : Action.t :=
  Action.mk "click" reason (Some bbox) None None None None None.

(** a queue entry with a non-empty list of integers under ["bbox"] *)
Definition has_bbox (c : Dict.t) : Prop :=
  exists l, l <> [] /\ Dict.get "bbox" c = Some (dump_ints l).

(** the state [decide_node] returns when it decides on action [a] *)
Definition decided_state (a : Action.t) (s : AgentState.t) : AgentState.t :=
  let s1 := AgentState.set_last_action (Some (Action_model_dump a)) (force_search_stage s) in
  AgentState.set_next_node (Some "act")
    (if bbox_truthy (Action.bbox a)
     then AgentState.set_last_bbox (Action.bbox a) s1 else s1).

(** the overlay that [decide_node] draws for the bbox [l] goes through,
    or there is none to draw (no bbox, or no screenshot) *)
Definition overlay_ok (s : AgentState.t) (l : list Z) (w : World) : Prop :=
  bbox_truthy (Some l) && Str.otruthy (AgentState.last_png_bytes s) = true ->
  _save_bbox_overlay (or_empty (AgentState.last_png_bytes s)) l
    (AgentState.step_count s + 1) w = ok (tt, w).

(** the tail of [act_node]: one more step, on to [validate] *)
Definition stepped (s : AgentState.t) : AgentState.t :=
  AgentState.set_next_node (Some "validate")
    (AgentState.set_step_count (AgentState.step_count s + 1) s).

(** [action.type == "click" and action.bbox] *)
Definition is_bbox_click (a : Action.t) : bool :=
  String.eqb (Action.type a) "click" && bbox_truthy (Action.bbox a).

(** an action on which [act_node] leaves the queue alone: a bbox click
    (grid exploration) or an action without bbox and candidates *)
Definition harmless (a : Action.t) : Prop :=
  is_bbox_click a = true
  \/ (bbox_truthy (Action.bbox a) = false /\ Action.candidates a = None).

Definition act_ready (s : AgentState.t) : Prop :=
  exists a,
    Action_model_validate str_int str_float (JObj (last_action_or_noop s)) = ok a
    /\ harmless a.

(** the states [act_node] can return on action [a] *)
Inductive act_outcome (s : AgentState.t) (a : Action.t) : AgentState.t -> Prop :=
| ao_explore (success : bool) :
    AgentState.stage s = SEARCH_RESULTS ->
    is_bbox_click a = true ->
    act_outcome s a
      (stepped (if success then AgentState.set_stage REPO s else s))
| ao_reject_done :
    AgentState.stage s = SEARCH_RESULTS ->
    is_bbox_click a = false ->
    candidates_of a <> [] ->
    AgentState.max_retries_per_stage s < AgentState.retry_count s + 1 ->
    act_outcome s a
      (AgentState.set_next_node (Some END)
         (AgentState.set_stage DONE
            (AgentState.set_retry_count (AgentState.retry_count s + 1) s)))
| ao_reject :
    AgentState.stage s = SEARCH_RESULTS ->
    is_bbox_click a = false ->
    candidates_of a <> [] ->
    AgentState.retry_count s + 1 <= AgentState.max_retries_per_stage s ->
    act_outcome s a
      (AgentState.set_next_node (Some "validate")
         (AgentState.set_retry_count (AgentState.retry_count s + 1) s))
| ao_accept chosen :
    AgentState.stage s = SEARCH_RESULTS ->
    is_bbox_click a = false ->
    candidates_of a <> [] ->
    act_outcome s a
      (stepped
         (AgentState.set_pending_candidates
            (map Candidate_dict
               (filter (fun c => negb (list_Z_eqb (c_bbox c) chosen))
                  (candidates_of a))) s))
| ao_plain :
    (AgentState.stage s = SEARCH_RESULTS -> is_bbox_click a = false) ->
    act_outcome s a (stepped s).

(** what [validate_node] does once the verdict [r] is known and the
    transition applied *)
Inductive decided (r : ValidationResult) (s2 : AgentState.t) : AgentState.t -> Prop :=
| d_stop :
    should_stop r = true ->
    decided r s2 (AgentState.set_next_node (Some END) (AgentState.set_stage DONE s2))
| d_exhausted d :
    should_stop r = false ->
    recovery_action r = Some d -> d <> [] ->
    AgentState.max_retries_per_stage s2 < AgentState.retry_count s2 + 1 ->
    decided r s2
      (AgentState.set_next_node (Some END)
         (AgentState.set_stage DONE
            (AgentState.set_retry_count (AgentState.retry_count s2 + 1) s2)))
| d_recovery d :
    should_stop r = false ->
    recovery_action r = Some d -> d <> [] ->
    AgentState.retry_count s2 + 1 <= AgentState.max_retries_per_stage s2 ->
    decided r s2
      (AgentState.set_next_node (Some "act")
         (AgentState.set_last_action (Some d)
            (AgentState.set_retry_count (AgentState.retry_count s2 + 1) s2)))
| d_next_candidate c rest bbox :
    should_stop r = false ->
    (recovery_action r = None \/ recovery_action r = Some []) ->
    failed_navigation s2 = true ->
    AgentState.pending_candidates s2 = c :: rest ->
    Dict.get "bbox" c = Some bbox ->
    decided r s2
      (AgentState.set_next_node (Some "act")
         (AgentState.set_last_action (Some (next_candidate_click bbox))
            (AgentState.set_pending_candidates rest s2)))
| d_refine :
    should_stop r = false ->
    (recovery_action r = None \/ recovery_action r = Some []) ->
    failed_navigation s2 = true ->
    AgentState.pending_candidates s2 = [] ->
    decided r s2
      (AgentState.set_next_node (Some "observe")
         (AgentState.set_retry_count (AgentState.retry_count s2 + 1)
            (AgentState.set_refine_level
               (Z.min (AgentState.refine_level s2 + 1) 2) s2)))
| d_extract :
    should_stop r = false ->
    (recovery_action r = None \/ recovery_action r = Some []) ->
    failed_navigation s2 = false ->
    should_extract r && Stage_eqb (AgentState.stage s2) RELEASES = true ->
    decided r s2 (AgentState.set_next_node (Some "extract") s2)
| d_continue :
    should_stop r = false ->
    (recovery_action r = None \/ recovery_action r = Some []) ->
    failed_navigation s2 = false ->
    should_extract r && Stage_eqb (AgentState.stage s2) RELEASES = false ->
    decided r s2 (AgentState.set_next_node (Some "observe") s2).

(** the stuck condition: after the push, the hash and the URL each fill
    at least three slots of their history *)
Definition stuck_on (h url : string) (s : AgentState.t) : Prop :=
  3 <= count h (AgentState.keep_last 6 (AgentState.last_screenshot_hashes s ++ [h]))
  /\ 3 <= count url (AgentState.keep_last 6 (AgentState.last_urls s ++ [url])).

(** a state in which validation finds the agent stuck *)
Record at_standstill (url png h : string) (s : AgentState.t) : Prop := mkStandstill {
  ss_valid : AgentState.model_validate s = ok s;
  ss_url : AgentState.current_url s = Some url;
  ss_url_truthy : Str.truthy url = true;
  ss_no_login : Str.contains "/login" url = false;
  ss_png : AgentState.last_png_bytes s = Some png;
  ss_png_truthy : Str.truthy png = true;
  ss_hash : average_hash png 8 = ok h;
  ss_stuck : stuck_on h url s }.

(** the state [validate_node] returns at a standstill *)
Definition recovered (h : string) (s : AgentState.t) : AgentState.t :=
  let s1 := record_observation h s in
  AgentState.set_next_node (Some "act")
    (AgentState.set_last_action (Some (stuck_recovery s1))
       (AgentState.set_retry_count (AgentState.retry_count s1 + 1) s1)).

Definition is_recovery (d : Dict.t) : Prop :=
  d = stuck_recovery_scroll_down \/ d = stuck_recovery_scroll_up
  \/ d = stuck_recovery_back.

(** the raw screenshot, if any, opens as an image *)
Definition decodable (s : AgentState.t) : Prop :=
  forall raw, AgentState.last_png_bytes_raw s = Some raw ->
              exists sz, image_size raw = ok sz.

(** the payload [{"type": "bbox", "coords": [10, 10, 50, 30]}] *)
Definition bbox_payload : json :=
  JObj [("type", JStr "bbox");
        ("coords", JList [JInt 10; JInt 10; JInt 50; JInt 30])].

(** the same payload with a [reason] *)
Definition bbox_payload_with (reason : string) : json :=
  JObj [("type", JStr "bbox"); ("reason", JStr reason);
        ("coords", JList [JInt 10; JInt 10; JInt 50; JInt 30])].

(** what holds of every configuration of a run *)
Record Inv (n : Node) (s : AgentState.t) : Prop := mkInv {
  inv_pending : Forall has_bbox (AgentState.pending_candidates s);
  inv_valid : n <> N_act -> AgentState.model_validate s = ok s;
  inv_home : n = N_act \/ n = N_validate ->
             AgentState.stage s = HOME -> on_search_page s = false;
  inv_ready : n = N_act -> AgentState.stage s = SEARCH_RESULTS ->
              AgentState.pending_candidates s <> [] -> act_ready s;
  inv_release : AgentState.extracted_release s = None }.

Variable v : Validator.

Inductive validate_outcome (s : AgentState.t) : AgentState.t -> Prop :=
| vo_no_screenshot :
    Str.otruthy (AgentState.last_png_bytes s) = false ->
    validate_outcome s (AgentState.set_next_node (Some "observe") s)
| vo_login h :
    Str.otruthy (AgentState.last_png_bytes s) = true ->
    average_hash (or_empty (AgentState.last_png_bytes s)) 8 = ok h ->
    on_login_page (record_observation h s) = true ->
    validate_outcome s
      (AgentState.set_next_node (Some "observe") (record_observation h s))
| vo_decided h r s' :
    Str.otruthy (AgentState.last_png_bytes s) = true ->
    average_hash (or_empty (AgentState.last_png_bytes s)) 8 = ok h ->
    on_login_page (record_observation h s) = false ->
    r = verdict v h (record_observation h s) ->
    decided r (apply_transition r (record_observation h s)) s' ->
    validate_outcome s s'.

(** the state on which [validate_node] decides: histories extended and
    the URL-derived transition applied *)
Definition settled (h : string) (s : AgentState.t) : AgentState.t :=
  apply_transition (verdict v h (record_observation h s)) (record_observation h s).

End Notions.

(* ===================================================================== *)
(** * The steps of the payload normalizer *)
(* ===================================================================== *)

(** The blocks of [VisionClient._normalize_action_payload], one function
    each, in the order of the source. *)

(** the two tests on [action_type] *)
Definition type_renamed (payload : Dict.t) : Dict.t :=
  let action_type := Dict.getd "type" payload in
  let payload :=
    if is_str_in action_type ["bbox"; "box"]
    then Dict.set "type" (JStr "click") payload else payload in
  if is_str_in action_type ["click_type"; "click-and-type"; "click_and_type"]
  then Dict.set "type" (JStr "click") payload else payload.

(** Map top-level coords -> bbox if present. *)
Definition coords_as_bbox (payload : Dict.t) : Dict.t :=
  if Dict.has "coords" payload && negb (Dict.has "bbox" payload)
  then Dict.set "bbox" (Dict.getd "coords" payload) payload
  else payload.

(** If bbox is a list of bboxes, move them into candidates. *)
Definition boxes_as_candidates (payload : Dict.t) : Dict.t :=
  let bbox_val := Dict.getd "bbox" payload in
  match bbox_val with
  | JList ((JList _ :: _) as boxes) =>
      Dict.set "bbox" JNull
        (Dict.set "candidates"
           (JList (map (fun b => JObj [("bbox", b)]) boxes)) payload)
  | _ => payload
  end.

(** Normalize candidates *)
Definition candidates_normalized (payload : Dict.t) : Dict.t :=
  let cands := Dict.getd "candidates" payload in
  match cands with
  | JList cands =>
      Dict.set "candidates"
        (JList (filter_map normalize_candidate cands)) payload
  | _ => payload
  end.

(** a string [expect] becomes [{"page_contains_text": expect}] *)
Definition expect_wrapped (payload : Dict.t) : Dict.t :=
  let expect := Dict.getd "expect" payload in
  match expect with
  | JStr s =>
      Dict.set "expect" (JObj [("page_contains_text", JStr s)]) payload
  | _ => payload
  end.

(** the payload above the line [scroll = payload.get("scroll")] *)
Definition normalized_head (payload : Dict.t) : Dict.t :=
  expect_wrapped
    (candidates_normalized
       (boxes_as_candidates (coords_as_bbox (type_renamed payload)))).

(** [if scroll is False: payload["scroll"] = None; scroll = None] *)
Definition scroll_cleared (payload : Dict.t) : Dict.t * json :=
  let scroll := Dict.getd "scroll" payload in
  match scroll with
  | JBool false => (Dict.set "scroll" JNull payload, JNull)
  | _ => (payload, scroll)
  end.

(** the rounding of a float [scroll["amount"]] *)
Definition scroll_rounded (payload : Dict.t) (scroll : json) : res Dict.t :=
  match scroll with
  | JObj sc =>
      match Dict.get "amount" sc with
      | Some (JFloat amount) =>
          if PyFloat.ltb (Fin 0 0) amount
             && PyFloat.ltb amount (Fin (2 ^ 52) (-52))
          then ok (Dict.set "scroll"
                     (JObj (Dict.set "amount" (JInt 400) sc)) payload)
          else
            (n <- PyFloat.round_int amount ;;
             ok (Dict.set "scroll"
                   (JObj (Dict.set "amount" (JInt n) sc)) payload))%res
      | _ => ok payload
      end
  | _ => ok payload
  end.

(** the filter on [payload["key"]] *)
Definition key_checked (payload : Dict.t) : Dict.t :=
  match Dict.getd "key" payload with
  | JStr k =>
      if existsb (String.eqb k) allowed_keys then payload
      else Dict.set "key" JNull payload
  | _ => payload
  end.

(* ===================================================================== *)
(** * Notions used by the statements on geometry *)
(* ===================================================================== *)

(** a finite float with exponent at most 0 whose value lies between the
    integers [lo] and [hi] *)
Definition float_between (lo hi : Z) (x : PyFloat.float) : Prop :=
  exists m e, x = PyFloat.Fin m e /\ e <= 0
              /\ lo * 2 ^ (- e) <= m <= hi * 2 ^ (- e).


Section GeometryNotions.
Context {E : Env}.

(** a property of the world kept by every click at a point of [P], and
    by scrolling, sleeping and waiting for the page *)
Definition click_safe (P : Z * Z -> Prop) (I : World -> Prop) : Prop :=
  (forall x y w, P (x, y) -> I w -> I (page_mouse_click x y w))
  /\ (forall dx dy w, I w -> I (page_mouse_wheel dx dy w))
  /\ (forall t w, I w -> I (time_sleep t w))
  /\ (forall state timeout w,
        I w -> I (snd (page_wait_for_load_state state timeout w))).

End GeometryNotions.

(** the stages in the order of a successful run; the two final stages
    share the last rank *)
Definition stage_rank (s : Stage) : Z :=
  match s with
  | HOME => 0
  | SEARCH_RESULTS => 1
  | REPO => 2
  | RELEASES => 3
  | EXTRACTED => 4
  | DONE => 4
  end.

(** the settings of a run: the repository looked for and the two
    ceilings *)
Definition limits (s : AgentState.t) : string * Z * Z :=
  (AgentState.target_repo s, AgentState.max_steps s,
   AgentState.max_retries_per_stage s).

(** the two histories of a state *)
Definition histories (s : AgentState.t) : list string * list string :=
  (AgentState.last_screenshot_hashes s, AgentState.last_urls s).

(** [act_node] has given up: the rejection it has just counted went
    past the retry ceiling *)
Definition gave_up (s s' : AgentState.t) : bool :=
  (AgentState.retry_count s' =? AgentState.retry_count s + 1)
  && (AgentState.max_retries_per_stage s <? AgentState.retry_count s').

(** an action [_execute_action] has no branch for: a click without
    bbox, a press without key, a scroll without its spec, or a type
    other than the six it knows *)
Definition inert (a : Action.t) : bool :=
  let t := Action.type a in
  if String.eqb t "click" then negb (bbox_truthy (Action.bbox a))
  else if String.eqb t "type" then false
  else if String.eqb t "press" then negb (Str.otruthy (Action.key a))
  else if String.eqb t "scroll" then negb (is_some (Action.scroll a))
  else if String.eqb t "back" then false
  else if String.eqb t "wait" then false
  else true.

(** [s if isinstance(s, str)], [None] for a missing or null entry *)
Definition str_entry (k : string) (d : Dict.t) : option string :=
  match Dict.get k d with
  | Some (JStr s) => Some s
  | _ => None
  end.

(* ===================================================================== *)
(** * Facts about binary64 arithmetic *)
(* ===================================================================== *)

Module PyFloatFacts.

Import PyFloat.


Lemma round_pos_not_nan s n d : round_pos s n d <> NaN.
Proof.
unfold round_pos, mk.
destruct (n =? 0); [discriminate|].
destruct (_ =? 2 ^ 53); destruct (emax <? _); try discriminate;
  destruct (_ =? 0); discriminate.
Qed.

Lemma round_not_nan n d : round n d <> NaN.
Proof. unfold round. destruct (n <? 0); apply round_pos_not_nan. Qed.

Lemma mul_fin_not_nan m1 e1 m2 e2 : mul (Fin m1 e1) (Fin m2 e2) <> NaN.
Proof. apply round_not_nan. Qed.

Lemma of_int_not_nan n f : of_int n = ok f -> f <> NaN.
Proof.
unfold of_int. destruct (round n 1); intros H; inversion H; discriminate.
Qed.

Lemma of_int_fin n f : of_int n = ok f -> exists m e, f = Fin m e.
Proof.
unfold of_int. destruct (round n 1); intros H; inversion H; eauto.
Qed.

Lemma ltb_false_leb x y :
x <> NaN -> y <> NaN -> ltb x y = false -> leb y x = true.
Proof.
destruct x as [m1 e1|s1|], y as [m2 e2|s2|]; simpl; try congruence; intros _ _.
- intros H. apply Z.ltb_ge in H. now apply Z.leb_le.
- now destruct s2.
- now destruct s1.
- destruct s1, s2; simpl; congruence.
Qed.

Lemma ilog2_frac_pow2 n j :
0 < n -> 0 <= j -> ilog2_frac n (2 ^ j) = Z.log2 n - j.
Proof.
intros Hn Hj. unfold ilog2_frac.
rewrite Z.log2_pow2 by lia.
set (a := Z.log2 n).
assert (Ha : 2 ^ a <= n) by (apply Z.log2_spec; lia).
assert (0 <= a) by apply Z.log2_nonneg.
destruct (Z.ltb_spec (n * 2 ^ Z.max 0 (- (a - j))) (2 ^ j * 2 ^ Z.max 0 (a - j))) as [H1|H1]; [|reflexivity].
exfalso.
destruct (Z_le_gt_dec j a).
- rewrite Z.max_l in H1 by lia. rewrite Z.max_r in H1 by lia.
  rewrite <- Z.pow_add_r in H1 by lia.
  replace (j + (a - j)) with a in H1 by lia. simpl in H1. lia.
- rewrite Z.max_r in H1 by lia. rewrite Z.max_l in H1 by lia.
  replace j with (a + (j - a)) in H1 at 2 by lia.
  rewrite Z.pow_add_r in H1 by lia.
  replace (- (a - j)) with (j - a) in H1 by lia.
  assert (0 < 2 ^ (j - a)) by (apply Z.pow_pos_nonneg; lia).
  nia.
Qed.

Lemma scaled_quotient_bound n j e a :
0 < n -> 0 <= j -> n < 2 ^ (a + 1) -> 0 <= a -> a - j - 52 <= e ->
(n * 2 ^ Z.max 0 (- e)) / (2 ^ j * 2 ^ Z.max 0 e) < 2 ^ 53.
Proof.
intros Hn Hj Hlt Ha He.
assert (Hd : 0 < 2 ^ j * 2 ^ Z.max 0 e).
{ apply Z.mul_pos_pos; apply Z.pow_pos_nonneg; lia. }
apply Z.div_lt_upper_bound; [exact Hd|].
rewrite <- Z.pow_add_r by lia. rewrite <- Z.pow_add_r by lia.
destruct (Z_le_gt_dec 0 e).
- rewrite (Z.max_l 0 (- e)) by lia. rewrite (Z.max_r 0 e) by lia.
  rewrite Z.mul_1_r.
  eapply Z.lt_le_trans; [exact Hlt|].
  apply Z.pow_le_mono_r; lia.
- rewrite (Z.max_r 0 (- e)) by lia. rewrite (Z.max_l 0 e) by lia.
  assert (0 < 2 ^ (- e)) by (apply Z.pow_pos_nonneg; lia).
  apply Z.lt_le_trans with (2 ^ (a + 1) * 2 ^ (- e)); [nia|].
  rewrite <- Z.pow_add_r by lia.
  apply Z.pow_le_mono_r; lia.
Qed.

Lemma round_pos_pow2 s n j K :
0 < n -> 0 <= j -> n < 2 ^ (K + j) -> K <= 1023 ->
exists m e, round_pos s n (2 ^ j) = Fin m e
            /\ Z.abs m < 2 ^ 53 /\ e <= Z.max 0 (K - 52).
Proof.
intros Hn Hj Hlt HK. unfold round_pos.
destruct (Z.eqb_spec n 0) as [->|_]; [lia|].
rewrite ilog2_frac_pow2 by lia.
set (a := Z.log2 n).
assert (Ha0 : 0 <= a) by apply Z.log2_nonneg.
assert (Ha : 2 ^ a <= n < 2 ^ (a + 1)).
{ unfold a. replace (Z.log2 n + 1) with (Z.succ (Z.log2 n)) by lia.
  apply Z.log2_spec; lia. }
assert (HaK : a - j <= K - 1).
{ assert (Hx : 2 ^ a < 2 ^ (K + j)) by (destruct Ha; eapply Z.le_lt_trans; eassumption).
  destruct (Z_le_gt_dec 0 (K + j)).
  - apply Z.pow_lt_mono_r_iff in Hx; lia.
  - rewrite (Z.pow_neg_r 2 (K + j)) in Hx by lia.
    assert (0 < 2 ^ a) by (apply Z.pow_pos_nonneg; lia). lia. }
set (e := Z.max emin (a - j - 52)).
assert (He1 : a - j - 52 <= e) by (unfold e; lia).
assert (He2 : e <= Z.max emin (K - 53)) by (unfold e; lia).
pose proof (@scaled_quotient_bound n j e a Hn Hj (proj2 Ha) Ha0 He1) as Hq.
set (num := n * 2 ^ Z.max 0 (- e)) in *.
set (den := 2 ^ j * 2 ^ Z.max 0 e) in *.
assert (Hden : 0 < den).
{ unfold den. apply Z.mul_pos_pos; apply Z.pow_pos_nonneg; lia. }
assert (Hq0 : 0 <= num / den).
{ apply Z.div_pos; [|exact Hden]. unfold num.
  apply Z.mul_nonneg_nonneg; [lia|]. apply Z.pow_nonneg; lia. }
set (m := if 2 * (num mod den) <? den then num / den
          else if den <? 2 * (num mod den) then num / den + 1
          else if Z.even (num / den) then num / den else num / den + 1).
assert (Hm : 0 <= m <= 2 ^ 53).
{ unfold m. destruct (_ <? den); [lia|].
  destruct (den <? _); [lia|]. destruct (Z.even _); lia. }
unfold emin, emax in *.
destruct (Z.eqb_spec m (2 ^ 53)) as [Hc|Hc].
- destruct (Z.ltb_spec 971 (e + 1)); [lia|].
  unfold mk. destruct s; simpl; eexists _, _; split; try reflexivity; split; lia.
- destruct (Z.ltb_spec 971 e); [lia|].
  unfold mk.
  destruct (Z.eqb_spec (if s then - m else m) 0).
  + eexists _, _; split; [reflexivity|]. split; simpl; lia.
  + eexists _, _; split; [reflexivity|]. split; [destruct s; lia | lia].
Qed.

Lemma round_pow2 n j K :
0 <= j -> Z.abs n < 2 ^ (K + j) -> K <= 1023 ->
exists m e, round n (2 ^ j) = Fin m e
            /\ Z.abs m < 2 ^ 53 /\ e <= Z.max 0 (K - 52).
Proof.
intros Hj Hn HK. unfold round.
destruct (Z.ltb_spec n 0).
- apply round_pos_pow2 with (K := K); lia.
- destruct (Z.eq_dec n 0) as [->|].
  + exists 0, 0. repeat split; simpl; lia.
  + apply round_pos_pow2 with (K := K); lia.
Qed.

Lemma of_int_bounded n K :
Z.abs n < 2 ^ K -> 0 <= K <= 1023 ->
exists m e, of_int n = ok (Fin m e)
            /\ Z.abs m < 2 ^ 53 /\ e <= Z.max 0 (K - 52).
Proof.
intros Hn HK. unfold of_int.
destruct (@round_pow2 n 0 K) as (m & e & Hr & Hm & He); try lia.
{ now rewrite Z.add_0_r. }
change (2 ^ 0) with 1 in Hr. rewrite Hr. eauto.
Qed.

Lemma mul_bounded m1 e1 m2 e2 :
Z.abs m1 < 2 ^ 53 -> Z.abs m2 < 2 ^ 53 -> e1 + e2 <= 917 ->
exists m e, mul (Fin m1 e1) (Fin m2 e2) = Fin m e.
Proof.
intros H1 H2 Hs. simpl.
destruct (@round_pow2 (m1 * m2 * 2 ^ Z.max 0 (e1 + e2)) (Z.max 0 (- (e1 + e2))) 1023)
  as (m & e & Hr & _); try lia.
- rewrite Z.abs_mul, Z.abs_mul.
  rewrite (Z.abs_eq (2 ^ _)) by (apply Z.pow_nonneg; lia).
  assert (Hp : Z.abs m1 * Z.abs m2 < 2 ^ 106).
  { change (2 ^ 106) with (2 ^ 53 * 2 ^ 53). nia. }
  assert (0 < 2 ^ Z.max 0 (e1 + e2)) by (apply Z.pow_pos_nonneg; lia).
  apply Z.lt_le_trans with (2 ^ 106 * 2 ^ Z.max 0 (e1 + e2)); [nia|].
  rewrite <- Z.pow_add_r by lia.
  apply Z.pow_le_mono_r; lia.
- eauto.
Qed.

End PyFloatFacts.

Lemma rbind_inv {A B} (c : res A) (k : A -> res B) b :
  rbind c k = inr b -> exists a, c = inr a /\ k a = inr b.
Proof. destruct c; simpl; [discriminate|eauto]. Qed.

(* ===================================================================== *)
(** * The grid of the exploration fallback *)
(* ===================================================================== *)


Lemma mapM_ok {A B} (f : A -> res B) (P : B -> Prop) (l : list A) :
(forall a, In a l -> exists b, f a = ok b /\ P b) ->
exists bs, mapM f l = ok bs /\ Forall P bs /\ List.length bs = List.length l.
Proof.
induction l as [|a l IH]; intros H; simpl.
- exists []. repeat split; constructor.
- destruct (H a) as (b & Hb & Pb); [now left|].
  destruct IH as (bs & Hbs & Pbs & Hlen); [intros; apply H; now right|].
  exists (b :: bs). rewrite Hb, Hbs. simpl. repeat split; auto.
Qed.

Lemma int_scaled_total f n :
small_fraction f -> Z.abs n < 2 ^ 1000 -> exists z, int_scaled f n = ok z.
Proof.
intros (m & e & -> & Hm & He) Hn. unfold int_scaled.
destruct (@PyFloatFacts.of_int_bounded n 1000) as (mn & en & Hof & Hmn & Hen); try lia.
rewrite Hof. cbv beta iota delta [rbind ok].
destruct (@PyFloatFacts.mul_bounded m e mn en) as (m' & e' & Hmul); try lia.
rewrite Hmul. simpl. eauto.
Qed.

Lemma fracs_3 : exists l, fracs 3 = ok l /\ Forall small_fraction l /\ List.length l = 3%nat.
Proof.
eexists. split; [vm_compute; reflexivity|]. split; [|reflexivity].
repeat constructor; eexists _, _; (split; [reflexivity|]); split; vm_compute; congruence.
Qed.

Lemma fracs_5 : exists l, fracs 5 = ok l /\ Forall small_fraction l /\ List.length l = 5%nat.
Proof.
eexists. split; [vm_compute; reflexivity|]. split; [|reflexivity].
repeat constructor; eexists _, _; (split; [reflexivity|]); split; vm_compute; congruence.
Qed.

Lemma fracs_2 : exists l, fracs 2 = ok l /\ Forall small_fraction l /\ List.length l = 2%nat.
Proof.
eexists. split; [vm_compute; reflexivity|]. split; [|reflexivity].
repeat constructor; eexists _, _; (split; [reflexivity|]); split; vm_compute; congruence.
Qed.

Lemma length_concat_const {A} (ls : list (list A)) n :
Forall (fun l => List.length l = n) ls -> List.length (List.concat ls) = (List.length ls * n)%nat.
Proof.
induction 1; simpl; [reflexivity|]. rewrite List.length_app. lia.
Qed.

Lemma Forall_concat {A} (P : A -> Prop) (ls : list (list A)) :
Forall (Forall P) ls -> Forall P (List.concat ls).
Proof.
induction 1; simpl; [constructor|]. apply Forall_app. auto.
Qed.

Lemma Forall_firstn {A} (P : A -> Prop) n (l : list A) :
Forall P l -> Forall P (firstn n l).
Proof.
intros H. revert n. induction H; intros [|n]; simpl; constructor; auto.
Qed.

(* ===================================================================== *)
(** * The geometric gate *)
(* ===================================================================== *)


Lemma center_not_nan a b c : center a b = ok c -> c <> PyFloat.NaN.
Proof.
unfold center. intros H. apply rbind_inv in H. destruct H as (s & Hs & H).
apply PyFloatFacts.of_int_fin in Hs. destruct Hs as (m & e & ->).
unfold PyFloat.div, two in H. cbn [PyFloat.is_zero] in H.
change (4503599627370496 =? 0) with false in H. cbv iota in H.
inversion H. destruct (_ <? 0); apply PyFloatFacts.round_not_nan.
Qed.

Lemma scale_by_not_nan n m e x :
scale_by n (PyFloat.Fin m e) = ok x -> x <> PyFloat.NaN.
Proof.
unfold scale_by. intros H. apply rbind_inv in H. destruct H as (f & Hf & H).
apply PyFloatFacts.of_int_fin in Hf. destruct Hf as (m' & e' & ->).
inversion H. apply PyFloatFacts.mul_fin_not_nan.
Qed.

(* ===================================================================== *)
(** * Inversion of the nodes *)
(* ===================================================================== *)

Section MonadFacts.
Context {E : Env}.


Lemma bind_inv {A B} (c : M A) (k : A -> M B) w b w' :
  bind c k w = inr (b, w') ->
  exists a w1, c w = inr (a, w1) /\ k a w1 = inr (b, w').
Proof.
  unfold bind. destruct (c w) as [e|[a w1]]; [discriminate|]. eauto.
Qed.

Lemma lift_inv {A} (r : res A) w a w' :
  lift r w = inr (a, w') -> r = inr a /\ w' = w.
Proof.
  unfold lift. destruct r; [discriminate|]. intros H; inversion H; auto.
Qed.

Lemma ret_inv {A} (a : A) w b w' : ret a w = inr (b, w') -> b = a /\ w' = w.
Proof. unfold ret, ok. intros H; inversion H; auto. Qed.

Lemma bind_ok {A B} (c : M A) (k : A -> M B) w a w1 :
  c w = ok (a, w1) -> bind c k w = k a w1.
Proof. unfold bind. now intros ->. Qed.

Lemma save_bbox_overlay_inv png bbox step w u w' :
  _save_bbox_overlay png bbox step w = inr (u, w') ->
  w' = w /\ _save_bbox_overlay png bbox step w = ok (tt, w).
Proof.
  intros H. assert (Hw : w' = w).
  { revert H. unfold _save_bbox_overlay, rbind, ok.
    destruct (overlay_open png w); [discriminate|].
    destruct (unpack4 bbox); [discriminate|].
    destruct (overlay_draw png b step w); [discriminate|].
    intros H; inversion H; reflexivity. }
  subst w'. destruct u. split; [reflexivity|exact H].
Qed.

End MonadFacts.

Lemma model_validate_inv s x : AgentState.model_validate s = inr x -> x = s.
Proof.
  unfold AgentState.model_validate.
  destruct (AgentState.last_bbox s) as [[|?[|?[|?[|?[|]]]]]|]; intros H; inversion H; auto.
Qed.

Lemma model_validate_idem s x :
  AgentState.model_validate s = inr x -> AgentState.model_validate s = inr s.
Proof. intros H. pose proof (@model_validate_inv _ _ H). now subst. Qed.

Lemma mv_last_bbox s s' :
  AgentState.last_bbox s' = AgentState.last_bbox s ->
  AgentState.model_validate s = ok s ->
  AgentState.model_validate s' = ok s'.
Proof.
  unfold AgentState.model_validate. intros ->.
  destruct (AgentState.last_bbox s) as [[|?[|?[|?[|?[|]]]]]|]; intros H; inversion H; auto.
Qed.

Ltac st_simpl :=
  cbn [AgentState.target_repo AgentState.start_url AgentState.prompt
       AgentState.vlm_model AgentState.router_model AgentState.prompt_model
       AgentState.current_url AgentState.page_title AgentState.last_png_bytes
       AgentState.last_png_bytes_raw AgentState.last_screenshot_path AgentState.step_count
       AgentState.retry_count AgentState.max_steps AgentState.max_retries_per_stage
       AgentState.last_urls AgentState.last_screenshot_hashes AgentState.stage
       AgentState.last_action AgentState.last_bbox AgentState.refine_level
       AgentState.pending_candidates AgentState.extracted_release AgentState.run_dir
       AgentState.next_node AgentState.set_current_url AgentState.set_page_title
       AgentState.set_last_png_bytes AgentState.set_last_png_bytes_raw AgentState.set_last_screenshot_path
       AgentState.set_step_count AgentState.set_retry_count AgentState.set_last_urls
       AgentState.set_last_screenshot_hashes AgentState.set_stage AgentState.set_last_action
       AgentState.set_last_bbox AgentState.set_refine_level AgentState.set_pending_candidates
       AgentState.set_extracted_release AgentState.set_run_dir AgentState.set_next_node
       AgentState.push_url AgentState.push_hash] in *.

Ltac minv :=
  unfold ok in *;
  repeat match goal with
  | H : bind _ _ _ = inr _ |- _ =>
      apply bind_inv in H; destruct H as (? & ? & ? & H)
  | H : lift _ _ = inr _ |- _ =>
      apply lift_inv in H; destruct H as [H ?]; subst
  | H : ret _ _ = inr _ |- _ =>
      apply ret_inv in H; destruct H as [? ?]; subst
  | H : _save_bbox_overlay _ _ _ _ = inr (_, _) |- _ =>
      apply save_bbox_overlay_inv in H; destruct H as [? H]; subst; revert H
  | H : AgentState.model_validate _ = inr _ |- _ =>
      pose proof (@model_validate_inv _ _ H); subst;
      apply model_validate_idem in H; revert H
  | H : (if ?c then _ else _) _ = inr _ |- _ => destruct c eqn:?
  | H : match ?x with _ => _ end _ = inr _ |- _ => destruct x eqn:?
  | H : inl _ = inr _ |- _ => discriminate H
  end; intros.

Ltac split_ifs :=
  repeat match goal with
  | |- context [if ?c then _ else _] => destruct c
  end.

Ltac mv s0 := intros; apply mv_last_bbox with (s := s0); [reflexivity|assumption].

Section Facts.
Context {E : Env}.

Lemma observe_node_inv s w s' w' :
  observe_node s w = ok (s', w') ->
  AgentState.model_validate s = ok s /\
  AgentState.stage s' = AgentState.stage s /\
  AgentState.retry_count s' = AgentState.retry_count s /\
  AgentState.pending_candidates s' = AgentState.pending_candidates s /\
  AgentState.last_bbox s' = AgentState.last_bbox s /\
  AgentState.extracted_release s' = AgentState.extracted_release s /\
  AgentState.next_node s' = Some "decide".
Proof.
  unfold observe_node. intros H. minv.
  split; [assumption|]. split_ifs; st_simpl; auto 10.
Qed.

Lemma extract_node_inv s w s' w' :
  extract_node s w = ok (s', w') ->
  AgentState.model_validate s = ok s /\
  AgentState.retry_count s' = AgentState.retry_count s /\
  AgentState.pending_candidates s' = AgentState.pending_candidates s /\
  AgentState.last_bbox s' = AgentState.last_bbox s /\
  (AgentState.next_node s' = Some "observe" /\ AgentState.stage s' = AgentState.stage s
   \/ AgentState.next_node s' = Some END /\ AgentState.stage s' = EXTRACTED).
Proof.
  unfold extract_node. intros H. minv; (split; [assumption|]); st_simpl; auto 10.
Qed.

Lemma assess_inv v s png s1 r h :
  assess v s png = inr (s1, (r, h)) ->
  average_hash png 8 = inr h /\ s1 = record_observation h s
  /\ r = verdict v h (record_observation h s).
Proof.
  unfold assess. intros H. apply rbind_inv in H. destruct H as (h0 & Hh & H).
  inversion H; subst. auto.
Qed.

Variable v : Validator.

Lemma validate_node_inv s w s' w' :
  validate_node v s w = ok (s', w') ->
  w' = w /\ AgentState.model_validate s = ok s /\ validate_outcome v s s'.
Proof.
  unfold validate_node. intros H. minv;
    try match goal with
    | H : assess _ _ _ = inr _ |- _ =>
        apply assess_inv in H; destruct H as (? & ? & ?); subst
    end;
    try match goal with
    | H : negb _ = _ |- _ => apply (f_equal negb) in H; rewrite negb_involutive in H; simpl in H
    end;
    (split; [reflexivity|]); (split; [assumption|]); st_simpl;
    repeat match goal with
    | H : (_ <? _) = true |- _ => apply Z.ltb_lt in H
    | H : (_ <? _) = false |- _ => apply Z.ltb_ge in H
    | H : match Dict.get ?k ?c with _ => _ end = inr _ |- _ =>
        destruct (Dict.get k c) eqn:?; [inversion H; subst; clear H | discriminate H]
    end;
    first
      [ now constructor
      | now apply vo_login
      | eapply vo_decided; eauto;
        solve [ econstructor; eauto; try lia; try congruence ] ].
Qed.

Lemma ro_stage h s :
  AgentState.stage (record_observation h s) = AgentState.stage s.
Proof.
  unfold record_observation. st_simpl.
  destruct (AgentState.current_url s) as [u|] eqn:Hu; [destruct (Str.truthy u)|];
    st_simpl; auto.
Qed.

Lemma ro_retry_count h s :
  AgentState.retry_count (record_observation h s) = AgentState.retry_count s.
Proof.
  unfold record_observation. st_simpl.
  destruct (AgentState.current_url s) as [u|] eqn:Hu; [destruct (Str.truthy u)|];
    st_simpl; auto.
Qed.

Lemma ro_pending_candidates h s :
  AgentState.pending_candidates (record_observation h s) = AgentState.pending_candidates s.
Proof.
  unfold record_observation. st_simpl.
  destruct (AgentState.current_url s) as [u|] eqn:Hu; [destruct (Str.truthy u)|];
    st_simpl; auto.
Qed.

Lemma ro_current_url h s :
  AgentState.current_url (record_observation h s) = AgentState.current_url s.
Proof.
  unfold record_observation. st_simpl.
  destruct (AgentState.current_url s) as [u|] eqn:Hu; [destruct (Str.truthy u)|];
    st_simpl; auto.
Qed.

Lemma ro_step_count h s :
  AgentState.step_count (record_observation h s) = AgentState.step_count s.
Proof.
  unfold record_observation. st_simpl.
  destruct (AgentState.current_url s) as [u|] eqn:Hu; [destruct (Str.truthy u)|];
    st_simpl; auto.
Qed.

Lemma ro_max_steps h s :
  AgentState.max_steps (record_observation h s) = AgentState.max_steps s.
Proof.
  unfold record_observation. st_simpl.
  destruct (AgentState.current_url s) as [u|] eqn:Hu; [destruct (Str.truthy u)|];
    st_simpl; auto.
Qed.

Lemma ro_max_retries_per_stage h s :
  AgentState.max_retries_per_stage (record_observation h s) = AgentState.max_retries_per_stage s.
Proof.
  unfold record_observation. st_simpl.
  destruct (AgentState.current_url s) as [u|] eqn:Hu; [destruct (Str.truthy u)|];
    st_simpl; auto.
Qed.

Lemma ro_last_png_bytes h s :
  AgentState.last_png_bytes (record_observation h s) = AgentState.last_png_bytes s.
Proof.
  unfold record_observation. st_simpl.
  destruct (AgentState.current_url s) as [u|] eqn:Hu; [destruct (Str.truthy u)|];
    st_simpl; auto.
Qed.

Lemma ro_last_png_bytes_raw h s :
  AgentState.last_png_bytes_raw (record_observation h s) = AgentState.last_png_bytes_raw s.
Proof.
  unfold record_observation. st_simpl.
  destruct (AgentState.current_url s) as [u|] eqn:Hu; [destruct (Str.truthy u)|];
    st_simpl; auto.
Qed.

Lemma ro_last_action h s :
  AgentState.last_action (record_observation h s) = AgentState.last_action s.
Proof.
  unfold record_observation. st_simpl.
  destruct (AgentState.current_url s) as [u|] eqn:Hu; [destruct (Str.truthy u)|];
    st_simpl; auto.
Qed.

Lemma ro_last_bbox h s :
  AgentState.last_bbox (record_observation h s) = AgentState.last_bbox s.
Proof.
  unfold record_observation. st_simpl.
  destruct (AgentState.current_url s) as [u|] eqn:Hu; [destruct (Str.truthy u)|];
    st_simpl; auto.
Qed.

Lemma ro_extracted_release h s :
  AgentState.extracted_release (record_observation h s) = AgentState.extracted_release s.
Proof.
  unfold record_observation. st_simpl.
  destruct (AgentState.current_url s) as [u|] eqn:Hu; [destruct (Str.truthy u)|];
    st_simpl; auto.
Qed.

Lemma ro_refine_level h s :
  AgentState.refine_level (record_observation h s) = AgentState.refine_level s.
Proof.
  unfold record_observation. st_simpl.
  destruct (AgentState.current_url s) as [u|] eqn:Hu; [destruct (Str.truthy u)|];
    st_simpl; auto.
Qed.

Lemma ro_target_repo h s :
  AgentState.target_repo (record_observation h s) = AgentState.target_repo s.
Proof.
  unfold record_observation. st_simpl.
  destruct (AgentState.current_url s) as [u|] eqn:Hu; [destruct (Str.truthy u)|];
    st_simpl; auto.
Qed.

Lemma ro_next_node h s :
  AgentState.next_node (record_observation h s) = AgentState.next_node s.
Proof.
  unfold record_observation. st_simpl.
  destruct (AgentState.current_url s) as [u|] eqn:Hu; [destruct (Str.truthy u)|];
    st_simpl; auto.
Qed.

Lemma ro_on_login_page h s :
  on_login_page (record_observation h s) = on_login_page s.
Proof. unfold on_login_page. now rewrite ro_current_url. Qed.

Lemma ro_on_search_page h s :
  on_search_page (record_observation h s) = on_search_page s.
Proof. unfold on_search_page. now rewrite ro_current_url. Qed.

Lemma ro_model_validate h s :
  AgentState.model_validate s = ok s ->
  AgentState.model_validate (record_observation h s) = ok (record_observation h s).
Proof.
  unfold AgentState.model_validate. rewrite ro_last_bbox.
  destruct (AgentState.last_bbox s) as [[|?[|?[|?[|?[|]]]]]|]; intros H; inversion H; auto.
Qed.

Lemma stage_progression_new_stage s st :
  new_stage (stage_progression s) = Some st ->
  should_stop (stage_progression s) = false /\
  recovery_action (stage_progression s) = None /\
  st <> AgentState.stage s /\ st <> DONE /\ st <> HOME /\
  (st = SEARCH_RESULTS ->
   AgentState.stage s = HOME /\
   exists url, AgentState.current_url s = Some url
               /\ Str.contains "github.com/search" url = true).
Proof.
  unfold stage_progression.
  destruct (AgentState.current_url s) as [url|]; [|discriminate].
  destruct (Str.truthy url); [|discriminate].
  destruct (Str.contains "github.com/search" url) eqn:Hs;
    destruct (Str.contains (Str.lower _) _);
    destruct (Str.contains "/releases" url);
    destruct (AgentState.stage s); simpl; intros H; inversion H; subst;
    repeat split; try congruence; eauto.
Qed.

Lemma verdict_new_stage h s st :
  new_stage (verdict v h s) = Some st ->
  should_stop (verdict v h s) = false /\
  recovery_action (verdict v h s) = None /\
  st <> AgentState.stage s /\ st <> DONE /\ st <> HOME /\
  (st = SEARCH_RESULTS ->
   AgentState.stage s = HOME /\
   exists url, AgentState.current_url s = Some url
               /\ Str.contains "github.com/search" url = true).
Proof.
  unfold verdict.
  destruct (_ <=? _); [discriminate|].
  destruct (stuck v h s); [discriminate|].
  apply stage_progression_new_stage.
Qed.

Lemma verdict_recovery h s d :
  recovery_action (verdict v h s) = Some d ->
  d = stuck_recovery s /\ new_stage (verdict v h s) = None
  /\ should_stop (verdict v h s) = false.
Proof.
  unfold verdict.
  destruct (_ <=? _); [discriminate|].
  destruct (stuck v h s); [simpl; intros H; inversion H; auto|].
  unfold stage_progression.
  destruct (AgentState.current_url s) as [url|]; [|discriminate].
  destruct (Str.truthy url); [|discriminate].
  destruct (_ && _); destruct (_ && _); destruct (_ && _); discriminate.
Qed.

Lemma verdict_should_stop h s :
  should_stop (verdict v h s)
  = (AgentState.max_steps s <=? AgentState.step_count s).
Proof.
  unfold verdict.
  destruct (_ <=? _); [reflexivity|].
  destruct (stuck v h s); [reflexivity|].
  unfold stage_progression.
  destruct (AgentState.current_url s) as [url|]; [|reflexivity].
  destruct (Str.truthy url); [|reflexivity].
  destruct (_ && _); destruct (_ && _); destruct (_ && _); reflexivity.
Qed.

Lemma verdict_stop_no_transition h s :
  should_stop (verdict v h s) = true -> new_stage (verdict v h s) = None.
Proof.
  destruct (new_stage (verdict v h s)) eqn:Hn; [|reflexivity].
  apply verdict_new_stage in Hn. destruct Hn as [-> _]. discriminate.
Qed.

Lemma fs_pending s :
  AgentState.pending_candidates (force_search_stage s) = AgentState.pending_candidates s.
Proof. unfold force_search_stage. now destruct (on_search_page s). Qed.

Lemma fs_stage s :
  AgentState.stage (force_search_stage s)
  = if on_search_page s then SEARCH_RESULTS else AgentState.stage s.
Proof. unfold force_search_stage. now destruct (on_search_page s). Qed.

Lemma decide_node_inv s w s' w' :
  decide_node s w = ok (s', w') ->
  AgentState.model_validate s = ok s /\
  exists a, s' = decided_state a s /\
    (nonempty (AgentState.pending_candidates s)
     && Stage_eqb (AgentState.stage (force_search_stage s)) SEARCH_RESULTS = true ->
     w' = w /\
     (cand <- first (AgentState.pending_candidates s) ;;
      payload <- pending_click cand ;;
      Action_model_validate str_int str_float payload)%res = ok a).
Proof.
  unfold decide_node. intros H. minv; (split; [assumption|]);
    rewrite fs_pending in *;
    (eexists; split; [reflexivity|]); intros Hc;
    first [now auto | congruence].
Qed.

Lemma Stage_eqb_eq a b : Stage_eqb a b = true <-> a = b.
Proof. destruct a, b; simpl; split; congruence. Qed.

Lemma bbox_click_true st a :
  Stage_eqb st SEARCH_RESULTS && (Action.type a =? "click")%string
  && bbox_truthy (Action.bbox a) = true ->
  st = SEARCH_RESULTS /\ is_bbox_click a = true.
Proof.
  intros H. apply andb_prop in H. destruct H as [H H2].
  apply andb_prop in H. destruct H as [H H1].
  apply Stage_eqb_eq in H. unfold is_bbox_click. now rewrite H1, H2.
Qed.

Lemma bbox_click_false st a :
  Stage_eqb st SEARCH_RESULTS && (Action.type a =? "click")%string
  && bbox_truthy (Action.bbox a) = false ->
  st = SEARCH_RESULTS -> is_bbox_click a = false.
Proof.
  intros H ->. simpl in H. exact H.
Qed.

Lemma act_node_inv s w s' w' :
  act_node s w = ok (s', w') ->
  AgentState.model_validate s = ok s /\
  exists a,
    Action_model_validate str_int str_float (JObj (last_action_or_noop s)) = ok a
    /\ act_outcome s a s'.
Proof.
  unfold act_node. intros H. minv; (split; [assumption|]);
    (eexists; split; [eassumption|]);
    repeat match goal with
    | H : _ && _ && _ = true |- _ => apply bbox_click_true in H; destruct H
    | H : _ && _ && _ = false |- _ => pose proof (@bbox_click_false _ _ H); clear H
    | H : Stage_eqb _ _ && Str.otruthy _ = true |- _ =>
        apply andb_prop in H; destruct H as [H ?]; apply Stage_eqb_eq in H
    | H : candidates_of _ = _ :: _ |- _ => rewrite <- H in *
    | H : (_ <? _) = true |- _ => apply Z.ltb_lt in H
    | H : (_ <? _) = false |- _ => apply Z.ltb_ge in H
    end; st_simpl.
  - now apply (@ao_explore _ _ x2).
  - now apply ao_plain.
  - apply ao_accept; auto; congruence.
  - apply ao_reject_done; auto; congruence.
  - apply ao_reject; auto; congruence.
  - now apply ao_plain.
  - now apply ao_plain.
Qed.

End Facts.

(* ===================================================================== *)
(** * An invariant of the run *)
(* ===================================================================== *)

Section Inv.
Context {E : Env}.
Variable v : Validator.


Lemma mapM_v_int_dump l : mapM (v_int str_int) (map JInt l) = ok l.
Proof.
  induction l as [|n l IH]; simpl; [reflexivity|]. now rewrite IH.
Qed.

Lemma validate_click_payload reason l :
  Action_model_validate str_int str_float
    (JObj [("type", JStr "click"); ("reason", JStr reason); ("bbox", dump_ints l)])
  = ok (click_action reason l).
Proof.
  unfold Action_model_validate, required, optional, dump_ints. simpl.
  rewrite mapM_v_int_dump. reflexivity.
Qed.

Lemma validate_dump_click reason l :
  Action_model_validate str_int str_float (JObj (Action_model_dump (click_action reason l)))
  = ok (click_action reason l).
Proof.
  unfold Action_model_validate, required, optional, Action_model_dump, dump_ints. simpl.
  rewrite mapM_v_int_dump. reflexivity.
Qed.

Lemma harmless_no_candidates a :
  harmless a -> is_bbox_click a = false -> candidates_of a = [].
Proof.
  intros [H|[Hb Hc]] Hn; [congruence|].
  unfold candidates_of. now rewrite Hb, Hc.
Qed.

Lemma stuck_recovery_ready s (s' : AgentState.t) :
  AgentState.last_action s' = Some (stuck_recovery s) -> act_ready s'.
Proof.
  intros H. unfold act_ready, last_action_or_noop. rewrite H.
  unfold stuck_recovery.
  destruct (_ =? 0); [|destruct (_ =? 1)];
    (eexists; split; [reflexivity|]); right; split; reflexivity.
Qed.

Lemma stuck_recovery_nonempty s : stuck_recovery s <> [].
Proof.
  unfold stuck_recovery. destruct (_ =? 0); [|destruct (_ =? 1)]; discriminate.
Qed.

Lemma click_ready reason l (s' : AgentState.t) d :
  l <> [] ->
  AgentState.last_action s' = Some d ->
  d = [("type", JStr "click"); ("reason", JStr reason); ("bbox", dump_ints l)]
  \/ d = Action_model_dump (click_action reason l) ->
  act_ready s'.
Proof.
  intros Hl H Hd. unfold act_ready, last_action_or_noop. rewrite H.
  exists (click_action reason l).
  destruct Hd as [-> | ->].
  - split; [apply validate_click_payload|]. left. destruct l; [congruence|reflexivity].
  - split; [apply validate_dump_click|]. left. destruct l; [congruence|reflexivity].
Qed.

Lemma candidates_of_bbox a c : In c (candidates_of a) -> c_bbox c <> [].
Proof.
  unfold candidates_of. intros H.
  assert (Hc : forall cs, In c (map (fun c => mkCandidate (CandidateBBox.bbox c)
                        (CandidateBBox.confidence c) (CandidateBBox.reason c))
            (filter (fun c => Z.of_nat (List.length (CandidateBBox.bbox c)) =? 4) cs))
            -> c_bbox c <> []).
  { intros cs Hin. apply in_map_iff in Hin. destruct Hin as (x & <- & Hx).
    apply filter_In in Hx. destruct Hx as [_ Hx]. simpl.
    destruct (CandidateBBox.bbox x); [discriminate|congruence]. }
  destruct (bbox_truthy (Action.bbox a)) eqn:Hb.
  - apply in_app_or in H. destruct H as [H|[<-|[]]].
    + destruct (Action.candidates a); [eauto|destruct H].
    + simpl. destruct (Action.bbox a) as [[|]|]; simpl in *; congruence.
  - destruct (Action.candidates a); [eauto|destruct H].
Qed.

Lemma remaining_has_bbox a chosen :
  Forall has_bbox
    (map Candidate_dict
       (filter (fun c => negb (list_Z_eqb (c_bbox c) chosen)) (candidates_of a))).
Proof.
  apply Forall_forall. intros d Hd.
  apply in_map_iff in Hd. destruct Hd as (c & <- & Hc).
  apply filter_In in Hc. destruct Hc as [Hc _].
  exists (c_bbox c). split; [eapply candidates_of_bbox; eauto|reflexivity].
Qed.

Lemma at_current_url r s :
  AgentState.current_url (apply_transition r s) = AgentState.current_url s.
Proof. unfold apply_transition. now destruct (new_stage r). Qed.

Lemma at_last_bbox r s :
  AgentState.last_bbox (apply_transition r s) = AgentState.last_bbox s.
Proof. unfold apply_transition. now destruct (new_stage r). Qed.

Lemma at_extracted_release r s :
  AgentState.extracted_release (apply_transition r s) = AgentState.extracted_release s.
Proof. unfold apply_transition. now destruct (new_stage r). Qed.

Lemma at_step_count r s :
  AgentState.step_count (apply_transition r s) = AgentState.step_count s.
Proof. unfold apply_transition. now destruct (new_stage r). Qed.

Lemma at_max_steps r s :
  AgentState.max_steps (apply_transition r s) = AgentState.max_steps s.
Proof. unfold apply_transition. now destruct (new_stage r). Qed.

Lemma at_max_retries_per_stage r s :
  AgentState.max_retries_per_stage (apply_transition r s) = AgentState.max_retries_per_stage s.
Proof. unfold apply_transition. now destruct (new_stage r). Qed.

Lemma at_last_action r s :
  AgentState.last_action (apply_transition r s) = AgentState.last_action s.
Proof. unfold apply_transition. now destruct (new_stage r). Qed.

Lemma at_last_urls r s :
  AgentState.last_urls (apply_transition r s) = AgentState.last_urls s.
Proof. unfold apply_transition. now destruct (new_stage r). Qed.

Lemma at_last_png_bytes r s :
  AgentState.last_png_bytes (apply_transition r s) = AgentState.last_png_bytes s.
Proof. unfold apply_transition. now destruct (new_stage r). Qed.

Lemma at_last_png_bytes_raw r s :
  AgentState.last_png_bytes_raw (apply_transition r s) = AgentState.last_png_bytes_raw s.
Proof. unfold apply_transition. now destruct (new_stage r). Qed.

Lemma at_target_repo r s :
  AgentState.target_repo (apply_transition r s) = AgentState.target_repo s.
Proof. unfold apply_transition. now destruct (new_stage r). Qed.

Lemma at_next_node r s :
  AgentState.next_node (apply_transition r s) = AgentState.next_node s.
Proof. unfold apply_transition. now destruct (new_stage r). Qed.

Lemma at_on_search_page r s :
  on_search_page (apply_transition r s) = on_search_page s.
Proof. unfold on_search_page. now rewrite at_current_url. Qed.

Lemma at_pending r s :
  AgentState.pending_candidates (apply_transition r s)
  = match new_stage r with Some _ => [] | None => AgentState.pending_candidates s end.
Proof. unfold apply_transition. now destruct (new_stage r). Qed.

Lemma at_stage r s :
  AgentState.stage (apply_transition r s)
  = match new_stage r with Some st => st | None => AgentState.stage s end.
Proof. unfold apply_transition. now destruct (new_stage r). Qed.

Lemma at_retry_count r s :
  AgentState.retry_count (apply_transition r s)
  = match new_stage r with Some _ => 0 | None => AgentState.retry_count s end.
Proof. unfold apply_transition. now destruct (new_stage r). Qed.

Lemma step_inv n s w n' s' w' :
  step v n s w = ok ((n', s'), w') ->
  node_fn v n s w = ok (s', w') /\ route n s' = ok n'.
Proof.
  unfold step. intros H.
  apply bind_inv in H. destruct H as (s1 & w1 & Hn & H).
  apply bind_inv in H. destruct H as (nx & w2 & Hr & H).
  apply lift_inv in Hr. destruct Hr as [Hr ->].
  apply ret_inv in H. destruct H as [H ->]. inversion H; subst. auto.
Qed.

Lemma inv_observe s w n' s' w' :
  Inv N_observe s -> step v N_observe s w = ok (Some n', s', w') -> Inv n' s'.
Proof.
  intros [Hp Hv Hh Hr He] H. apply step_inv in H. destruct H as [H Hroute].
  simpl in H. apply observe_node_inv in H.
  destruct H as (Hmv & Hst & Hrc & Hpc & Hlb & Hex & Hnn).
  unfold route in Hroute. rewrite Hnn in Hroute. simpl in Hroute.
  inversion Hroute; subst n'.
  constructor; try congruence.
  - intros _. apply mv_last_bbox with (s := s); [assumption|assumption].
  - intros [?|?]; discriminate.
Qed.

Lemma ds_fields a s :
  AgentState.pending_candidates (decided_state a s) = AgentState.pending_candidates s
  /\ AgentState.stage (decided_state a s)
     = (if on_search_page s then SEARCH_RESULTS else AgentState.stage s)
  /\ AgentState.current_url (decided_state a s) = AgentState.current_url s
  /\ AgentState.extracted_release (decided_state a s) = AgentState.extracted_release s
  /\ AgentState.retry_count (decided_state a s) = AgentState.retry_count s
  /\ AgentState.last_action (decided_state a s) = Some (Action_model_dump a)
  /\ AgentState.next_node (decided_state a s) = Some "act".
Proof.
  unfold decided_state, force_search_stage.
  destruct (bbox_truthy (Action.bbox a)); destruct (on_search_page s); st_simpl; auto 10.
Qed.

Lemma pending_head_action s c rest a :
  AgentState.pending_candidates s = c :: rest ->
  has_bbox c ->
  (cand <- first (AgentState.pending_candidates s) ;;
   payload <- pending_click cand ;;
   Action_model_validate str_int str_float payload)%res = ok a ->
  exists l, l <> [] /\ Dict.get "bbox" c = Some (dump_ints l)
            /\ a = click_action "pending_candidate" l.
Proof.
  intros Hp (l & Hl & Hb) H. rewrite Hp in H. simpl in H.
  unfold pending_click in H. rewrite Hb in H. cbn [rbind ok] in H.
  rewrite validate_click_payload in H. inversion H. eauto.
Qed.

Lemma inv_decide s w n' s' w' :
  Inv N_decide s -> step v N_decide s w = ok (Some n', s', w') -> Inv n' s'.
Proof.
  intros [Hp Hv Hh Hr He] H. apply step_inv in H. destruct H as [H Hroute].
  simpl in H. apply decide_node_inv in H.
  destruct H as (Hmv & a & -> & Hpend).
  destruct (ds_fields a s) as (Fp & Fs & Fu & Fe & Frc & Fa & Fn).
  unfold route in Hroute. rewrite Fn in Hroute. simpl in Hroute.
  inversion Hroute; subst n'.
  constructor.
  - now rewrite Fp.
  - congruence.
  - intros _ Hs. rewrite Fs in Hs. unfold on_search_page. rewrite Fu.
    fold (on_search_page s). destruct (on_search_page s); [discriminate|reflexivity].
  - intros _ Hs Hne. rewrite Fp in Hne.
    destruct (AgentState.pending_candidates s) as [|c rest] eqn:Hpc; [congruence|].
    destruct Hpend as [_ Ha].
    { rewrite fs_stage, <- Fs, Hs. reflexivity. }
    inversion Hp as [|? ? Hc _]; subst.
    rewrite <- Hpc in Ha.
    destruct (pending_head_action s c rest a Hpc Hc Ha) as (l & Hl & _ & ->).
    eapply click_ready; eauto.
  - now rewrite Fe.
Qed.

Lemma route_some n s n' :
  route n s = ok (Some n') ->
  exists name, AgentState.next_node s = Some name /\ name <> END.
Proof.
  unfold route. destruct (AgentState.next_node s) as [name|]; [|discriminate].
  intros H. exists name. split; [reflexivity|]. intros ->.
  destruct n; simpl in H; discriminate.
Qed.

Lemma route_act n s n' :
  route n s = ok (Some n') -> AgentState.next_node s = Some "act" -> n' = N_act.
Proof.
  unfold route. intros H Hn. rewrite Hn in H.
  destruct n; simpl in H; inversion H; reflexivity.
Qed.

Lemma route_not_act n s n' name :
  route n s = ok (Some n') -> AgentState.next_node s = Some name ->
  name <> "act" -> n' <> N_act.
Proof.
  unfold route. intros H Hn Hne. rewrite Hn in H.
  destruct n; simpl in H;
    repeat match type of H with
    | context [String.eqb ?a ?b] => destruct (String.eqb_spec a b); subst
    end; inversion H; congruence.
Qed.

Lemma inv_act s w n' s' w' :
  Inv N_act s -> step v N_act s w = ok (Some n', s', w') -> Inv n' s'.
Proof.
  intros [Hp Hv Hh Hr He] H. apply step_inv in H. destruct H as [H Hroute].
  simpl in H. apply act_node_inv in H.
  destruct H as (Hmv & a & Hparse & Hout).
  assert (Hn' : n' <> N_act).
  { destruct Hout; unfold stepped in Hroute;
      (eapply route_not_act; [exact Hroute | st_simpl; reflexivity | discriminate]). }
  destruct Hout as [success Hs Hc | Hs Hc Hne Hlt | Hs Hc Hne Hle | chosen Hs Hc Hne | Hc].
  - constructor; unfold stepped; try (destruct success); st_simpl; auto; try congruence;
      mv s.
  - apply route_some in Hroute. destruct Hroute as (name & Hn & Hne').
    st_simpl. congruence.
  - constructor; st_simpl; auto; try congruence.
    mv s.
  - constructor; unfold stepped; st_simpl; auto; try congruence.
    + apply remaining_has_bbox.
    + mv s.
  - constructor; unfold stepped; st_simpl; auto; try congruence.
    mv s.
Qed.

Lemma settled_pending h s :
  Forall has_bbox (AgentState.pending_candidates s) ->
  Forall has_bbox (AgentState.pending_candidates (settled v h s)).
Proof.
  intros H. unfold settled. rewrite at_pending, ro_pending_candidates.
  destruct (new_stage _); [constructor|assumption].
Qed.

Lemma settled_last_bbox h s :
  AgentState.last_bbox (settled v h s) = AgentState.last_bbox s.
Proof. unfold settled. now rewrite at_last_bbox, ro_last_bbox. Qed.

Lemma settled_extracted h s :
  AgentState.extracted_release (settled v h s) = AgentState.extracted_release s.
Proof. unfold settled. now rewrite at_extracted_release, ro_extracted_release. Qed.

Lemma settled_on_search_page h s :
  on_search_page (settled v h s) = on_search_page s.
Proof. unfold settled. now rewrite at_on_search_page, ro_on_search_page. Qed.

Lemma settled_home h s :
  AgentState.stage (settled v h s) = HOME -> AgentState.stage s = HOME.
Proof.
  unfold settled. rewrite at_stage.
  destruct (new_stage _) eqn:Hn.
  - apply verdict_new_stage in Hn. intros ->. tauto.
  - now rewrite ro_stage.
Qed.

Lemma on_search_page_url s s' :
  AgentState.current_url s' = AgentState.current_url s ->
  on_search_page s' = on_search_page s.
Proof. unfold on_search_page. now intros ->. Qed.

Lemma inv_validate s w n' s' w' :
  Inv N_validate s -> step v N_validate s w = ok (Some n', s', w') -> Inv n' s'.
Proof.
  intros [Hp Hv Hh Hr He] H. apply step_inv in H. destruct H as [H Hroute].
  simpl in H. apply validate_node_inv in H.
  destruct H as (-> & Hmv & Hout).
  specialize (Hh (or_intror eq_refl)).
  destruct Hout as [Hno | h Ht Hhash Hl | h r s' Ht Hhash Hl -> Hd].
  - assert (Hn' : n' <> N_act)
      by (eapply route_not_act; [exact Hroute | st_simpl; reflexivity | discriminate]).
    constructor; st_simpl; auto; try congruence. mv s.
  - assert (Hn' : n' <> N_act)
      by (eapply route_not_act; [exact Hroute | st_simpl; reflexivity | discriminate]).
    constructor; st_simpl; rewrite ?ro_pending_candidates, ?ro_extracted_release;
      auto; try congruence.
    + intros _. apply mv_last_bbox with (s := s); [|assumption].
      st_simpl. apply ro_last_bbox.
    + rewrite ro_stage. intros _ Hs.
      rewrite (on_search_page_url s); auto. st_simpl. apply ro_current_url.
  - fold (settled v h s) in Hd.
    pose proof (@settled_pending h s Hp) as Hp2.
    pose proof (settled_last_bbox h s) as Hb2.
    pose proof (settled_extracted h s) as He2.
    pose proof (settled_on_search_page h s) as Hs2.
    pose proof (@settled_home h s) as Hh2.
    assert (Hurl : forall x, AgentState.current_url x = AgentState.current_url (settled v h s) ->
              on_search_page x = on_search_page s).
    { intros x Hx. rewrite <- Hs2. now apply on_search_page_url. }
    destruct Hd.
    + apply route_some in Hroute. destruct Hroute as (name & Hn & Hne).
      st_simpl. congruence.
    + apply route_some in Hroute. destruct Hroute as (name & Hn & Hne).
      st_simpl. congruence.
    + constructor; st_simpl; auto; try congruence.
      * intros _. apply mv_last_bbox with (s := s); [st_simpl; congruence|assumption].
      * intros _ Hst. rewrite Hurl; auto.
      * intros _ _ _. eapply stuck_recovery_ready. st_simpl.
        match goal with H : recovery_action _ = Some _ |- _ =>
          apply verdict_recovery in H; destruct H as (-> & _) end.
        reflexivity.
    + match goal with H : AgentState.pending_candidates _ = _ :: _ |- _ =>
        rewrite H in Hp2 end.
      inversion Hp2 as [|? ? Hc Hrest]; subst.
      constructor; st_simpl; auto; try congruence.
      * intros _. apply mv_last_bbox with (s := s); [st_simpl; congruence|assumption].
      * intros _ Hst. rewrite Hurl; auto.
      * intros _ _ _. destruct Hc as (l & Hl' & Hget).
        apply click_ready with (reason := "next_candidate") (l := l)
                               (d := next_candidate_click bbox);
          [assumption | st_simpl; reflexivity
          | left; unfold next_candidate_click; congruence].
    + assert (Hn' : n' <> N_act)
        by (eapply route_not_act; [exact Hroute | st_simpl; reflexivity | discriminate]).
      constructor; st_simpl; auto; try congruence.
      * intros _. apply mv_last_bbox with (s := s); [st_simpl; congruence|assumption].
      * intros _ Hst. rewrite Hurl; auto.
    + assert (Hn' : n' <> N_act)
        by (eapply route_not_act; [exact Hroute | st_simpl; reflexivity | discriminate]).
      constructor; st_simpl; auto; try congruence.
      * intros _. apply mv_last_bbox with (s := s); [st_simpl; congruence|assumption].
      * intros _ Hst. rewrite Hurl; auto.
    + assert (Hn' : n' <> N_act)
        by (eapply route_not_act; [exact Hroute | st_simpl; reflexivity | discriminate]).
      constructor; st_simpl; auto; try congruence.
      * intros _. apply mv_last_bbox with (s := s); [st_simpl; congruence|assumption].
      * intros _ Hst. rewrite Hurl; auto.
Qed.

Lemma inv_extract s w n' s' w' :
  Inv N_extract s -> step v N_extract s w = ok (Some n', s', w') -> Inv n' s'.
Proof.
  intros [Hp Hv Hh Hr He] H. apply step_inv in H. destruct H as [H Hroute].
  simpl in H. unfold extract_node in H.
  apply bind_inv in H. destruct H as (s0 & w0 & Hmv & H).
  apply lift_inv in Hmv. destruct Hmv as [Hmv ->].
  pose proof (@model_validate_inv _ _ Hmv); subst s0.
  destruct (negb _).
  - apply ret_inv in H. destruct H as [-> ->].
    assert (Hn' : n' <> N_act)
      by (eapply route_not_act; [exact Hroute | st_simpl; reflexivity | discriminate]).
    assert (Hn'' : n' <> N_validate).
    { unfold route in Hroute. simpl in Hroute. discriminate. }
    constructor; st_simpl; auto; try congruence;
      try (intros [?|?]; congruence); try mv s.
  - apply bind_inv in H. destruct H as (rel & w1 & _ & H).
    apply ret_inv in H. destruct H as [-> ->].
    apply route_some in Hroute. destruct Hroute as (name & Hn & Hne).
    st_simpl. congruence.
Qed.

Theorem reachable_inv n s w : reachable v n s w -> Inv n s.
Proof.
  induction 1 as [repo url prompt vlm router promptm ms mr w | n s w n' s' w' Hreach IH Hstep].
  - constructor; simpl; auto; try discriminate;
      try (intros [?|?]; discriminate).
  - destruct n.
    + eapply inv_observe; eauto.
    + eapply inv_decide; eauto.
    + eapply inv_act; eauto.
    + eapply inv_validate; eauto.
    + eapply inv_extract; eauto.
Qed.

End Inv.

(* ===================================================================== *)
(** * The stuck detector and its recovery actions *)
(* ===================================================================== *)

Section Stuck.
Context {E : Env}.


Lemma keep_last_length {A} (l : list A) : (List.length (AgentState.keep_last 6 l) <= 6)%nat.
Proof.
  unfold AgentState.keep_last. destruct (Nat.ltb_spec 6 (List.length l)).
  - rewrite List.length_skipn. lia.
  - lia.
Qed.

Lemma count_app x l1 l2 : count x (l1 ++ l2) = count x l1 + count x l2.
Proof.
  unfold count. rewrite filter_app, List.length_app. lia.
Qed.

Lemma count_skip1 x l : count x l - 1 <= count x (skipn 1 l).
Proof.
  destruct l as [|a l]; unfold count; cbn [skipn filter]; [simpl; lia|].
  destruct (String.eqb x a); cbn [List.length]; lia.
Qed.

Lemma count_self x : count x [x] = 1.
Proof. unfold count. cbn [filter]. now rewrite String.eqb_refl. Qed.

(** once a value fills three of the six slots, pushing it again keeps it
    in at least three *)
Lemma count_push_again x l :
  (List.length l <= 6)%nat -> 3 <= count x l ->
  3 <= count x (AgentState.keep_last 6 (l ++ [x])).
Proof.
  intros Hlen Hc. unfold AgentState.keep_last.
  assert (Hc' : count x (l ++ [x]) = count x l + 1)
    by (rewrite count_app, count_self; lia).
  rewrite List.length_app. simpl List.length.
  destruct (Nat.ltb_spec 6 (List.length l + 1)) as [H|H].
  - replace (List.length l + 1 - 6)%nat with 1%nat by lia.
    pose proof (count_skip1 x (l ++ [x])). lia.
  - lia.
Qed.

Lemma ro_histories url h s :
  AgentState.current_url s = Some url -> Str.truthy url = true ->
  AgentState.last_screenshot_hashes (record_observation h s)
  = AgentState.keep_last 6 (AgentState.last_screenshot_hashes s ++ [h])
  /\ AgentState.last_urls (record_observation h s)
     = AgentState.keep_last 6 (AgentState.last_urls s ++ [url]).
Proof.
  intros Hu Ht. unfold record_observation. st_simpl. rewrite Hu, Ht. st_simpl. auto.
Qed.

Lemma standstill_stuck url png h s :
  at_standstill url png h s ->
  stuck default_validator h (record_observation h s) = true.
Proof.
  intros [Hv Hu Ht Hl Hp Hpt Hh [Hs1 Hs2]].
  destruct (ro_histories url h s Hu Ht) as [Hhs Hus].
  unfold stuck. rewrite ro_current_url, Hu, Ht, Hhs, Hus. simpl _repeat_threshold.
  apply andb_true_intro. split; apply Z.leb_le; assumption.
Qed.

Lemma validate_at_standstill url png h s w :
  at_standstill url png h s ->
  AgentState.step_count s < AgentState.max_steps s ->
  AgentState.retry_count s + 1 <= AgentState.max_retries_per_stage s ->
  validate_node default_validator s w = ok (recovered h s, w).
Proof.
  intros Hss Hstep Hretry.
  pose proof (standstill_stuck url png h s Hss) as Hstuck.
  destruct Hss as [Hv Hu Ht Hl Hp Hpt Hh Hs].
  unfold validate_node.
  rewrite (@bind_ok _ _ _ _ _ w s w) by (unfold lift; now rewrite Hv).
  cbv beta. rewrite Hp. cbn [Str.otruthy or_empty]. rewrite Hpt. cbn [negb].
  rewrite (@bind_ok _ _ _ _ _ w
             (record_observation h s,
               (verdict default_validator h (record_observation h s), h)) w)
    by (unfold lift, assess; rewrite Hh; reflexivity).
  cbv beta iota.
  assert (Hlogin : on_login_page (record_observation h s) = false).
  { rewrite ro_on_login_page. unfold on_login_page. rewrite Hu, Ht, Hl. reflexivity. }
  rewrite Hlogin.
  assert (Hverdict : verdict default_validator h (record_observation h s)
                     = mkValidationResult None
                         (Some (stuck_recovery (record_observation h s)))
                         false false (Some "stuck")).
  { unfold verdict. rewrite ro_max_steps, ro_step_count.
    destruct (Z.leb_spec (AgentState.max_steps s) (AgentState.step_count s)); [lia|].
    now rewrite Hstuck. }
  rewrite Hverdict. unfold apply_transition. cbn [new_stage should_stop recovery_action].
  assert (Hne : exists kv d, stuck_recovery (record_observation h s) = kv :: d).
  { unfold stuck_recovery. destruct (_ =? 0); [|destruct (_ =? 1)]; eexists _, _; reflexivity. }
  destruct Hne as (kv & d & Hd). unfold recovered. rewrite Hd. st_simpl.
  rewrite ro_max_retries_per_stage, ro_retry_count.
  destruct (Z.ltb_spec (AgentState.max_retries_per_stage s) (AgentState.retry_count s + 1)); [lia|].
  reflexivity.
Qed.

Lemma delay_eq : _delay = effect (time_sleep _action_delay_s).
Proof.
  unfold _delay.
  assert (H : PyFloat.ltb (PyFloat.Fin 0 0) _action_delay_s = true) by (vm_compute; reflexivity).
  now rewrite H.
Qed.

Lemma stuck_recovery_is_recovery s : is_recovery (stuck_recovery s).
Proof.
  unfold stuck_recovery, is_recovery.
  destruct (_ =? 0); [|destruct (_ =? 1)]; auto.
Qed.

Lemma execute_recovery d s w :
  is_recovery d ->
  exists a, Action_model_validate str_int str_float (JObj d) = ok a
    /\ is_bbox_click a = false /\ candidates_of a = []
    /\ exists w1, _execute_action a s w = ok (tt, w1).
Proof.
  intros [H|[H|H]]; subst d; (eexists; split; [reflexivity|]);
    (split; [reflexivity|]); (split; [reflexivity|]);
    unfold _execute_action; cbn [Action.type Action.bbox Action.scroll Action.key
                                 Action.text String.eqb Ascii.eqb Bool.eqb andb
                                 bbox_truthy is_some ScrollSpec.direction ScrollSpec.amount];
    unfold scroll, back; rewrite delay_eq; unfold bind, effect; eexists; reflexivity.
Qed.

Lemma act_on_recovery d s w :
  AgentState.model_validate s = ok s ->
  AgentState.last_action s = Some d -> is_recovery d ->
  (forall raw, AgentState.last_png_bytes_raw s = Some raw ->
               exists sz, image_size raw = ok sz) ->
  exists w1, act_node s w = ok (stepped s, w1).
Proof.
  intros Hv Ha Hd Hdec.
  destruct (execute_recovery d s w Hd) as (a & Hparse & Hclick & Hcands & w1 & Hexec).
  assert (Hne : last_action_or_noop s = d).
  { unfold last_action_or_noop. rewrite Ha.
    destruct Hd as [H|[H|H]]; subst d; reflexivity. }
  unfold act_node.
  rewrite (@bind_ok _ _ _ _ _ w s w) by (unfold lift; now rewrite Hv).
  cbv beta.
  rewrite (@bind_ok _ _ _ _ _ w a w) by (unfold lift; now rewrite Hne, Hparse).
  cbv beta.
  unfold is_bbox_click in Hclick.
  rewrite <- andb_assoc, Hclick, andb_false_r.
  assert (Hfin : forall w0,
             w0 = w ->
             bind (_execute_action a s)
               (fun _ => ret (AgentState.set_next_node (Some "validate")
                  (AgentState.set_step_count (AgentState.step_count s + 1) s))) w0
             = ok (stepped s, w1)).
  { intros w0 ->. rewrite (@bind_ok _ _ _ _ _ w tt w1) by exact Hexec. reflexivity. }
  destruct (Stage_eqb (AgentState.stage s) SEARCH_RESULTS
            && Str.otruthy (AgentState.last_png_bytes_raw s)) eqn:Hsr.
  - apply andb_prop in Hsr. destruct Hsr as [_ Hraw].
    destruct (AgentState.last_png_bytes_raw s) as [raw|] eqn:Hr; [|discriminate].
    destruct (Hdec raw eq_refl) as ([iw ih] & Hsz).
    exists w1.
    rewrite (@bind_ok _ _ _ _ _ w (iw, ih) w) by (unfold lift; simpl or_empty; now rewrite Hsz).
    cbv beta iota. rewrite Hcands. now apply Hfin.
  - exists w1. now apply Hfin.
Qed.

Lemma recovered_fields h s :
  AgentState.last_bbox (recovered h s) = AgentState.last_bbox s
  /\ AgentState.current_url (recovered h s) = AgentState.current_url s
  /\ AgentState.last_png_bytes (recovered h s) = AgentState.last_png_bytes s
  /\ AgentState.last_png_bytes_raw (recovered h s) = AgentState.last_png_bytes_raw s
  /\ AgentState.step_count (recovered h s) = AgentState.step_count s
  /\ AgentState.max_steps (recovered h s) = AgentState.max_steps s
  /\ AgentState.max_retries_per_stage (recovered h s) = AgentState.max_retries_per_stage s
  /\ AgentState.retry_count (recovered h s) = AgentState.retry_count s + 1
  /\ AgentState.stage (recovered h s) = AgentState.stage s
  /\ AgentState.pending_candidates (recovered h s) = AgentState.pending_candidates s
  /\ AgentState.next_node (recovered h s) = Some "act"
  /\ AgentState.last_action (recovered h s)
     = Some (stuck_recovery (record_observation h s)).
Proof.
  unfold recovered. st_simpl.
  rewrite ro_last_bbox, ro_current_url, ro_last_png_bytes, ro_last_png_bytes_raw,
    ro_step_count, ro_max_steps, ro_max_retries_per_stage, ro_retry_count, ro_stage,
    ro_pending_candidates.
  repeat split; reflexivity.
Qed.

Lemma standstill_persists url png h s :
  at_standstill url png h s ->
  at_standstill url png h (stepped (recovered h s)).
Proof.
  intros Hss.
  destruct (recovered_fields h s) as (Fb & Fu & Fp & _).
  destruct Hss as [Hv Hu Ht Hl Hp Hpt Hh [Hs1 Hs2]].
  destruct (ro_histories url h s Hu Ht) as [Hhs Hus].
  constructor; unfold stepped; st_simpl; try congruence.
  - apply mv_last_bbox with (s := s); [st_simpl; exact Fb | exact Hv].
  - unfold stuck_on, recovered. st_simpl. rewrite Hhs, Hus. split.
    + apply count_push_again; [apply keep_last_length | exact Hs1].
    + apply count_push_again; [apply keep_last_length | exact Hs2].
Qed.

Lemma stuck_recovery_by_residue s :
  stuck_recovery s
  = match AgentState.retry_count s mod 3 with
    | 0 => stuck_recovery_scroll_down
    | 1 => stuck_recovery_scroll_up
    | _ => stuck_recovery_back
    end.
Proof.
  unfold stuck_recovery.
  pose proof (Z.mod_pos_bound (AgentState.retry_count s) 3 ltac:(lia)) as Hm.
  destruct (AgentState.retry_count s mod 3) as [|[p|p|]|p]; try reflexivity; lia.
Qed.

Lemma stepped_fields s :
  AgentState.retry_count (stepped s) = AgentState.retry_count s
  /\ AgentState.step_count (stepped s) = AgentState.step_count s + 1
  /\ AgentState.max_steps (stepped s) = AgentState.max_steps s
  /\ AgentState.max_retries_per_stage (stepped s) = AgentState.max_retries_per_stage s
  /\ AgentState.last_png_bytes_raw (stepped s) = AgentState.last_png_bytes_raw s
  /\ AgentState.last_action (stepped s) = AgentState.last_action s.
Proof. unfold stepped. st_simpl. repeat split; reflexivity. Qed.

Lemma recovery_of_retry h s :
  stuck_recovery (record_observation h s)
  = match AgentState.retry_count s mod 3 with
    | 0 => stuck_recovery_scroll_down
    | 1 => stuck_recovery_scroll_up
    | _ => stuck_recovery_back
    end.
Proof. rewrite stuck_recovery_by_residue. now rewrite ro_retry_count. Qed.

(** one detection and the execution of its recovery action *)
Lemma standstill_cycle url png h s w :
  at_standstill url png h s -> decodable s ->
  AgentState.step_count s < AgentState.max_steps s ->
  AgentState.retry_count s + 1 <= AgentState.max_retries_per_stage s ->
  validate_node default_validator s w = ok (recovered h s, w)
  /\ exists w1, act_node (recovered h s) w = ok (stepped (recovered h s), w1).
Proof.
  intros Hss Hdec Hstep Hretry.
  split; [now apply validate_at_standstill with (url := url) (png := png)|].
  destruct (recovered_fields h s) as (Fb & _ & _ & Fraw & _ & _ & _ & _ & _ & _ & _ & Fa).
  apply act_on_recovery with (d := stuck_recovery (record_observation h s)).
  - apply mv_last_bbox with (s := s); [exact Fb | apply Hss].
  - exact Fa.
  - apply stuck_recovery_is_recovery.
  - intros raw Hraw. apply Hdec. congruence.
Qed.

End Stuck.

(* ===================================================================== *)
(** * What each node does to the stage, the retry counter and the queue *)
(* ===================================================================== *)

Section Effects.
Context {E : Env}.
Variable v : Validator.


Lemma startswith_contains a b h :
  Str.startswith (a ++ b) h = true -> Str.contains b h = true.
Proof.
  revert h. induction a as [|c a IH]; intros h H; simpl in H.
  - destruct h; simpl; rewrite H; reflexivity.
  - destruct h as [|c' h]; [discriminate|].
    apply andb_prop in H. destruct H as [_ H].
    apply IH in H. simpl. rewrite H. apply orb_true_r.
Qed.

Lemma contains_suffix a b h :
  Str.contains (a ++ b) h = true -> Str.contains b h = true.
Proof.
  induction h as [|c h IH]; intros H.
  - simpl in H. rewrite orb_false_r in H. now apply startswith_contains in H.
  - simpl in H. apply orb_prop in H. destruct H as [H|H].
    + now apply startswith_contains in H.
    + simpl. rewrite (IH H). apply orb_true_r.
Qed.

Lemma search_url_is_search_page s url :
  AgentState.current_url s = Some url ->
  Str.contains "github.com/search" url = true ->
  on_search_page s = true.
Proof.
  intros Hu Hc. unfold on_search_page. rewrite Hu.
  assert (Ht : Str.truthy url = true) by (destruct url; [discriminate|reflexivity]).
  rewrite Ht. simpl andb.
  apply (contains_suffix "github.com" "/search"). exact Hc.
Qed.

(** ** The step ceiling *)
Lemma validate_at_ceiling s w png h :
  AgentState.model_validate s = ok s ->
  AgentState.last_png_bytes s = Some png -> Str.truthy png = true ->
  average_hash png 8 = ok h ->
  on_login_page s = false ->
  AgentState.max_steps s <= AgentState.step_count s ->
  validate_node v s w
  = ok (AgentState.set_next_node (Some END)
          (AgentState.set_stage DONE (record_observation h s)), w)
  /\ should_stop (verdict v h (record_observation h s)) = true.
Proof.
  intros Hv Hp Hpt Hh Hl Hmax.
  assert (Hverdict : verdict v h (record_observation h s)
                     = mkValidationResult None None false true (Some "max_steps")).
  { unfold verdict. rewrite ro_max_steps, ro_step_count.
    destruct (Z.leb_spec (AgentState.max_steps s) (AgentState.step_count s)); [reflexivity|lia]. }
  split; [|now rewrite Hverdict].
  unfold validate_node.
  rewrite (@bind_ok _ _ _ _ _ w s w) by (unfold lift; now rewrite Hv).
  cbv beta. rewrite Hp. cbn [Str.otruthy or_empty]. rewrite Hpt. cbn [negb].
  rewrite (@bind_ok _ _ _ _ _ w
             (record_observation h s, (verdict v h (record_observation h s), h)) w)
    by (unfold lift, assess; rewrite Hh; reflexivity).
  cbv beta iota.
  rewrite ro_on_login_page, Hl, Hverdict. reflexivity.
Qed.

(** ** What a node does to the stage, the retry counter and the queue *)
Lemma settled_stage h s :
  AgentState.stage (settled v h s)
  = match new_stage (verdict v h (record_observation h s)) with
    | Some st => st
    | None => AgentState.stage s
    end.
Proof. unfold settled. rewrite at_stage, ro_stage. reflexivity. Qed.

Lemma settled_retry h s :
  AgentState.retry_count (settled v h s)
  = match new_stage (verdict v h (record_observation h s)) with
    | Some _ => 0
    | None => AgentState.retry_count s
    end.
Proof. unfold settled. rewrite at_retry_count, ro_retry_count. reflexivity. Qed.

Lemma settled_pending_eq h s :
  AgentState.pending_candidates (settled v h s)
  = match new_stage (verdict v h (record_observation h s)) with
    | Some _ => []
    | None => AgentState.pending_candidates s
    end.
Proof. unfold settled. rewrite at_pending, ro_pending_candidates. reflexivity. Qed.

Lemma failed_navigation_stage s :
  failed_navigation s = true -> AgentState.stage s = SEARCH_RESULTS.
Proof.
  unfold failed_navigation. intros H.
  apply andb_prop in H. destruct H as [H _].
  apply andb_prop in H. destruct H as [H _].
  now apply Stage_eqb_eq.
Qed.

(** the summary of a [validate_node] call used by the claims *)
Lemma validate_summary s s' :
  validate_outcome v s s' ->
  (* no transition: the stage stays or becomes DONE, the counter does
     not decrease, the queue stays or loses its head *)
  (AgentState.stage s' = AgentState.stage s \/ AgentState.stage s' = DONE)
  /\ AgentState.retry_count s <= AgentState.retry_count s'
  /\ (AgentState.pending_candidates s' = AgentState.pending_candidates s
      \/ AgentState.next_node s' = Some "act"
         /\ exists c, AgentState.pending_candidates s
                      = c :: AgentState.pending_candidates s')
  \/
  (* a transition *)
  exists h st,
    new_stage (verdict v h (record_observation h s)) = Some st
    /\ AgentState.stage s' = st /\ st <> AgentState.stage s /\ st <> DONE
    /\ AgentState.pending_candidates s' = []
    /\ (AgentState.retry_count s' = 0
        \/ AgentState.retry_count s' = 1 /\ st = SEARCH_RESULTS
           /\ AgentState.stage s = HOME /\ on_search_page s = true).
Proof.
  intros Hout. destruct Hout as [Hno | h Ht Hhash Hl | h r s' Ht Hhash Hl -> Hd].
  - left. st_simpl. split; [auto|]. split; [lia|auto].
  - left. st_simpl. rewrite ro_stage, ro_retry_count, ro_pending_candidates.
    split; [auto|]. split; [lia|auto].
  - fold (settled v h s) in Hd.
    pose proof (settled_stage h s) as Hst.
    pose proof (settled_retry h s) as Hrc.
    pose proof (settled_pending_eq h s) as Hpc.
    destruct (new_stage (verdict v h (record_observation h s))) as [st|] eqn:Hn.
    + destruct (verdict_new_stage v h (record_observation h s) st Hn)
        as (Hstop & Hrec & Hne & Hnd & Hnh & Hsr).
      rewrite ro_stage in Hne, Hsr. rewrite ro_current_url in Hsr.
      right. exists h, st.
      destruct Hd; try congruence; st_simpl;
        (split; [exact Hn|]); (split; [assumption|]);
        (split; [assumption|]); (split; [assumption|]);
        (split; [congruence|]).
      * match goal with H : failed_navigation _ = true |- _ =>
          apply failed_navigation_stage in H; rewrite Hst in H end.
        right. destruct (Hsr ltac:(assumption)) as (Hhome & url & Hu & Hc).
        repeat split; try lia; try assumption.
        now apply search_url_is_search_page with (url := url).
      * left. lia.
      * left. lia.
    + left.
      destruct Hd; st_simpl; rewrite ?Hst, ?Hrc, ?Hpc;
        (split; [auto|]); (split; [lia|]); auto.
      right. split; [reflexivity|].
      match goal with H : AgentState.pending_candidates _ = _ :: _ |- _ =>
        rewrite Hpc in H; rewrite H end.
      eauto.
Qed.

Lemma act_summary s a s' :
  act_outcome s a s' ->
  (AgentState.stage s' = AgentState.stage s
   \/ AgentState.stage s = SEARCH_RESULTS /\ AgentState.stage s' = REPO
   \/ AgentState.stage s' = DONE)
  /\ AgentState.retry_count s <= AgentState.retry_count s'
  /\ (AgentState.pending_candidates s' = AgentState.pending_candidates s
      \/ AgentState.stage s = SEARCH_RESULTS /\ is_bbox_click a = false
         /\ candidates_of a <> []).
Proof.
  intros Hout.
  destruct Hout as [success Hs Hc | Hs Hc Hne Hlt | Hs Hc Hne Hle | chosen Hs Hc Hne | Hc];
    unfold stepped; try destruct success; st_simpl;
    (split; [auto|]); (split; [lia|]); auto.
Qed.

Lemma node_fn_inv_other n s w s' w' :
  n = N_observe \/ n = N_extract ->
  node_fn v n s w = ok (s', w') ->
  AgentState.retry_count s' = AgentState.retry_count s
  /\ AgentState.pending_candidates s' = AgentState.pending_candidates s.
Proof.
  intros [->| ->] H; simpl in H.
  - apply observe_node_inv in H. tauto.
  - apply extract_node_inv in H. tauto.
Qed.

Lemma fs_png s :
  AgentState.last_png_bytes (force_search_stage s) = AgentState.last_png_bytes s.
Proof. unfold force_search_stage. now destruct (on_search_page s). Qed.

Lemma fs_step_count s :
  AgentState.step_count (force_search_stage s) = AgentState.step_count s.
Proof. unfold force_search_stage. now destruct (on_search_page s). Qed.

(** [decide_node] on a non-empty queue in SEARCH_RESULTS: the click on
    the head, once the overlay is drawn *)
Lemma decide_pending s w c rest l :
  AgentState.model_validate s = ok s ->
  AgentState.pending_candidates s = c :: rest ->
  Dict.get "bbox" c = Some (dump_ints l) ->
  AgentState.stage (force_search_stage s) = SEARCH_RESULTS ->
  decide_node s w
  = if bbox_truthy (Some l) && Str.otruthy (AgentState.last_png_bytes s)
    then match _save_bbox_overlay (or_empty (AgentState.last_png_bytes s)) l
                 (AgentState.step_count s + 1) w with
         | inl e => inl e
         | inr _ => ok (decided_state (click_action "pending_candidate" l) s, w)
         end
    else ok (decided_state (click_action "pending_candidate" l) s, w).
Proof.
  intros Hv Hp Hb Hst. unfold decide_node.
  rewrite (@bind_ok _ _ _ _ _ w s w) by (unfold lift; now rewrite Hv).
  cbv beta zeta. rewrite fs_pending, Hp, Hst. cbn [nonempty Stage_eqb andb].
  rewrite (@bind_ok _ _ _ _ _ w (click_action "pending_candidate" l) w).
  2:{ unfold lift. cbn [first rbind ok]. unfold pending_click. rewrite Hb.
      cbn [rbind ok]. now rewrite validate_click_payload. }
  cbn [click_action Action.bbox bbox_or_nil].
  destruct (bbox_truthy (Some l)) eqn:Hl; st_simpl; rewrite ?fs_png, ?fs_step_count.
  - destruct (Str.otruthy (AgentState.last_png_bytes s)) eqn:Hpng; cbn [andb].
    + unfold bind at 1.
      destruct (_save_bbox_overlay (or_empty (AgentState.last_png_bytes s)) l
                  (AgentState.step_count s + 1) w) as [e|[u w1]] eqn:Ho;
        [reflexivity|].
      apply save_bbox_overlay_inv in Ho. destruct Ho as [-> _].
      unfold decided_state, click_action. cbn [Action.bbox]. rewrite Hl. reflexivity.
    + unfold decided_state, click_action. cbn [Action.bbox]. rewrite Hl. reflexivity.
  - cbn [andb]. unfold decided_state, click_action. cbn [Action.bbox]. rewrite Hl.
    reflexivity.
Qed.

Lemma decide_reuses_head s w c rest l :
  AgentState.model_validate s = ok s ->
  AgentState.pending_candidates s = c :: rest ->
  Dict.get "bbox" c = Some (dump_ints l) ->
  AgentState.stage (force_search_stage s) = SEARCH_RESULTS ->
  overlay_ok s l w ->
  decide_node s w = ok (decided_state (click_action "pending_candidate" l) s, w).
Proof.
  intros Hv Hp Hb Hst Ho.
  rewrite (decide_pending s w c rest l Hv Hp Hb Hst).
  destruct (bbox_truthy (Some l) && Str.otruthy (AgentState.last_png_bytes s)) eqn:Hc;
    [|reflexivity].
  now rewrite (Ho Hc).
Qed.

End Effects.

(* ===================================================================== *)
(** * The claims of the specification *)
(* ===================================================================== *)

#[global] Existing Instance Sim.env.

Lemma run_reachable {E : Env} (v : Validator) (fuel : nat) :
  forall n s w n' s' w',
    reachable v n s w ->
    run v fuel n s w = ok (inr (n', s'), w') ->
    reachable v n' s' w'.
Proof.
  induction fuel as [|fuel IH]; intros n s w n' s' w' Hreach Hrun; simpl in Hrun.
  - unfold ret, ok in Hrun. inversion Hrun; subst. exact Hreach.
  - apply bind_inv in Hrun. destruct Hrun as ([next s1] & w1 & Hstep & Hrun).
    destruct next as [n1|].
    + apply (IH n1 s1 w1); [|exact Hrun].
      eapply reach_step; [exact Hreach | exact Hstep].
    + unfold ret, ok in Hrun. inversion Hrun.
Qed.

(** ** C1: the step ceiling *)

(** C1 (amended).  For every reachable state at [validate] in which
    [step_count] has reached [max_steps], whose screenshot is present and
    hashable and whose URL is not a login page: the validator's verdict
    has [should_stop], [validate_node] ends the run (the edge out of it
    is END), the final state has [stage = DONE], and [extracted_release]
    is still [None]. *)
Theorem step_ceiling_stops_off_login_page {E : Env} (v : Validator)
  (s : AgentState.t) (w : World) (png h : string) :
  reachable v N_validate s w ->
  AgentState.max_steps s <= AgentState.step_count s ->
  AgentState.last_png_bytes s = Some png -> Str.truthy png = true ->
  average_hash png 8 = ok h ->
  on_login_page s = false ->
  exists s1 r s',
    assess v s png = ok (s1, (r, h)) /\ should_stop r = true
    /\ step v N_validate s w = ok (None, s', w)
    /\ AgentState.stage s' = DONE
    /\ AgentState.extracted_release s' = None.
Proof.
  intros Hreach Hmax Hp Hpt Hh Hl.
  pose proof (reachable_inv v _ s w Hreach) as HI.
  pose proof (inv_valid _ _ HI ltac:(discriminate)) as Hv.
  pose proof (inv_release _ _ HI) as He.
  destruct (validate_at_ceiling v s w png h Hv Hp Hpt Hh Hl Hmax) as [Hval Hstop].
  eexists _, _, _. split; [|split; [exact Hstop|]].
  - unfold assess. rewrite Hh. reflexivity.
  - split; [|split].
    + unfold step. rewrite (@bind_ok _ _ _ _ _ w _ w Hval). reflexivity.
    + reflexivity.
    + st_simpl. now rewrite ro_extracted_release.
Qed.

Lemma step_ceiling_stops_witness :
  exists s',
    step default_validator N_validate
      (Sim.state_at 3 Sim.one_step_start Sim.idle_world)
      (Sim.world_at 3 Sim.one_step_start Sim.idle_world)
    = ok (None, s', Sim.world_at 3 Sim.one_step_start Sim.idle_world)
    /\ AgentState.stage s' = DONE
    /\ AgentState.extracted_release s' = None.
Proof.
  destruct (step_ceiling_stops_off_login_page (E := Sim.env) default_validator
              (Sim.state_at 3 Sim.one_step_start Sim.idle_world)
              (Sim.world_at 3 Sim.one_step_start Sim.idle_world)
              Sim.home_png Sim.home_hash)
    as (s1 & r & s' & _ & _ & Hstep & Hstage & Hrel).
  - apply (run_reachable (E := Sim.env) default_validator 3 N_observe
             Sim.one_step_start Sim.idle_world);
      [apply reach_start | vm_compute; reflexivity].
  - apply Z.leb_le. vm_compute. reflexivity.
  - vm_compute. reflexivity.
  - vm_compute. reflexivity.
  - vm_compute. reflexivity.
  - vm_compute. reflexivity.
  - exists s'. auto.
Defined.

(** C1 as stated fails: on the sign-in page, a reachable state at
    [validate] has [step_count = max_steps] and no extracted release, the
    verdict has [should_stop], and yet [validate_node] routes back to
    [observe] with the stage still HOME; four nodes later the run is
    still going, with [step_count] above [max_steps]. *)
Lemma login_page_skips_step_ceiling :
  reachable default_validator N_validate
    (Sim.state_at 3 Sim.one_step_start Sim.login_world)
    (Sim.world_at 3 Sim.one_step_start Sim.login_world)
  /\ AgentState.step_count (Sim.state_at 3 Sim.one_step_start Sim.login_world)
     = AgentState.max_steps (Sim.state_at 3 Sim.one_step_start Sim.login_world)
  /\ AgentState.extracted_release (Sim.state_at 3 Sim.one_step_start Sim.login_world)
     = None
  /\ (exists s1 r h,
        assess default_validator
          (Sim.state_at 3 Sim.one_step_start Sim.login_world)
          "PNG https://github.com/login" = ok (s1, (r, h))
        /\ should_stop r = true)
  /\ (exists s',
        step default_validator N_validate
          (Sim.state_at 3 Sim.one_step_start Sim.login_world)
          (Sim.world_at 3 Sim.one_step_start Sim.login_world)
        = ok (Some N_observe, s',
              Sim.world_at 3 Sim.one_step_start Sim.login_world)
        /\ AgentState.stage s' = HOME)
  /\ Sim.node_at 8 Sim.one_step_start Sim.login_world = N_observe
  /\ AgentState.step_count (Sim.state_at 8 Sim.one_step_start Sim.login_world) = 2
  /\ AgentState.stage (Sim.state_at 8 Sim.one_step_start Sim.login_world) = HOME.
Proof.
  split.
  { apply (run_reachable (E := Sim.env) default_validator 3 N_observe
             Sim.one_step_start Sim.login_world);
      [apply reach_start | vm_compute; reflexivity]. }
  split; [vm_compute; reflexivity|].
  split; [vm_compute; reflexivity|].
  split.
  { eexists _, _, _. split; vm_compute; reflexivity. }
  split.
  { eexists. split; vm_compute; reflexivity. }
  repeat split; vm_compute; reflexivity.
Qed.

(** ** C2: the retry counter and the stage *)

(** C2 (amended).  In every reachable configuration: when [validate_node]
    applies a URL-derived stage transition (the stage changes, and not to
    DONE), [retry_count] is 0 immediately afterwards; and no node that
    leaves the stage unchanged lowers [retry_count], so a positive
    counter is never reset without a stage change. *)
Theorem retry_reset_by_validate_transition {E : Env} (v : Validator)
  (n : Node) (s : AgentState.t) (w : World)
  (n' : option Node) (s' : AgentState.t) (w' : World) :
  reachable v n s w ->
  step v n s w = ok (n', s', w') ->
  (n = N_validate -> AgentState.stage s' <> AgentState.stage s ->
   AgentState.stage s' <> DONE -> AgentState.retry_count s' = 0)
  /\ (AgentState.stage s' = AgentState.stage s ->
      AgentState.retry_count s <= AgentState.retry_count s').
Proof.
  intros Hreach Hstep.
  pose proof (reachable_inv v n s w Hreach) as HI.
  apply step_inv in Hstep. destruct Hstep as [Hnode _].
  destruct n; simpl in Hnode.
  - apply observe_node_inv in Hnode.
    split; [discriminate|]. intros _. destruct Hnode as (_ & _ & -> & _). lia.
  - apply decide_node_inv in Hnode. destruct Hnode as (_ & a & -> & _).
    destruct (ds_fields a s) as (_ & _ & _ & _ & -> & _).
    split; [discriminate|]. lia.
  - apply act_node_inv in Hnode. destruct Hnode as (_ & a & _ & Hout).
    apply act_summary in Hout. split; [discriminate|]. intros _. tauto.
  - apply validate_node_inv in Hnode. destruct Hnode as (_ & _ & Hout).
    apply validate_summary in Hout.
    destruct Hout as [([Hs|Hs] & Hr & _)
                     | (h & st & _ & Hst & Hne & _ & _ & [Hr|(_ & _ & Hh & Hsp)])].
    + split; [congruence|]. intros _. exact Hr.
    + split; [congruence|]. intros _. exact Hr.
    + split; [auto|]. congruence.
    + exfalso. pose proof (inv_home _ _ HI (or_intror eq_refl) Hh). congruence.
  - apply extract_node_inv in Hnode.
    split; [discriminate|]. intros _. destruct Hnode as (_ & -> & _). lia.
Qed.

Lemma retry_reset_witness :
  AgentState.stage (Sim.state_at 3 Sim.default_start Sim.repo_world) = HOME
  /\ AgentState.stage (Sim.state_at 4 Sim.default_start Sim.repo_world) = REPO
  /\ AgentState.retry_count (Sim.state_at 4 Sim.default_start Sim.repo_world) = 0.
Proof.
  split; [vm_compute; reflexivity|]. split; [vm_compute; reflexivity|].
  destruct (retry_reset_by_validate_transition (E := Sim.env) default_validator N_validate
              (Sim.state_at 3 Sim.default_start Sim.repo_world)
              (Sim.world_at 3 Sim.default_start Sim.repo_world)
              (Some N_observe)
              (Sim.state_at 4 Sim.default_start Sim.repo_world)
              (Sim.world_at 4 Sim.default_start Sim.repo_world))
    as [H _].
  - apply (run_reachable (E := Sim.env) default_validator 3 N_observe
             Sim.default_start Sim.repo_world);
      [apply reach_start | vm_compute; reflexivity].
  - vm_compute. reflexivity.
  - apply H; [reflexivity | vm_compute; discriminate | vm_compute; discriminate].
Defined.

(** C2 as stated fails: in a run whose retry ceiling is 0, the third
    identical observation makes [validate_node] count a retry, exceed the
    ceiling and stop: the stage changes from HOME to DONE and
    [retry_count] is 1 immediately afterwards. *)
Lemma retry_ceiling_stop_keeps_retry_count :
  reachable default_validator N_validate
    (Sim.state_at 11 Sim.no_retry_start Sim.idle_world)
    (Sim.world_at 11 Sim.no_retry_start Sim.idle_world)
  /\ AgentState.stage (Sim.state_at 11 Sim.no_retry_start Sim.idle_world) = HOME
  /\ AgentState.retry_count (Sim.state_at 11 Sim.no_retry_start Sim.idle_world) = 0
  /\ exists s',
       step default_validator N_validate
         (Sim.state_at 11 Sim.no_retry_start Sim.idle_world)
         (Sim.world_at 11 Sim.no_retry_start Sim.idle_world)
       = ok (None, s', Sim.world_at 11 Sim.no_retry_start Sim.idle_world)
       /\ AgentState.stage s' = DONE
       /\ AgentState.retry_count s' = 1.
Proof.
  split.
  { apply (run_reachable (E := Sim.env) default_validator 11 N_observe
             Sim.no_retry_start Sim.idle_world);
      [apply reach_start | vm_compute; reflexivity]. }
  split; [vm_compute; reflexivity|].
  split; [vm_compute; reflexivity|].
  eexists. split; [vm_compute; reflexivity|].
  split; vm_compute; reflexivity.
Qed.

(** A transition outside the amended statement: in a reachable
    configuration, [act_node] moves the stage from SEARCH_RESULTS to REPO
    (the grid exploration reached the repository) and leaves
    [retry_count] at 1. *)
Lemma act_transition_keeps_retry_count :
  reachable default_validator N_act
    (Sim.state_at 6 Sim.default_start Sim.banner_then_card_world)
    (Sim.world_at 6 Sim.default_start Sim.banner_then_card_world)
  /\ AgentState.stage (Sim.state_at 6 Sim.default_start Sim.banner_then_card_world)
     = SEARCH_RESULTS
  /\ AgentState.retry_count (Sim.state_at 6 Sim.default_start Sim.banner_then_card_world)
     = 1
  /\ exists s' w',
       step default_validator N_act
         (Sim.state_at 6 Sim.default_start Sim.banner_then_card_world)
         (Sim.world_at 6 Sim.default_start Sim.banner_then_card_world)
       = ok (Some N_validate, s', w')
       /\ AgentState.stage s' = REPO
       /\ AgentState.retry_count s' = 1.
Proof.
  split.
  { apply (run_reachable (E := Sim.env) default_validator 6 N_observe
             Sim.default_start Sim.banner_then_card_world);
      [apply reach_start | vm_compute; reflexivity]. }
  split; [vm_compute; reflexivity|].
  split; [vm_compute; reflexivity|].
  eexists _, _. split; [vm_compute; reflexivity|].
  split; vm_compute; reflexivity.
Qed.

(** ** C3: the pending queue after a stage transition *)

(** C3 (amended).  Immediately after [validate_node] applies a
    URL-derived stage transition (the stage changes, and not to DONE),
    [pending_candidates] is the empty list, for every state. *)
Theorem pending_empty_after_validate_transition {E : Env} (v : Validator)
  (s : AgentState.t) (w : World) (s' : AgentState.t) (w' : World) :
  validate_node v s w = ok (s', w') ->
  AgentState.stage s' <> AgentState.stage s ->
  AgentState.stage s' <> DONE ->
  AgentState.pending_candidates s' = [].
Proof.
  intros H Hchg Hnd.
  apply validate_node_inv in H. destruct H as (_ & _ & Hout).
  apply validate_summary in Hout.
  destruct Hout as [([Hs|Hs] & _) | (h & st & _ & _ & _ & _ & Hp & _)]; congruence.
Qed.

Lemma pending_empty_witness :
  AgentState.pending_candidates
    (Sim.state_at 3 Sim.default_start Sim.named_query_world) <> []
  /\ AgentState.pending_candidates
       (Sim.state_at 4 Sim.default_start Sim.named_query_world) = [].
Proof.
  split; [vm_compute; discriminate|].
  apply (pending_empty_after_validate_transition (E := Sim.env) default_validator
           (Sim.state_at 3 Sim.default_start Sim.named_query_world)
           (Sim.world_at 3 Sim.default_start Sim.named_query_world)
           (Sim.state_at 4 Sim.default_start Sim.named_query_world)
           (Sim.world_at 4 Sim.default_start Sim.named_query_world)).
  - vm_compute. reflexivity.
  - vm_compute. discriminate.
  - vm_compute. discriminate.
Defined.

(** C3 as stated fails: with a step ceiling of 1, [validate_node] stops
    the run after the first click on a search page: the stage changes
    from SEARCH_RESULTS to DONE while the candidate that was not clicked
    is still in [pending_candidates]. *)
Lemma step_ceiling_stop_keeps_pending :
  reachable default_validator N_validate
    (Sim.state_at 3 Sim.one_step_start Sim.two_cards_world)
    (Sim.world_at 3 Sim.one_step_start Sim.two_cards_world)
  /\ AgentState.stage (Sim.state_at 3 Sim.one_step_start Sim.two_cards_world)
     = SEARCH_RESULTS
  /\ exists s',
       step default_validator N_validate
         (Sim.state_at 3 Sim.one_step_start Sim.two_cards_world)
         (Sim.world_at 3 Sim.one_step_start Sim.two_cards_world)
       = ok (None, s', Sim.world_at 3 Sim.one_step_start Sim.two_cards_world)
       /\ AgentState.stage s' = DONE
       /\ AgentState.pending_candidates s'
          = [[("bbox", Sim.card_b); ("confidence", JNull); ("reason", JNull)]].
Proof.
  split.
  { apply (run_reachable (E := Sim.env) default_validator 3 N_observe
             Sim.one_step_start Sim.two_cards_world);
      [apply reach_start | vm_compute; reflexivity]. }
  split; [vm_compute; reflexivity|].
  eexists. split; [vm_compute; reflexivity|].
  split; vm_compute; reflexivity.
Qed.

(** A transition outside the amended statement: in a reachable
    configuration, [act_node] moves the stage from SEARCH_RESULTS to REPO
    while the candidate it has just explored is still in
    [pending_candidates]. *)
Lemma act_transition_keeps_pending :
  reachable default_validator N_act
    (Sim.state_at 6 Sim.default_start Sim.two_cards_world)
    (Sim.world_at 6 Sim.default_start Sim.two_cards_world)
  /\ AgentState.stage (Sim.state_at 6 Sim.default_start Sim.two_cards_world)
     = SEARCH_RESULTS
  /\ exists s' w',
       step default_validator N_act
         (Sim.state_at 6 Sim.default_start Sim.two_cards_world)
         (Sim.world_at 6 Sim.default_start Sim.two_cards_world)
       = ok (Some N_validate, s', w')
       /\ AgentState.stage s' = REPO
       /\ AgentState.pending_candidates s'
          = [[("bbox", Sim.card_b); ("confidence", JNull); ("reason", JNull)]].
Proof.
  split.
  { apply (run_reachable (E := Sim.env) default_validator 6 N_observe
             Sim.default_start Sim.two_cards_world);
      [apply reach_start | vm_compute; reflexivity]. }
  split; [vm_compute; reflexivity|].
  eexists _, _. split; [vm_compute; reflexivity|].
  split; vm_compute; reflexivity.
Qed.

(** ** C4: the payload [{"type": "bbox", "coords": [10, 10, 50, 30]}] *)

(** C4 (amended).  The normalizer rewrites the payload
    [{"type": "bbox", "coords": [10, 10, 50, 30]}] to a click whose
    [bbox] is [[10, 10, 50, 30]]; and when the vision service returns
    that payload together with a [reason] string, the action path
    returns an [Action] with [type = "click"], [bbox = [10, 10, 50, 30]]
    and that reason, without raising. *)
Theorem bbox_payload_with_reason_is_click {E : Env}
  (model system user png : string) (w w' : World) (reason : string) :
  _call_json model system user png w = ok (bbox_payload_with reason, w') ->
  _normalize_action_payload bbox_payload
  = ok (JObj [("type", JStr "click");
              ("coords", JList [JInt 10; JInt 10; JInt 50; JInt 30]);
              ("bbox", JList [JInt 10; JInt 10; JInt 50; JInt 30])])
  /\ exists a, _call_action model system user png w = ok (a, w')
       /\ Action.type a = "click" /\ Action.bbox a = Some [10; 10; 50; 30]
       /\ Action.reason a = reason.
Proof.
  intros H. split; [reflexivity|].
  unfold _call_action, bind. rewrite H.
  eexists. split; [reflexivity|]. repeat split; reflexivity.
Qed.

Lemma bbox_payload_with_reason_witness :
  exists a,
    _call_action "gpt-5-mini" "system" "user" Sim.home_png Sim.bbox_reason_world
    = ok (a, Sim.mkWorld Sim.home_url Sim.repo_url [] [])
    /\ Action.type a = "click" /\ Action.bbox a = Some [10; 10; 50; 30]
    /\ Action.reason a = "search box".
Proof.
  apply (bbox_payload_with_reason_is_click (E := Sim.env)
           "gpt-5-mini" "system" "user" Sim.home_png Sim.bbox_reason_world
           (Sim.mkWorld Sim.home_url Sim.repo_url [] []) "search box").
  vm_compute. reflexivity.
Defined.

(** C4 as stated fails: when the vision service returns exactly
    [{"type": "bbox", "coords": [10, 10, 50, 30]}], the normalized payload
    has no [reason], the [Action] schema rejects it, and the action path
    raises [RuntimeError "Invalid Action JSON"]: no [Action] is produced. *)
Lemma bbox_payload_without_reason_rejected :
  _call_json "gpt-5-mini" "system" "user" Sim.home_png Sim.bbox_world
  = ok (bbox_payload, Sim.mkWorld Sim.home_url Sim.repo_url [] [])
  /\ _normalize_action_payload bbox_payload
     = ok (JObj [("type", JStr "click");
                 ("coords", JList [JInt 10; JInt 10; JInt 50; JInt 30]);
                 ("bbox", JList [JInt 10; JInt 10; JInt 50; JInt 30])])
  /\ Action_model_validate (str_int (Env := Sim.env)) (str_float (Env := Sim.env))
       (JObj [("type", JStr "click");
              ("coords", JList [JInt 10; JInt 10; JInt 50; JInt 30]);
              ("bbox", JList [JInt 10; JInt 10; JInt 50; JInt 30])])
     = raise ValidationError
  /\ _call_action "gpt-5-mini" "system" "user" Sim.home_png Sim.bbox_world
     = raise (RuntimeError "Invalid Action JSON")
  /\ get_action Sim.home_png "Find the search box." "HOME" Sim.bbox_world
     = raise (RuntimeError "Invalid Action JSON").
Proof.
  split; [vm_compute; reflexivity|].
  split; [vm_compute; reflexivity|].
  split; [vm_compute; reflexivity|].
  split; vm_compute; reflexivity.
Qed.

(** ** C5: the geometric gate *)

(** C5.  For every image size [W], [H > 0] and every bbox: if the gate
    accepts, then the width and the height of the bbox are at least 5
    and, in the floating-point arithmetic the code computes in, the
    center satisfies [0.16 * W <= centerX <= 0.82 * W] and
    [0.10 * H <= centerY]. *)
Theorem valid_column_accept (x1 y1 x2 y2 W H : Z) :
  0 < W -> 0 < H ->
  bbox_in_valid_column (x1, y1, x2, y2) W H = ok true ->
  5 <= x2 - x1 /\ 5 <= y2 - y1 /\
  float_le (scale_by W left_frac) (center x1 x2) /\
  float_le (center x1 x2) (scale_by W right_frac) /\
  float_le (scale_by H header_frac) (center y1 y2).
Proof.
  intros _ _. unfold bbox_in_valid_column.
  destruct (orb _ _) eqn:H1; [discriminate|].
  destruct (orb (x2 - x1 <? 5) _) eqn:H2; [discriminate|].
  apply orb_false_elim in H2. destruct H2 as [Hw Hh].
  apply Z.ltb_ge in Hw, Hh.
  destruct (center x1 x2) as [?|cx] eqn:Hcx; [discriminate|].
  destruct (center y1 y2) as [?|cy] eqn:Hcy; [discriminate|].
  cbn [rbind].
  destruct (scale_by H header_frac) as [?|hd] eqn:Hhd; [discriminate|]. cbn [rbind].
  destruct (PyFloat.ltb cy hd) eqn:L1; [discriminate|].
  destruct (scale_by W left_frac) as [?|lf] eqn:Hlf; [discriminate|]. cbn [rbind].
  destruct (PyFloat.ltb cx lf) eqn:L2; [discriminate|].
  destruct (scale_by W right_frac) as [?|rt] eqn:Hrt; [discriminate|]. cbn [rbind].
  destruct (PyFloat.ltb rt cx) eqn:L3; [discriminate|].
  intros _.
  pose proof (center_not_nan _ _ _ Hcx) as Ncx.
  pose proof (center_not_nan _ _ _ Hcy) as Ncy.
  pose proof (scale_by_not_nan _ _ _ _ Hhd) as Nhd.
  pose proof (scale_by_not_nan _ _ _ _ Hlf) as Nlf.
  pose proof (scale_by_not_nan _ _ _ _ Hrt) as Nrt.
  split; [lia|]. split; [lia|].
  split; [|split].
  - exists lf, cx. repeat split. now apply PyFloatFacts.ltb_false_leb.
  - exists cx, rt. repeat split. now apply PyFloatFacts.ltb_false_leb.
  - exists hd, cy. repeat split. now apply PyFloatFacts.ltb_false_leb.
Qed.

Lemma valid_column_accept_witness :
  5 <= 900 - 300 /\ 5 <= 460 - 340 /\
  float_le (scale_by 1280 left_frac) (center 300 900) /\
  float_le (center 300 900) (scale_by 1280 right_frac) /\
  float_le (scale_by 720 header_frac) (center 340 460).
Proof.
  apply (valid_column_accept 300 340 900 460 1280 720).
  - lia.
  - lia.
  - vm_compute. reflexivity.
Defined.

(** ** C6: the stuck-recovery rotation *)

Lemma step_of {E : Env} (v : Validator) (n : Node) (s : AgentState.t) (w : World)
  (s' : AgentState.t) (w' : World) (nx : option Node) :
  node_fn v n s w = ok (s', w') -> route n s' = ok nx ->
  step v n s w = ok (nx, s', w').
Proof.
  intros Hn Hr. unfold step.
  rewrite (@bind_ok _ _ _ _ _ w s' w' Hn).
  unfold lift, bind, ret. now rewrite Hr.
Qed.

(** one stuck detection, and the execution of its recovery action, as
    steps of the graph *)
Lemma standstill_steps {E : Env} (url png h : string) (s : AgentState.t) (w : World) :
  at_standstill url png h s -> decodable s ->
  AgentState.step_count s < AgentState.max_steps s ->
  AgentState.retry_count s + 1 <= AgentState.max_retries_per_stage s ->
  step default_validator N_validate s w = ok (Some N_act, recovered h s, w)
  /\ exists w1, step default_validator N_act (recovered h s) w
                = ok (Some N_validate, stepped (recovered h s), w1).
Proof.
  intros Hss Hdec Hstep Hretry.
  destruct (standstill_cycle url png h s w Hss Hdec Hstep Hretry) as (V & w1 & A).
  split.
  - apply step_of; [exact V|].
    unfold route.
    replace (AgentState.next_node (recovered h s)) with (Some "act")
      by (symmetry; apply recovered_fields).
    reflexivity.
  - exists w1. apply step_of; [exact A|]. reflexivity.
Qed.

(** C6 (amended).  Whenever the stuck condition holds at [validate] off
    a login page, with the step ceiling not yet reached and the retry
    ceiling not exceeded by one more retry, validation substitutes the
    recovery action selected by [retry_count mod 3] (scroll down for 0,
    scroll up for 1, browser back for 2), counts a retry and routes to
    [act]; and from [retry_count = 0], with a retry ceiling of at least 3
    and at least three steps left, three consecutive detections produce
    scroll-down, scroll-up, back, in this order. *)
Theorem stuck_recovery_rotation {E : Env} (url png h : string)
  (s : AgentState.t) (w : World) :
  at_standstill url png h s -> decodable s ->
  AgentState.step_count s < AgentState.max_steps s ->
  AgentState.retry_count s + 1 <= AgentState.max_retries_per_stage s ->
  stuck default_validator h (record_observation h s) = true
  /\ (exists s1,
        step default_validator N_validate s w = ok (Some N_act, s1, w)
        /\ AgentState.retry_count s1 = AgentState.retry_count s + 1
        /\ AgentState.last_action s1
           = Some (match AgentState.retry_count s mod 3 with
                   | 0 => stuck_recovery_scroll_down
                   | 1 => stuck_recovery_scroll_up
                   | _ => stuck_recovery_back
                   end))
  /\ (AgentState.retry_count s = 0 ->
      3 <= AgentState.max_retries_per_stage s ->
      AgentState.step_count s + 2 < AgentState.max_steps s ->
      exists s1 w1 s2 w2 s3,
        step default_validator N_validate s w = ok (Some N_act, s1, w)
        /\ AgentState.last_action s1 = Some stuck_recovery_scroll_down
        /\ step default_validator N_act s1 w = ok (Some N_validate, stepped s1, w1)
        /\ step default_validator N_validate (stepped s1) w1 = ok (Some N_act, s2, w1)
        /\ AgentState.last_action s2 = Some stuck_recovery_scroll_up
        /\ step default_validator N_act s2 w1 = ok (Some N_validate, stepped s2, w2)
        /\ step default_validator N_validate (stepped s2) w2 = ok (Some N_act, s3, w2)
        /\ AgentState.last_action s3 = Some stuck_recovery_back).
Proof.
  intros Hss Hdec Hstep Hretry.
  split; [now apply standstill_stuck with (url := url) (png := png)|].
  split.
  - exists (recovered h s).
    destruct (standstill_steps url png h s w Hss Hdec Hstep Hretry) as [V _].
    destruct (recovered_fields h s)
      as (_ & _ & _ & _ & _ & _ & _ & Rrc & _ & _ & _ & Ra).
    rewrite recovery_of_retry in Ra. auto.
  - intros Hr Hmax Hsteps.
    set (s1 := recovered h s). set (s1' := stepped s1).
    set (s2 := recovered h s1'). set (s2' := stepped s2).
    set (s3 := recovered h s2').
    destruct (recovered_fields h s)
      as (_ & _ & _ & R1raw & R1sc & R1ms & R1mr & R1rc & _ & _ & _ & R1a).
    destruct (stepped_fields s1) as (S1rc & S1sc & S1ms & S1mr & S1raw & _).
    destruct (recovered_fields h s1')
      as (_ & _ & _ & R2raw & R2sc & R2ms & R2mr & R2rc & _ & _ & _ & R2a).
    destruct (stepped_fields s2) as (S2rc & S2sc & S2ms & S2mr & S2raw & _).
    destruct (recovered_fields h s2')
      as (_ & _ & _ & _ & _ & _ & _ & _ & _ & _ & _ & R3a).
    fold s1 in R1raw, R1sc, R1ms, R1mr, R1rc, R1a.
    fold s1' in S1rc, S1sc, S1ms, S1mr, S1raw.
    fold s2 in R2raw, R2sc, R2ms, R2mr, R2rc, R2a.
    fold s2' in S2rc, S2sc, S2ms, S2mr, S2raw.
    fold s3 in R3a.
    assert (Hss1 : at_standstill url png h s1') by now apply standstill_persists.
    assert (Hss2 : at_standstill url png h s2') by now apply standstill_persists.
    assert (Hdec1 : decodable s1') by (intros raw Hraw; apply Hdec; congruence).
    assert (Hdec2 : decodable s2') by (intros raw Hraw; apply Hdec1; congruence).
    destruct (standstill_steps url png h s w Hss Hdec) as (V1 & w1 & A1); try lia.
    destruct (standstill_steps url png h s1' w1 Hss1 Hdec1) as (V2 & w2 & A2); try lia.
    destruct (standstill_steps url png h s2' w2 Hss2 Hdec2) as (V3 & _); try lia.
    exists s1, w1, s2, w2, s3.
    rewrite recovery_of_retry in R1a, R2a, R3a.
    replace (AgentState.retry_count s mod 3) with 0 in R1a by (rewrite Hr; reflexivity).
    replace (AgentState.retry_count s1' mod 3) with 1 in R2a
      by (rewrite S1rc, R1rc, Hr; reflexivity).
    replace (AgentState.retry_count s2' mod 3) with 2 in R3a
      by (rewrite S2rc, R2rc, S1rc, R1rc, Hr; reflexivity).
    repeat split; assumption.
Qed.

Lemma stuck_recovery_rotation_witness :
  exists s1 w1 s2 w2 s3,
    step default_validator N_validate
      (Sim.state_at 11 Sim.default_start Sim.idle_world)
      (Sim.world_at 11 Sim.default_start Sim.idle_world)
    = ok (Some N_act, s1, Sim.world_at 11 Sim.default_start Sim.idle_world)
    /\ AgentState.last_action s1 = Some stuck_recovery_scroll_down
    /\ step default_validator N_act s1
         (Sim.world_at 11 Sim.default_start Sim.idle_world)
       = ok (Some N_validate, stepped s1, w1)
    /\ step default_validator N_validate (stepped s1) w1 = ok (Some N_act, s2, w1)
    /\ AgentState.last_action s2 = Some stuck_recovery_scroll_up
    /\ step default_validator N_act s2 w1 = ok (Some N_validate, stepped s2, w2)
    /\ step default_validator N_validate (stepped s2) w2 = ok (Some N_act, s3, w2)
    /\ AgentState.last_action s3 = Some stuck_recovery_back.
Proof.
  destruct (stuck_recovery_rotation (E := Sim.env)
              Sim.home_url Sim.home_png Sim.home_hash
              (Sim.state_at 11 Sim.default_start Sim.idle_world)
              (Sim.world_at 11 Sim.default_start Sim.idle_world))
    as (_ & _ & H).
  - constructor; try (vm_compute; reflexivity).
    split; apply Z.leb_le; vm_compute; reflexivity.
  - intros raw _. exists (1280, 720). reflexivity.
  - apply Z.ltb_lt. vm_compute. reflexivity.
  - apply Z.leb_le. vm_compute. reflexivity.
  - apply H.
    + vm_compute. reflexivity.
    + apply Z.leb_le. vm_compute. reflexivity.
    + apply Z.ltb_lt. vm_compute. reflexivity.
Defined.

(** C6 as stated fails: with a step ceiling of 3, the third identical
    observation is made at a reachable state in which the stuck
    condition holds and [retry_count] is 0; the verdict carries no
    recovery action, and [validate_node] ends the run with stage DONE,
    leaving the last action (a wait) in place: no scroll-down is
    substituted. *)
Lemma stuck_at_step_ceiling_no_recovery :
  reachable default_validator N_validate
    (Sim.state_at 11 Sim.three_step_start Sim.idle_world)
    (Sim.world_at 11 Sim.three_step_start Sim.idle_world)
  /\ at_standstill Sim.home_url Sim.home_png Sim.home_hash
       (Sim.state_at 11 Sim.three_step_start Sim.idle_world)
  /\ stuck default_validator Sim.home_hash
       (record_observation Sim.home_hash
          (Sim.state_at 11 Sim.three_step_start Sim.idle_world)) = true
  /\ AgentState.retry_count (Sim.state_at 11 Sim.three_step_start Sim.idle_world) = 0
  /\ recovery_action
       (verdict default_validator Sim.home_hash
          (record_observation Sim.home_hash
             (Sim.state_at 11 Sim.three_step_start Sim.idle_world))) = None
  /\ exists s',
       step default_validator N_validate
         (Sim.state_at 11 Sim.three_step_start Sim.idle_world)
         (Sim.world_at 11 Sim.three_step_start Sim.idle_world)
       = ok (None, s', Sim.world_at 11 Sim.three_step_start Sim.idle_world)
       /\ AgentState.stage s' = DONE
       /\ AgentState.last_action s'
          = AgentState.last_action
              (Sim.state_at 11 Sim.three_step_start Sim.idle_world)
       /\ AgentState.last_action s' <> Some stuck_recovery_scroll_down.
Proof.
  split.
  { apply (run_reachable (E := Sim.env) default_validator 11 N_observe
             Sim.three_step_start Sim.idle_world);
      [apply reach_start | vm_compute; reflexivity]. }
  split.
  { constructor; try (vm_compute; reflexivity).
    split; apply Z.leb_le; vm_compute; reflexivity. }
  split; [vm_compute; reflexivity|].
  split; [vm_compute; reflexivity|].
  split; [vm_compute; reflexivity|].
  eexists. split; [vm_compute; reflexivity|].
  split; [vm_compute; reflexivity|].
  split; [vm_compute; reflexivity|].
  vm_compute. discriminate.
Qed.

(** ** C7: the forced SEARCH_RESULTS stage *)




(** ** C8: grid exploration of a small region *)

(** C8.  For every region whose width or height is at most 20 pixels,
    the grid-exploration fallback returns [false] and leaves the browser
    as it was: no point is clicked. *)
Theorem explore_small_region_fails {E : Env} (w : World)
  (x1 y1 x2 y2 : Z) (repo : string) :
  x2 - x1 <= 20 \/ y2 - y1 <= 20 ->
  _explore_click_points_multi (x1, y1, x2, y2) repo w = ok (false, w).
Proof.
  intros H.
  unfold _explore_click_points_multi, _clamp_bbox_to_viewport, bind, query, ret.
  destruct (viewport_or_default w) as [vw vh]. cbv beta iota zeta delta [ok].
  destruct (orb _ _) eqn:Hc; [reflexivity|].
  apply orb_false_elim in Hc. destruct Hc as [Hc1 Hc2].
  apply Z.leb_gt in Hc1, Hc2. lia.
Qed.

Lemma explore_small_region_witness :
  _explore_click_points_multi (300, 200, 315, 400) "openclaw/openclaw"
    Sim.two_cards_world
  = ok (false, Sim.two_cards_world)
  /\ Sim.clicks Sim.two_cards_world = [].
Proof.
  split; [|reflexivity].
  apply (explore_small_region_fails (E := Sim.env) Sim.two_cards_world
           300 200 315 400 "openclaw/openclaw").
  left. lia.
Defined.

(** ** C9: the pending queue is read by DECIDE, consumed by VALIDATE *)

(** C9.  In every reachable configuration: when [decide_node] runs in
    stage SEARCH_RESULTS with a non-empty queue, every state it returns
    holds the click on the bbox of the head of the queue and the queue
    unchanged, with the browser as it was; it returns exactly when the
    overlay it draws for that bbox goes through (otherwise it raises and
    nothing is dequeued either); and a step of the graph that changes a
    non-empty queue is a step of [validate_node], which either pops the
    head (routing to [act]) or clears the queue together with a stage
    transition. *)
Theorem pending_queue_frame {E : Env} (v : Validator)
  (n : Node) (s : AgentState.t) (w : World) :
  reachable v n s w ->
  (n = N_decide -> AgentState.stage s = SEARCH_RESULTS ->
   forall c rest, AgentState.pending_candidates s = c :: rest ->
     exists bbox,
       Dict.get "bbox" c = Some (dump_ints bbox)
       /\ (forall s' w', decide_node s w = ok (s', w') ->
             w' = w
             /\ AgentState.last_action s'
                = Some (Action_model_dump (click_action "pending_candidate" bbox))
             /\ AgentState.pending_candidates s' = c :: rest)
       /\ ((exists s', decide_node s w = ok (s', w)) <-> overlay_ok s bbox w))
  /\ (forall n' s' w', step v n s w = ok (n', s', w') ->
        AgentState.pending_candidates s' = AgentState.pending_candidates s
        \/ AgentState.pending_candidates s = []
        \/ (n = N_validate /\ AgentState.next_node s' = Some "act"
            /\ exists c, AgentState.pending_candidates s
                         = c :: AgentState.pending_candidates s')
        \/ (n = N_validate /\ AgentState.pending_candidates s' = []
            /\ AgentState.stage s' <> AgentState.stage s
            /\ AgentState.stage s' <> DONE)).
Proof.
  intros Hreach.
  pose proof (reachable_inv v n s w Hreach) as HI.
  split.
  - intros -> Hst c rest Hp.
    pose proof (inv_valid _ _ HI ltac:(discriminate)) as Hv.
    pose proof (inv_pending _ _ HI) as Hpend. rewrite Hp in Hpend.
    inversion Hpend as [|? ? (l & Hl & Hb) _]; subst.
    assert (Hfs : AgentState.stage (force_search_stage s) = SEARCH_RESULTS).
    { rewrite fs_stage. now destruct (on_search_page s). }
    destruct (ds_fields (click_action "pending_candidate" l) s)
      as (Fp & _ & _ & _ & _ & Fa & _).
    pose proof (decide_pending s w c rest l Hv Hp Hb Hfs) as Heq.
    exists l. split; [exact Hb|]. split; [|split].
    + intros s' w' Hd. rewrite Heq in Hd.
      assert (Hs' : s' = decided_state (click_action "pending_candidate" l) s
                    /\ w' = w).
      { destruct (bbox_truthy (Some l) && Str.otruthy (AgentState.last_png_bytes s)).
        - destruct (_save_bbox_overlay _ l _ w) as [e|u]; [discriminate|].
          inversion Hd; auto.
        - inversion Hd; auto. }
      destruct Hs' as [-> ->].
      split; [reflexivity|]. split; [exact Fa|]. now rewrite Fp.
    + intros [s' Hd] Hc. rewrite Heq, Hc in Hd.
      destruct (_save_bbox_overlay (or_empty (AgentState.last_png_bytes s)) l
                  (AgentState.step_count s + 1) w) as [e|[u w1]] eqn:Ho;
        [discriminate|].
      apply save_bbox_overlay_inv in Ho. destruct Ho as [-> _].
      now destruct u.
    + intros Ho. exists (decided_state (click_action "pending_candidate" l) s).
      now apply decide_reuses_head with (c := c) (rest := rest).
  - intros n' s' w' Hstep.
    apply step_inv in Hstep. destruct Hstep as [Hnode _].
    destruct n; simpl in Hnode.
    + apply observe_node_inv in Hnode. left. tauto.
    + apply decide_node_inv in Hnode. destruct Hnode as (_ & a & -> & _).
      left. apply ds_fields.
    + apply act_node_inv in Hnode. destruct Hnode as (_ & a & Hparse & Hout).
      apply act_summary in Hout.
      destruct Hout as (_ & _ & [Hp | (Hs & Hc & Hne)]); [now left|].
      right. left.
      destruct (AgentState.pending_candidates s) as [|c rest] eqn:Hp; [reflexivity|].
      exfalso.
      destruct (inv_ready _ _ HI eq_refl Hs) as (a' & Hparse' & Hh).
      { rewrite Hp. discriminate. }
      rewrite Hparse in Hparse'. inversion Hparse'; subst a'.
      apply Hne. now apply harmless_no_candidates.
    + apply validate_node_inv in Hnode. destruct Hnode as (_ & _ & Hout).
      apply validate_summary in Hout.
      destruct Hout as [(_ & _ & [Hp | (Hn & c & Hp)])
                       | (h & st & _ & Hst & Hne & Hnd & Hp & _)].
      * now left.
      * right. right. left. eauto.
      * right. right. right. repeat split; congruence.
    + apply extract_node_inv in Hnode. left. tauto.
Qed.

Lemma pending_queue_frame_witness :
  exists s',
    decide_node (Sim.state_at 5 Sim.default_start Sim.two_cards_world)
      (Sim.world_at 5 Sim.default_start Sim.two_cards_world)
    = ok (s', Sim.world_at 5 Sim.default_start Sim.two_cards_world)
    /\ AgentState.last_action s'
       = Some (Action_model_dump
                 (click_action "pending_candidate" [300; 340; 900; 460]))
    /\ AgentState.pending_candidates s'
       = AgentState.pending_candidates
           (Sim.state_at 5 Sim.default_start Sim.two_cards_world)
    /\ AgentState.pending_candidates s' <> [].
Proof.
  destruct (pending_queue_frame (E := Sim.env) default_validator N_decide
              (Sim.state_at 5 Sim.default_start Sim.two_cards_world)
              (Sim.world_at 5 Sim.default_start Sim.two_cards_world))
    as [H _].
  - apply (run_reachable (E := Sim.env) default_validator 5 N_observe
             Sim.default_start Sim.two_cards_world);
      [apply reach_start | vm_compute; reflexivity].
  - destruct (H eq_refl ltac:(vm_compute; reflexivity)
                [("bbox", Sim.card_b); ("confidence", JNull); ("reason", JNull)]
                [] ltac:(vm_compute; reflexivity))
      as (bbox & Hb & Hret & Hiff).
    assert (Hbb : bbox = [300; 340; 900; 460]).
    { vm_compute in Hb. destruct bbox as [|a [|b [|c [|d [|e r]]]]];
        try discriminate Hb.
      inversion Hb. reflexivity. }
    subst bbox.
    destruct Hiff as [_ Hgo].
    destruct (Hgo ltac:(intros _; vm_compute; reflexivity)) as [s' Hd].
    destruct (Hret s' _ Hd) as (_ & Ha & Hp).
    exists s'. split; [exact Hd|]. split; [exact Ha|].
    split; [rewrite Hp; vm_compute; reflexivity|].
    rewrite Hp. discriminate.
Defined.

(** ** C10: the grid points stay inside the region *)

(** C10.  For every region with width and height above 20 (and below
    [2 ^ 1000], where the conversion to [float] is defined) and the grid
    dimensions the fallback uses (3 or 5 columns, 2 rows), the generator
    returns at most 10 points, each of them inside the region with a
    4-pixel margin. *)
Theorem grid_points_within_margin (x1 y1 x2 y2 xs ys : Z) :
  20 < x2 - x1 < 2 ^ 1000 -> 20 < y2 - y1 < 2 ^ 1000 ->
  xs = 3 \/ xs = 5 -> ys = 2 ->
  exists pts, _grid_points x1 y1 x2 y2 xs ys = ok pts
    /\ (List.length pts <= 10)%nat
    /\ Forall (within_margin x1 y1 x2 y2) pts.
Proof.
  intros Hw Hh Hxs ->. unfold _grid_points.
  assert (Hfx : exists l, fracs xs = ok l /\ Forall small_fraction l /\ (List.length l <= 5)%nat).
  { destruct Hxs as [-> | ->].
    - destruct fracs_3 as (l & ? & ? & ?); exists l; repeat split; auto; lia.
    - destruct fracs_5 as (l & ? & ? & ?); exists l; repeat split; auto; lia. }
  destruct Hfx as (fxs & -> & Hsx & Hlx).
  destruct fracs_2 as (fys & -> & Hsy & Hly).
  cbv beta iota delta [rbind ok].
  rewrite Z.max_r by lia. rewrite Z.max_r by lia.
  set (row := fun fy => mapM _ fxs).
  destruct (@mapM_ok _ _ row
              (fun r => Forall (within_margin x1 y1 x2 y2) r /\ List.length r = List.length fxs) fys)
    as (rows & Hrows & Hall & Hlen).
  { intros fy Hfy. unfold row.
    destruct (@mapM_ok _ _
                (fun fx => (dx <- int_scaled fx (x2 - x1) ;;
                            let px := Z.min (Z.max (x1 + dx) (x1 + 4)) (x2 - 4) in
                            dy <- int_scaled fy (y2 - y1) ;;
                            let py := Z.min (Z.max (y1 + dy) (y1 + 4)) (y2 - 4) in
                            ok (px, py))%res)
                (within_margin x1 y1 x2 y2) fxs) as (r & Hr & Hpr & Hlr).
    - intros fx Hfx.
      destruct (@int_scaled_total fx (x2 - x1)) as (dx & ->); [|lia|].
      { rewrite Forall_forall in Hsx. now apply Hsx. }
      destruct (@int_scaled_total fy (y2 - y1)) as (dy & ->); [|lia|].
      { rewrite Forall_forall in Hsy. now apply Hsy. }
      simpl. eexists; split; [reflexivity|]. unfold within_margin; simpl. lia.
    - exists r. auto. }
  rewrite Hrows. cbv beta iota delta [rbind ok].
  eexists; split; [reflexivity|]. split.
  - rewrite List.length_firstn. lia.
  - apply Forall_firstn, Forall_concat.
    eapply Forall_impl; [|exact Hall]. now intros r [? _].
Qed.

Lemma grid_points_within_margin_witness :
  exists pts, _grid_points 300 340 900 460 3 2 = ok pts
    /\ (List.length pts <= 10)%nat
    /\ Forall (within_margin 300 340 900 460) pts.
Proof.
  apply (grid_points_within_margin 300 340 900 460 3 2).
  - split; [lia | vm_compute; reflexivity].
  - split; [lia | vm_compute; reflexivity].
  - left. reflexivity.
  - reflexivity.
Defined.

(* ===================================================================== *)
(** * Further properties of the code *)
(* ===================================================================== *)

(* ===================================================================== *)
(** * The action schema: what the normalizer and the validator guarantee *)
(* ===================================================================== *)

Lemma get_set_same k v d : Dict.get k (Dict.set k v d) = Some v.
Proof.
  induction d as [|[k' v'] d IH]; simpl.
  - now rewrite String.eqb_refl.
  - destruct (String.eqb k k') eqn:Hk; simpl.
    + now rewrite String.eqb_refl.
    + now rewrite Hk.
Qed.

Lemma get_set_other k k' v d :
  k <> k' -> Dict.get k (Dict.set k' v d) = Dict.get k d.
Proof.
  intros Hne. induction d as [|[k0 v0] d IH]; simpl.
  - destruct (String.eqb_spec k k'); [contradiction|reflexivity].
  - destruct (String.eqb_spec k' k0) as [->|Hk0]; simpl.
    + destruct (String.eqb_spec k k0); [contradiction|reflexivity].
    + destruct (String.eqb_spec k k0); [reflexivity|exact IH].
Qed.

Lemma getd_set_other k k' v d :
  k <> k' -> Dict.getd k (Dict.set k' v d) = Dict.getd k d.
Proof. intros H. unfold Dict.getd. now rewrite get_set_other. Qed.

Section SchemaFacts.
Variable str_int : string -> option Z.
Variable str_float : string -> option PyFloat.float.

Lemma mapM_v_int_JInt l : mapM (v_int str_int) (map JInt l) = ok l.
Proof.
  induction l as [|n l IH]; [reflexivity|].
  simpl. rewrite IH. reflexivity.
Qed.

Lemma optional_dump {A} (v : json -> res A) (f : A -> json) k d o :
  Dict.get k d = Some (dump_opt f o) ->
  (forall a, f a <> JNull) -> (forall a, v (f a) = ok a) ->
  optional v k d = ok o.
Proof.
  intros Hg Hn Hv. unfold optional. rewrite Hg.
  destruct o as [a|]; simpl; [|reflexivity].
  specialize (Hn a). specialize (Hv a).
  destruct (f a); try contradiction; rewrite Hv; reflexivity.
Qed.

Lemma v_ints_dump l : v_list (v_int str_int) (dump_ints l) = ok l.
Proof. apply mapM_v_int_JInt. Qed.

Lemma ScrollSpec_validate_dump sc :
  ScrollSpec_model_validate str_int (ScrollSpec_model_dump sc) = ok sc.
Proof. destruct sc. reflexivity. Qed.

Lemma ExpectSpec_validate_dump x :
  ExpectSpec_model_validate (ExpectSpec_model_dump x) = ok x.
Proof. destruct x as [[u|] [p|]]; reflexivity. Qed.

Lemma CandidateBBox_validate_dump c :
  CandidateBBox_model_validate str_int str_float (CandidateBBox_model_dump c) = ok c.
Proof.
  destruct c as [bbox conf text reason].
  unfold CandidateBBox_model_validate, CandidateBBox_model_dump, required.
  cbn [Dict.get String.eqb Ascii.eqb Bool.eqb CandidateBBox.bbox
       CandidateBBox.confidence CandidateBBox.text CandidateBBox.reason].
  rewrite v_ints_dump. cbn [rbind ok].
  rewrite (@optional_dump _ (v_float str_float) JFloat "confidence" _ conf);
    [|reflexivity|discriminate|reflexivity].
  rewrite (@optional_dump _ v_str JStr "text" _ text);
    [|reflexivity|discriminate|reflexivity].
  rewrite (@optional_dump _ v_str JStr "reason" _ reason);
    [|reflexivity|discriminate|reflexivity].
  reflexivity.
Qed.

Lemma candidates_validate_dump l :
  v_list (CandidateBBox_model_validate str_int str_float)
         (JList (map CandidateBBox_model_dump l)) = ok l.
Proof.
  unfold v_list. induction l as [|c l IH]; [reflexivity|].
  cbn [map mapM]. rewrite CandidateBBox_validate_dump. cbn [rbind ok].
  rewrite IH. reflexivity.
Qed.

(** X1.  Whatever [Action.model_dump] writes, [Action.model_validate] reads
    back as the same action: [decide_node] can hand any action to
    [act_node] through [state.last_action]. *)
Theorem Action_validate_dump (a : Action.t) :
  Action_model_validate str_int str_float (JObj (Action_model_dump a)) = ok a.
Proof.
  destruct a as [type reason bbox text key scroll expect candidates].
  unfold Action_model_validate, Action_model_dump, required.
  cbn [Dict.get String.eqb Ascii.eqb Bool.eqb Action.type Action.reason
       Action.bbox Action.text Action.key Action.scroll Action.expect
       Action.candidates v_str rbind ok].
  rewrite (@optional_dump _ (v_list (v_int str_int)) dump_ints "bbox" _ bbox);
    [|reflexivity|discriminate|apply v_ints_dump].
  rewrite (@optional_dump _ v_str JStr "text" _ text);
    [|reflexivity|discriminate|reflexivity].
  rewrite (@optional_dump _ v_str JStr "key" _ key);
    [|reflexivity|discriminate|reflexivity].
  rewrite (@optional_dump _ (ScrollSpec_model_validate str_int)
             ScrollSpec_model_dump "scroll" _ scroll);
    [|reflexivity|discriminate|apply ScrollSpec_validate_dump].
  rewrite (@optional_dump _ ExpectSpec_model_validate
             ExpectSpec_model_dump "expect" _ expect);
    [|reflexivity|discriminate|apply ExpectSpec_validate_dump].
  rewrite (@optional_dump _ (v_list (CandidateBBox_model_validate str_int str_float))
             (fun l => JList (map CandidateBBox_model_dump l)) "candidates" _ candidates);
    [|reflexivity|discriminate|apply candidates_validate_dump].
  reflexivity.
Qed.

End SchemaFacts.

Lemma normalize_steps p :
  _normalize_action_payload (JObj p)
  = (let '(p7, sc) := scroll_cleared (normalized_head p) in
     p8 <- scroll_rounded p7 sc ;; ok (JObj (key_checked p8)))%res.
Proof. reflexivity. Qed.

Lemma normalize_inv j q :
  _normalize_action_payload j = ok q ->
  exists p p8,
    j = JObj p
    /\ scroll_rounded (fst (scroll_cleared (normalized_head p)))
                      (snd (scroll_cleared (normalized_head p))) = ok p8
    /\ q = JObj (key_checked p8).
Proof.
  intros H. destruct j as [| | | | | |p]; try discriminate H.
  rewrite normalize_steps in H. exists p.
  destruct (scroll_cleared (normalized_head p)) as [p7 sc]. simpl.
  destruct (scroll_rounded p7 sc) as [e|p8]; [discriminate|].
  exists p8. simpl in H. inversion H. repeat split; reflexivity.
Qed.

Lemma getd_get k d v : Dict.get k d = Some v -> Dict.getd k d = v.
Proof. unfold Dict.getd. now intros ->. Qed.



(** ** What each block leaves alone *)

Lemma get_type_renamed k p :
  k <> "type" -> Dict.get k (type_renamed p) = Dict.get k p.
Proof.
  intros Hk. unfold type_renamed. cbv zeta.
  destruct (is_str_in _ ["click_type"; _; _]); destruct (is_str_in _ _);
    repeat rewrite (get_set_other k "type") by exact Hk; reflexivity.
Qed.

Lemma get_coords_as_bbox k p :
  k <> "bbox" -> Dict.get k (coords_as_bbox p) = Dict.get k p.
Proof.
  intros Hk. unfold coords_as_bbox.
  destruct (_ && _); [now rewrite get_set_other|reflexivity].
Qed.

Lemma get_boxes_as_candidates k p :
  k <> "bbox" -> k <> "candidates" ->
  Dict.get k (boxes_as_candidates p) = Dict.get k p.
Proof.
  intros Hb Hc. unfold boxes_as_candidates. cbv zeta.
  destruct (Dict.getd "bbox" p) as [| | | | |[|[| | | | |l|] rest]|]; try reflexivity.
  rewrite get_set_other by exact Hb. now rewrite get_set_other.
Qed.

Lemma get_candidates_normalized k p :
  k <> "candidates" -> Dict.get k (candidates_normalized p) = Dict.get k p.
Proof.
  intros Hk. unfold candidates_normalized. cbv zeta.
  destruct (Dict.getd "candidates" p); try reflexivity. now rewrite get_set_other.
Qed.

Lemma get_expect_wrapped k p :
  k <> "expect" -> Dict.get k (expect_wrapped p) = Dict.get k p.
Proof.
  intros Hk. unfold expect_wrapped. cbv zeta.
  destruct (Dict.getd "expect" p); try reflexivity. now rewrite get_set_other.
Qed.

Lemma get_normalized_head k p :
  k <> "type" -> k <> "bbox" -> k <> "candidates" -> k <> "expect" ->
  Dict.get k (normalized_head p) = Dict.get k p.
Proof.
  intros Ht Hb Hc He. unfold normalized_head.
  rewrite get_expect_wrapped, get_candidates_normalized, get_boxes_as_candidates,
    get_coords_as_bbox, get_type_renamed by assumption.
  reflexivity.
Qed.

Lemma get_scroll_cleared k p :
  k <> "scroll" -> Dict.get k (fst (scroll_cleared p)) = Dict.get k p.
Proof.
  intros Hk. unfold scroll_cleared. cbv zeta.
  destruct (Dict.getd "scroll" p) as [|[|]| | | | |]; try reflexivity.
  simpl. now rewrite get_set_other.
Qed.

Lemma get_scroll_rounded k p sc p8 :
  k <> "scroll" -> scroll_rounded p sc = ok p8 -> Dict.get k p8 = Dict.get k p.
Proof.
  intros Hk. unfold scroll_rounded.
  destruct sc as [| | | | | |s]; try (intros H; inversion H; reflexivity).
  destruct (Dict.get "amount" s) as [[| | |f| | |]|];
    try (intros H; inversion H; reflexivity).
  destruct (_ && _).
  - intros H; inversion H. now rewrite get_set_other.
  - destruct (PyFloat.round_int f); [discriminate|].
    intros H; inversion H. now rewrite get_set_other.
Qed.

Lemma get_key_checked k p :
  k <> "key" -> Dict.get k (key_checked p) = Dict.get k p.
Proof.
  intros Hk. unfold key_checked.
  destruct (Dict.getd "key" p); try reflexivity.
  destruct (existsb _ _); [reflexivity|]. now rewrite get_set_other.
Qed.

(** ** The type of the normalized payload *)

Lemma get_type_type_renamed p :
  Dict.get "type" (type_renamed p)
  = if is_str_in (Dict.getd "type" p) ["bbox"; "box"]
       || is_str_in (Dict.getd "type" p)
            ["click_type"; "click-and-type"; "click_and_type"]
    then Some (JStr "click") else Dict.get "type" p.
Proof.
  unfold type_renamed. cbv zeta.
  destruct (is_str_in _ ["bbox"; "box"]);
    destruct (is_str_in _ ["click_type"; _; _]); cbn [orb];
    repeat rewrite get_set_same; reflexivity.
Qed.

(** X3.  The normalizer turns the type names [bbox], [box], [click_type],
    [click-and-type] and [click_and_type], in any letter case, into
    [click], and leaves every other type entry (also a missing one) as
    it was. *)
Theorem normalized_type (j : json) (d : Dict.t) :
  _normalize_action_payload j = ok (JObj d) ->
  exists p, j = JObj p
    /\ Dict.get "type" d
       = if is_str_in (Dict.getd "type" p) ["bbox"; "box"]
            || is_str_in (Dict.getd "type" p)
                 ["click_type"; "click-and-type"; "click_and_type"]
         then Some (JStr "click") else Dict.get "type" p.
Proof.
  intros H. apply normalize_inv in H.
  destruct H as (p & p8 & -> & Hr & Hq). inversion Hq; subst d. clear Hq.
  exists p. split; [reflexivity|].
  rewrite get_key_checked by discriminate.
  rewrite (get_scroll_rounded "type" _ _ _ ltac:(discriminate) Hr).
  rewrite get_scroll_cleared by discriminate.
  unfold normalized_head.
  rewrite get_expect_wrapped, get_candidates_normalized, get_boxes_as_candidates,
    get_coords_as_bbox by discriminate.
  apply get_type_type_renamed.
Qed.

Lemma normalized_type_witness :
  exists p, JObj [("type", JStr "Click-And-Type"); ("reason", JStr "search")] = JObj p
    /\ Dict.get "type" [("type", JStr "click"); ("reason", JStr "search")]
       = if is_str_in (Dict.getd "type" p) ["bbox"; "box"]
            || is_str_in (Dict.getd "type" p)
                 ["click_type"; "click-and-type"; "click_and_type"]
         then Some (JStr "click") else Dict.get "type" p.
Proof.
  apply (normalized_type
           (JObj [("type", JStr "Click-And-Type"); ("reason", JStr "search")])
           [("type", JStr "click"); ("reason", JStr "search")]).
  vm_compute. reflexivity.
Defined.

(** ** The scroll amount *)



Lemma getd_normalized_head k p :
  k <> "type" -> k <> "bbox" -> k <> "candidates" -> k <> "expect" ->
  Dict.getd k (normalized_head p) = Dict.getd k p.
Proof. intros. unfold Dict.getd. now rewrite get_normalized_head. Qed.

(** X5.  A scroll amount that is an infinite float or a NaN makes the
    normalizer raise [OverflowError] or [ValueError] (from
    [int(round(amount))]); the action path does not turn these into its
    [RuntimeError]. *)
Theorem call_action_scroll_overflow {E : Env}
  (model system user png : string) (w w' : World)
  (p sc : Dict.t) (f : float) :
  _call_json model system user png w = ok (JObj p, w') ->
  Dict.get "scroll" p = Some (JObj sc) ->
  Dict.get "amount" sc = Some (JFloat f) ->
  (forall m e, f <> Fin m e) ->
  _normalize_action_payload (JObj p)
  = raise (if PyFloat.is_nan f then ValueError else OverflowError)
  /\ _call_action model system user png w
     = raise (if PyFloat.is_nan f then ValueError else OverflowError).
Proof.
  intros Hc Hs Ha Hf.
  assert (Hn : _normalize_action_payload (JObj p)
               = raise (if PyFloat.is_nan f then ValueError else OverflowError)).
  { rewrite normalize_steps. unfold scroll_cleared. cbv zeta.
    rewrite getd_normalized_head by discriminate.
    rewrite (getd_get _ _ _ Hs). unfold scroll_rounded. rewrite Ha.
    destruct f as [m e|[|]|]; [now elim (Hf m e)| | |]; reflexivity. }
  split; [exact Hn|].
  unfold _call_action, bind, lift. rewrite Hc. cbv beta iota delta [ok].
  rewrite Hn. reflexivity.
Qed.

Lemma call_action_scroll_overflow_witness :
  _call_action (E := Sim.env) "gpt-5-mini" "system" "user" Sim.home_png
    (Sim.mkWorld Sim.home_url Sim.repo_url
       [JObj [("type", JStr "scroll"); ("reason", JStr "more");
              ("scroll", JObj [("direction", JStr "down");
                               ("amount", JFloat (Inf false))])]] [])
  = raise OverflowError.
Proof.
  apply (call_action_scroll_overflow (E := Sim.env)
           "gpt-5-mini" "system" "user" Sim.home_png
           (Sim.mkWorld Sim.home_url Sim.repo_url
              [JObj [("type", JStr "scroll"); ("reason", JStr "more");
                     ("scroll", JObj [("direction", JStr "down");
                                      ("amount", JFloat (Inf false))])]] [])
           (Sim.mkWorld Sim.home_url Sim.repo_url [] [])
           [("type", JStr "scroll"); ("reason", JStr "more");
            ("scroll", JObj [("direction", JStr "down");
                             ("amount", JFloat (Inf false))])]
           [("direction", JStr "down"); ("amount", JFloat (Inf false))]
           (Inf false)).
  - reflexivity.
  - reflexivity.
  - reflexivity.
  - intros m e. discriminate.
Defined.

(* ===================================================================== *)
(** * Rounding between integer bounds *)
(* ===================================================================== *)

Module PyFloatBounds.
Import PyFloat.

Lemma round_pos_signed n j lo hi (s : bool) :
  0 <= j -> 0 <= lo -> lo * 2 ^ j <= n <= hi * 2 ^ j -> hi < 2 ^ 53 ->
  exists m e, round_pos s n (2 ^ j) = Fin (if s then - m else m) e
              /\ e <= 0 /\ lo * 2 ^ (- e) <= m <= hi * 2 ^ (- e).
Proof.
  intros Hj Hlo [Hn1 Hn2] Hhi.
  assert (Hpj : 0 < 2 ^ j) by (apply Z.pow_pos_nonneg; lia).
  unfold round_pos.
  destruct (Z.eqb_spec n 0) as [->|Hn0].
  { exists 0, 0. split; [now destruct s|]. split; [lia|]. simpl. nia. }
  assert (Hn : 0 < n) by nia.
  rewrite PyFloatFacts.ilog2_frac_pow2 by lia.
  set (a := Z.log2 n).
  assert (Ha0 : 0 <= a) by apply Z.log2_nonneg.
  assert (Ha : 2 ^ a <= n < 2 ^ (a + 1)).
  { unfold a. replace (Z.log2 n + 1) with (Z.succ (Z.log2 n)) by lia.
    apply Z.log2_spec; lia. }
  assert (Haj : a - j <= 52).
  { assert (Hx : 2 ^ a < 2 ^ (53 + j)).
    { rewrite Z.pow_add_r by lia. nia. }
    apply Z.pow_lt_mono_r_iff in Hx; lia. }
  set (e := Z.max emin (a - j - 52)).
  assert (He0 : e <= 0) by (unfold e, emin; lia).
  assert (He1 : a - j - 52 <= e) by (unfold e; lia).
  rewrite (Z.max_r 0 (- e)) by lia. rewrite (Z.max_l 0 e) by lia.
  rewrite Z.mul_1_r.
  set (k := 2 ^ (- e)).
  assert (Hk : 0 < k) by (apply Z.pow_pos_nonneg; lia).
  set (num := n * k). set (den := 2 ^ j).
  assert (Hdm : num = den * (num / den) + num mod den)
    by (apply Z.div_mod; unfold den; lia).
  assert (Hmod : 0 <= num mod den < den)
    by (apply Z.mod_pos_bound; unfold den; lia).
  assert (Hq1 : lo * k <= num / den).
  { apply Z.div_le_lower_bound; [unfold den; lia|]. unfold num, den. nia. }
  assert (Hq2 : num / den <= hi * k).
  { apply Z.div_le_upper_bound; [unfold den; lia|]. unfold num, den. nia. }
  set (q := num / den) in *.
  set (m := if 2 * (num mod den) <? den then q
            else if den <? 2 * (num mod den) then q + 1
            else if Z.even q then q else q + 1).
  assert (Hm : lo * k <= m <= hi * k).
  { assert (Hup : 0 < num mod den -> q + 1 <= hi * k).
    { intros Hr. assert (den * q < den * (hi * k)) by (unfold num, den in *; nia).
      assert (q < hi * k) by (unfold den in *; nia). lia. }
    unfold m.
    destruct (Z.ltb_spec (2 * (num mod den)) den); [lia|].
    destruct (Z.ltb_spec den (2 * (num mod den))).
    - split; [lia|]. apply Hup. lia.
    - destruct (Z.even q); [lia|]. split; [lia|]. apply Hup. unfold den in *. lia. }
  destruct (Z.eqb_spec m (2 ^ 53)) as [Hc|Hc].
  - assert (He : e <= -1).
    { destruct (Z.eq_dec e 0) as [E0|]; [|lia].
      exfalso. unfold k in Hm. rewrite E0 in Hm. simpl in Hm. lia. }
    destruct (Z.ltb_spec emax (e + 1)); [unfold emax in *; lia|].
    exists (2 ^ 52), (e + 1). split; [now destruct s|]. split; [lia|].
    assert (Hk2 : k = 2 * 2 ^ (- (e + 1))).
    { unfold k. replace (- e) with (1 + - (e + 1)) by lia.
      rewrite Z.pow_add_r by lia. reflexivity. }
    assert (0 < 2 ^ (- (e + 1))) by (apply Z.pow_pos_nonneg; lia).
    rewrite Hc in Hm. change (2 ^ 53) with (2 * 2 ^ 52) in Hm. nia.
  - destruct (Z.ltb_spec emax e); [unfold emax in *; lia|].
    unfold mk. destruct (Z.eqb_spec (if s then - m else m) 0) as [Hm0|Hm0].
    + exists 0, 0. split; [now destruct s|]. split; [lia|]. simpl.
      assert (m = 0) by (destruct s; lia). nia.
    + exists m, e. split; [reflexivity|]. split; [lia|]. exact Hm.
Qed.

Lemma round_between n j lo hi :
  0 <= j -> 0 <= lo -> lo * 2 ^ j <= n <= hi * 2 ^ j -> hi < 2 ^ 53 ->
  float_between lo hi (round n (2 ^ j)).
Proof.
  intros Hj Hlo Hn Hhi. unfold round.
  assert (0 < 2 ^ j) by (apply Z.pow_pos_nonneg; lia).
  destruct (Z.ltb_spec n 0); [nia|].
  destruct (round_pos_signed n j lo hi false Hj Hlo Hn Hhi) as (m & e & -> & He & Hm).
  exists m, e. auto.
Qed.

Lemma trunc_between lo hi x :
  0 <= lo -> float_between lo hi x -> exists z, trunc x = ok z /\ lo <= z <= hi.
Proof.
  intros Hlo (m & e & -> & He & Hm).
  assert (Hk : 0 < 2 ^ (- e)) by (apply Z.pow_pos_nonneg; lia).
  unfold trunc. eexists. split; [reflexivity|].
  destruct (Z.leb_spec 0 e).
  - assert (e = 0) by lia. subst e. simpl in *. lia.
  - assert (0 <= m) by nia. rewrite Z.quot_div_nonneg by lia.
    split.
    + apply Z.div_le_lower_bound; lia.
    + apply Z.div_le_upper_bound; lia.
Qed.

(** [float(n)] is exact below [2^53] *)
Lemma of_int_between n :
  0 <= n < 2 ^ 53 -> exists x, of_int n = ok x /\ float_between n n x.
Proof.
  intros Hn. unfold of_int.
  pose proof (round_between n 0 n n ltac:(lia) ltac:(lia)) as H.
  change (2 ^ 0) with 1 in H. specialize (H ltac:(lia) ltac:(lia)).
  destruct H as (m & e & Hr & He & Hm). rewrite Hr.
  exists (Fin m e). split; [reflexivity|]. exists m, e. auto.
Qed.

(** the product of a float in [[0, 1]] and an exact integer *)
Lemma mul_between mf ef n x lo hi :
  0 <= mf -> ef <= 0 -> 0 <= lo -> hi < 2 ^ 53 ->
  float_between n n x ->
  lo * 2 ^ (- ef) <= mf * n <= hi * 2 ^ (- ef) ->
  float_between lo hi (mul (Fin mf ef) x).
Proof.
  intros Hmf Hef Hlo Hhi (m & e & -> & He & Hm) Hb.
  assert (Hk : 0 < 2 ^ (- e)) by (apply Z.pow_pos_nonneg; lia).
  assert (Hkf : 0 < 2 ^ (- ef)) by (apply Z.pow_pos_nonneg; lia).
  assert (Hmn : m = n * 2 ^ (- e)) by lia.
  unfold mul.
  rewrite (Z.max_l 0 (ef + e)) by lia. rewrite (Z.max_r 0 (- (ef + e))) by lia.
  rewrite Z.mul_1_r.
  apply round_between; try lia.
  replace (- (ef + e)) with (- ef + - e) by lia.
  rewrite Z.pow_add_r by lia. subst m. nia.
Qed.

Lemma int_scaled_between mf ef n lo hi :
  0 <= mf -> ef <= 0 -> 0 <= lo -> hi < 2 ^ 53 -> 0 <= n < 2 ^ 53 ->
  lo * 2 ^ (- ef) <= mf * n <= hi * 2 ^ (- ef) ->
  exists z, int_scaled (Fin mf ef) n = ok z /\ lo <= z <= hi.
Proof.
  intros Hmf Hef Hlo Hhi Hn Hb. unfold int_scaled.
  destruct (of_int_between n Hn) as (x & -> & Hx). cbn [rbind ok].
  apply trunc_between; [exact Hlo|].
  now apply mul_between with (n := n).
Qed.

(** [int(0.70 * w)] *)
Lemma int_scaled_0_70 w :
  1 <= w < 2 ^ 50 ->
  exists z, int_scaled scale_0_70 w = ok z
            /\ 7 * w - 10 <= 10 * z <= 7 * w + 9.
Proof.
  intros Hw. unfold scale_0_70.
  set (lo := (7 * w - 10 + 9) / 10).
  set (hi := (7 * w + 9) / 10).
  assert (Hlo : 7 * w - 10 <= 10 * lo <= 7 * w - 1).
  { unfold lo. pose proof (Z.div_mod (7 * w - 10 + 9) 10 ltac:(lia)).
    pose proof (Z.mod_pos_bound (7 * w - 10 + 9) 10 ltac:(lia)). lia. }
  assert (Hhi : 7 * w <= 10 * hi <= 7 * w + 9).
  { unfold hi. pose proof (Z.div_mod (7 * w + 9) 10 ltac:(lia)).
    pose proof (Z.mod_pos_bound (7 * w + 9) 10 ltac:(lia)). lia. }
  change (2 ^ 50) with 1125899906842624 in Hw.
  destruct (int_scaled_between 6305039478318694 (-53) w lo hi) as (z & Hz & Hb).
  - lia.
  - lia.
  - lia.
  - change (2 ^ 53) with 9007199254740992. lia.
  - change (2 ^ 53) with 9007199254740992. lia.
  - change (- -53) with 53. change (2 ^ 53) with 9007199254740992. lia.
  - exists z. split; [exact Hz|]. lia.
Qed.



End PyFloatBounds.

(* ===================================================================== *)
(** * Where the browser clicks *)
(* ===================================================================== *)

Section Clicks.
Context {E : Env}.


End Clicks.


(* ===================================================================== *)
(** * The grid exploration stays inside its region *)
(* ===================================================================== *)

(** the grid of a region of at least 8 by 8 pixels *)
Lemma grid_points_margin (x1 y1 x2 y2 xs ys : Z) :
  8 <= x2 - x1 < 2 ^ 1000 -> 8 <= y2 - y1 < 2 ^ 1000 ->
  xs = 3 \/ xs = 5 -> ys = 2 ->
  exists pts, _grid_points x1 y1 x2 y2 xs ys = ok pts
    /\ Forall (within_margin x1 y1 x2 y2) pts.
Proof.
  intros Hw Hh Hxs ->. unfold _grid_points.
  assert (Hfx : exists l, fracs xs = ok l /\ Forall small_fraction l).
  { destruct Hxs as [-> | ->].
    - destruct fracs_3 as (l & ? & ? & ?); exists l; auto.
    - destruct fracs_5 as (l & ? & ? & ?); exists l; auto. }
  destruct Hfx as (fxs & -> & Hsx).
  destruct fracs_2 as (fys & -> & Hsy & Hly).
  cbv beta iota delta [rbind ok].
  rewrite Z.max_r by lia. rewrite Z.max_r by lia.
  set (row := fun fy => mapM _ fxs).
  destruct (@mapM_ok _ _ row (Forall (within_margin x1 y1 x2 y2)) fys)
    as (rows & Hrows & Hall & Hlen).
  { intros fy Hfy. unfold row.
    destruct (@mapM_ok _ _
                (fun fx => (dx <- int_scaled fx (x2 - x1) ;;
                            let px := Z.min (Z.max (x1 + dx) (x1 + 4)) (x2 - 4) in
                            dy <- int_scaled fy (y2 - y1) ;;
                            let py := Z.min (Z.max (y1 + dy) (y1 + 4)) (y2 - 4) in
                            ok (px, py))%res)
                (within_margin x1 y1 x2 y2) fxs) as (r & Hr & Hpr & Hlr).
    - intros fx Hfx.
      destruct (@int_scaled_total fx (x2 - x1)) as (dx & ->); [|lia|].
      { rewrite Forall_forall in Hsx. now apply Hsx. }
      destruct (@int_scaled_total fy (y2 - y1)) as (dy & ->); [|lia|].
      { rewrite Forall_forall in Hsy. now apply Hsy. }
      simpl. eexists; split; [reflexivity|]. unfold within_margin; simpl. lia.
    - exists r. auto. }
  rewrite Hrows. cbv beta iota delta [rbind ok].
  eexists; split; [reflexivity|].
  now apply Forall_firstn, Forall_concat.
Qed.

Lemma within_margin_shrunk x1 y1 x2 y2 bx2 by2 pts :
  bx2 <= x2 -> by2 <= y2 ->
  Forall (within_margin x1 y1 bx2 by2) pts ->
  Forall (within_margin x1 y1 x2 y2) pts.
Proof.
  intros Hx Hy. apply Forall_impl. intros [px py]. unfold within_margin. simpl. lia.
Qed.

Lemma shrink_0_70 (x1 y1 x2 y2 : Z) :
  1 <= x2 - x1 < 2 ^ 50 -> 1 <= y2 - y1 < 2 ^ 50 ->
  exists bx2 by2,
    _shrink_top_left (x1, y1, x2, y2) scale_0_70 = ok (x1, y1, bx2, by2)
    /\ x1 <= bx2 <= x2 /\ y1 <= by2 <= y2
    /\ 7 * (x2 - x1) - 10 <= 10 * (bx2 - x1) <= 7 * (x2 - x1) + 9
    /\ 7 * (y2 - y1) - 10 <= 10 * (by2 - y1) <= 7 * (y2 - y1) + 9.
Proof.
  intros Hw Hh. unfold _shrink_top_left.
  rewrite Z.max_r by lia. rewrite Z.max_r by lia.
  destruct (PyFloatBounds.int_scaled_0_70 (x2 - x1) Hw) as (dw & -> & Hdw).
  destruct (PyFloatBounds.int_scaled_0_70 (y2 - y1) Hh) as (dh & -> & Hdh).
  cbn [rbind ok]. exists (x1 + dw), (y1 + dh).
  split; [reflexivity|]. lia.
Qed.

(** X7.  [_shrink_top_left] with the scale 0.70 keeps the top-left corner and
    returns a box inside the given one, about 0.7 times as wide and as
    high. *)
Theorem shrink_top_left_inside (x1 y1 x2 y2 : Z) :
  1 <= x2 - x1 < 2 ^ 50 -> 1 <= y2 - y1 < 2 ^ 50 ->
  exists bx2 by2,
    _shrink_top_left (x1, y1, x2, y2) scale_0_70 = ok (x1, y1, bx2, by2)
    /\ x1 <= bx2 <= x2 /\ y1 <= by2 <= y2
    /\ 7 * (x2 - x1) - 10 <= 10 * (bx2 - x1) <= 7 * (x2 - x1) + 9
    /\ 7 * (y2 - y1) - 10 <= 10 * (by2 - y1) <= 7 * (y2 - y1) + 9.
Proof.
  intros Hw Hh.
  destruct (shrink_0_70 x1 y1 x2 y2 Hw Hh) as (bx2 & by2 & H).
  exists bx2, by2. exact H.
Qed.

Lemma shrink_top_left_inside_witness :
  exists bx2 by2,
    _shrink_top_left (300, 340, 900, 460) scale_0_70 = ok (300, 340, bx2, by2)
    /\ 300 <= bx2 <= 900 /\ 340 <= by2 <= 460
    /\ 7 * (900 - 300) - 10 <= 10 * (bx2 - 300) <= 7 * (900 - 300) + 9
    /\ 7 * (460 - 340) - 10 <= 10 * (by2 - 340) <= 7 * (460 - 340) + 9.
Proof.
  apply (shrink_top_left_inside 300 340 900 460).
  - split; [lia | vm_compute; reflexivity].
  - split; [lia | vm_compute; reflexivity].
Defined.

Section Exploration.
Context {E : Env}.
Variable P : Z * Z -> Prop.
Variable I : World -> Prop.
Hypothesis Hsafe : click_safe P I.

Lemma delay_keeps w : I w -> exists w', _delay w = ok (tt, w') /\ I w'.
Proof.
  intros Hw. rewrite delay_eq. unfold effect. eexists. split; [reflexivity|].
  now apply Hsafe.
Qed.

Lemma ensure_in_viewport_keeps x y w :
  I w -> exists w', _ensure_in_viewport x y w = ok (tt, w') /\ I w'.
Proof.
  intros Hw. unfold _ensure_in_viewport, bind, query.
  destruct (viewport_or_default w) as [width height]. cbv beta iota delta [ok].
  destruct (_ || _).
  - unfold scroll, bind, effect. cbv beta iota delta [ok].
    match goal with
    | |- context [_delay ?x] => destruct (delay_keeps x) as (w1 & -> & H1)
    end.
    { now apply Hsafe. }
    cbv beta iota delta [ok]. eexists. split; [reflexivity|]. now apply Hsafe.
  - eexists. split; [reflexivity|]. exact Hw.
Qed.

Lemma click_point_keeps x y w :
  P (x, y) -> I w -> exists w', click_point x y w = ok (tt, w') /\ I w'.
Proof.
  intros Hp Hw. unfold click_point, bind.
  destruct (ensure_in_viewport_keeps x y w Hw) as (w1 & -> & H1).
  cbv beta iota delta [ok]. unfold effect at 1. cbv beta iota delta [ok].
  apply delay_keeps. now apply Hsafe.
Qed.

Lemma click_until_hit_keeps target pts :
  Forall P pts ->
  forall w, I w -> exists b w', click_until_hit target pts w = ok (b, w') /\ I w'.
Proof.
  induction 1 as [|[px py] rest Hp _ IH]; intros w Hw.
  - exists false, w. split; [reflexivity|exact Hw].
  - cbn [click_until_hit]. unfold bind at 1. unfold query at 1.
    cbv beta iota delta [ok].
    unfold bind at 1.
    destruct (click_point_keeps px py w Hp Hw) as (w1 & -> & H1).
    cbv beta iota delta [ok].
    unfold bind at 1. unfold effect at 1. cbv beta iota delta [ok].
    unfold bind at 1. unfold call at 1. cbv beta iota delta [ok].
    set (w2 := time_sleep (seconds 8 10) w1).
    assert (H2 : I w2) by now apply Hsafe.
    pose proof (proj2 (proj2 (proj2 Hsafe)) "domcontentloaded" 1500 w2 H2) as H3.
    destruct (page_wait_for_load_state "domcontentloaded" 1500 w2) as [loaded w3].
    simpl in H3.
    unfold bind at 1. unfold query at 1. cbv beta iota delta [ok].
    destruct (_ && _).
    + exists true, w3. split; [reflexivity|exact H3].
    + apply IH. exact H3.
Qed.

Lemma explore_rounds_keeps target rounds :
  Forall (fun r => Forall P (snd r)) rounds ->
  forall w, I w -> exists b w', explore_rounds target rounds w = ok (b, w') /\ I w'.
Proof.
  induction 1 as [|[[label box] pts] rest Hp _ IH]; intros w Hw.
  - exists false, w. split; [reflexivity|exact Hw].
  - cbn [explore_rounds]. unfold bind at 1.
    destruct (click_until_hit_keeps target pts Hp w Hw) as (b & w1 & -> & H1).
    cbv beta iota delta [ok]. destruct b.
    + exists true, w1. split; [reflexivity|exact H1].
    + apply IH. exact H1.
Qed.

End Exploration.

(** X8.  The grid exploration never raises, and every point it clicks lies in
    the clamped region, at least 4 pixels from its border: a property of
    the world that such clicks (and scrolling, sleeping and waiting)
    keep still holds when the exploration returns. *)
Theorem explore_clicks_inside {E : Env} (I : World -> Prop)
  (bbox : bbox4) (repo : string) (w w1 : World) (x1 y1 x2 y2 : Z) :
  _clamp_bbox_to_viewport bbox w = ok ((x1, y1, x2, y2), w1) ->
  x2 - x1 < 2 ^ 50 -> y2 - y1 < 2 ^ 50 ->
  click_safe (within_margin x1 y1 x2 y2) I ->
  I w ->
  exists b w', _explore_click_points_multi bbox repo w = ok (b, w') /\ I w'.
Proof.
  intros Hc Bx By Hsafe Hw.
  assert (Hw1 : w1 = w).
  { destruct bbox as [[[a b] c] d]. unfold _clamp_bbox_to_viewport, bind, query, ret in Hc.
    destruct (viewport_or_default w). cbv beta iota delta [ok] in Hc.
    now inversion Hc. }
  subst w1.
  unfold _explore_click_points_multi. unfold bind at 1. rewrite Hc.
  cbv beta iota delta [ok].
  destruct ((x2 <=? x1 + 20) || (y2 <=? y1 + 20)) eqn:Hsmall.
  { exists false, w. split; [reflexivity|exact Hw]. }
  apply orb_false_elim in Hsmall. destruct Hsmall as [Hs1 Hs2].
  apply Z.leb_gt in Hs1, Hs2.
  assert (B1000 : 2 ^ 50 < 2 ^ 1000) by (apply Z.pow_lt_mono_r; lia).
  destruct (grid_points_margin x1 y1 x2 y2 3 2) as (pa & Hpa & Fa); try lia.
  destruct (shrink_0_70 x1 y1 x2 y2) as (bx2 & by2 & Hb & Hbx & Hby & Hbw & Hbh);
    try lia.
  destruct (grid_points_margin x1 y1 bx2 by2 5 2) as (pb & Hpb & Fb); try lia.
  destruct (shrink_0_70 x1 y1 bx2 by2) as (cx2 & cy2 & Hcc & Hcx & Hcy & Hcw & Hch);
    try lia.
  destruct (grid_points_margin x1 y1 cx2 cy2 5 2) as (pc & Hpc & Fc); try lia.
  unfold bind at 1. unfold lift at 1. rewrite Hpa. cbv beta iota delta [ok].
  unfold bind at 1. unfold lift at 1. rewrite Hb. cbv beta iota delta [ok].
  unfold bind at 1. unfold lift at 1. rewrite Hpb. cbv beta iota delta [ok].
  unfold bind at 1. unfold lift at 1. rewrite Hcc. cbv beta iota delta [ok].
  unfold bind at 1. unfold lift at 1. rewrite Hpc. cbv beta iota delta [ok].
  cbv zeta.
  apply explore_rounds_keeps with (P := within_margin x1 y1 x2 y2);
    [exact Hsafe| |exact Hw].
  repeat constructor; simpl.
  - exact Fa.
  - apply within_margin_shrunk with (bx2 := bx2) (by2 := by2); [lia|lia|exact Fb].
  - apply within_margin_shrunk with (bx2 := cx2) (by2 := cy2); [lia|lia|exact Fc].
Qed.

Lemma explore_clicks_inside_witness :
  exists b w',
    _explore_click_points_multi (E := Sim.env) (300, 340, 900, 460)
      "openclaw/openclaw" Sim.two_cards_world = ok (b, w')
    /\ Forall (within_margin 300 340 900 460) (Sim.clicks w').
Proof.
  apply (explore_clicks_inside (E := Sim.env)
           (fun w => Forall (within_margin 300 340 900 460) (Sim.clicks w))
           (300, 340, 900, 460) "openclaw/openclaw"
           Sim.two_cards_world Sim.two_cards_world 300 340 900 460).
  - reflexivity.
  - vm_compute. reflexivity.
  - vm_compute. reflexivity.
  - unfold click_safe. simpl. repeat split; intros; try assumption.
    constructor; assumption.
  - constructor.
Defined.

(** X9.  [_clamp_bbox_to_viewport] never raises and leaves the browser alone;
    the box it returns has its x-coordinates between 220 and the
    viewport width (or at 220 when the viewport is narrower) and its
    y-coordinates between 0 and the viewport height; the order of the
    coordinates is kept, the box does not grow, and clamping it again
    changes nothing. *)
Theorem clamp_bbox_to_viewport_spec {E : Env} (bx1 by1 bx2 by2 : Z) (w : World) :
  exists x1 y1 x2 y2,
    _clamp_bbox_to_viewport (bx1, by1, bx2, by2) w = ok ((x1, y1, x2, y2), w)
    /\ 220 <= x1 <= Z.max 220 (fst (viewport_or_default w))
    /\ 220 <= x2 <= Z.max 220 (fst (viewport_or_default w))
    /\ 0 <= y1 <= Z.max 0 (snd (viewport_or_default w))
    /\ 0 <= y2 <= Z.max 0 (snd (viewport_or_default w))
    /\ (bx1 <= bx2 -> x1 <= x2 /\ x2 - x1 <= bx2 - bx1)
    /\ (by1 <= by2 -> y1 <= y2 /\ y2 - y1 <= by2 - by1)
    /\ _clamp_bbox_to_viewport (x1, y1, x2, y2) w = ok ((x1, y1, x2, y2), w).
Proof.
  unfold _clamp_bbox_to_viewport, bind, query, ret.
  destruct (viewport_or_default w) as [vw vh]. cbv beta iota zeta delta [ok fst snd].
  eexists _, _, _, _. split; [reflexivity|].
  repeat split; try lia.
  f_equal. f_equal. f_equal; [f_equal; [f_equal|]|]; lia.
Qed.

Lemma leb_true_ltb x y : PyFloat.leb x y = true -> PyFloat.ltb y x = false.
Proof.
  destruct x as [m1 e1|s1|], y as [m2 e2|s2|]; simpl; try discriminate.
  - intros H. apply Z.leb_le in H. apply Z.ltb_ge. exact H.
  - destruct s2; simpl; congruence.
  - destruct s1; simpl; congruence.
  - destruct s1, s2; simpl; congruence.
Qed.

(** X10.  The gate rejects, without raising, every bbox narrower or lower than
    5 pixels, whatever the image size; and it accepts a bbox of at least
    5 by 5 pixels whose center satisfies, in the float arithmetic of the
    code, [0.16 * W <= centerX <= 0.82 * W] and [0.10 * H <= centerY]:
    the column test is exactly this set of comparisons. *)
Theorem valid_column_complete (x1 y1 x2 y2 W H : Z) :
  (x2 - x1 < 5 \/ y2 - y1 < 5 ->
   bbox_in_valid_column (x1, y1, x2, y2) W H = ok false)
  /\ (5 <= x2 - x1 -> 5 <= y2 - y1 ->
      float_le (scale_by W left_frac) (center x1 x2) ->
      float_le (center x1 x2) (scale_by W right_frac) ->
      float_le (scale_by H header_frac) (center y1 y2) ->
      bbox_in_valid_column (x1, y1, x2, y2) W H = ok true).
Proof.
  unfold bbox_in_valid_column. split.
  - intros Hs.
    destruct (orb _ _) eqn:H1; [reflexivity|].
    destruct (orb (x2 - x1 <? 5) _) eqn:H2; [reflexivity|].
    apply orb_false_elim in H2. destruct H2 as [Ha Hb].
    apply Z.ltb_ge in Ha, Hb. lia.
  - intros Hw Hh (lf & cx & Hlf & Hcx & L1) (cx' & rt & Hcx' & Hrt & L2)
      (hd & cy & Hhd & Hcy & L3).
    rewrite Hcx in Hcx'. inversion Hcx'; subst cx'.
    destruct (Z.leb_spec x2 x1); [lia|]. destruct (Z.leb_spec y2 y1); [lia|].
    destruct (Z.ltb_spec (x2 - x1) 5); [lia|]. destruct (Z.ltb_spec (y2 - y1) 5); [lia|].
    cbn [orb]. rewrite Hcx, Hcy. cbn [rbind ok]. rewrite Hhd. cbn [rbind ok].
    rewrite (leb_true_ltb _ _ L3). rewrite Hlf. cbn [rbind ok].
    rewrite (leb_true_ltb _ _ L1). rewrite Hrt. cbn [rbind ok].
    rewrite (leb_true_ltb _ _ L2). reflexivity.
Qed.

Lemma valid_column_complete_witness :
  bbox_in_valid_column (300, 340, 900, 460) 1280 720 = ok true
  /\ bbox_in_valid_column (10, 10, 14, 40) 1280 720 = ok false.
Proof.
  destruct (valid_column_complete 300 340 900 460 1280 720) as [_ Hacc].
  destruct (valid_column_complete 10 10 14 40 1280 720) as [Hrej _].
  split.
  - apply Hacc; try lia; eexists _, _; repeat split; vm_compute; reflexivity.
  - apply Hrej. left. lia.
Defined.

(* ===================================================================== *)
(** * The perceptual hash *)
(* ===================================================================== *)

Lemma string_length_app (a b : string) :
  String.length (a ++ b) = (String.length a + String.length b)%nat.
Proof. induction a as [|c a IH]; simpl; [reflexivity|]. now rewrite IH. Qed.

Lemma hex_of_bits_length (n : nat) :
  forall bits, List.length bits = (4 * n)%nat ->
               String.length (hex_of_bits bits) = n.
Proof.
  induction n as [|n IH]; intros bits Hl.
  - destruct bits; [reflexivity|discriminate].
  - destruct bits as [|a [|b [|c [|d rest]]]]; try (simpl in Hl; lia).
    cbn [hex_of_bits]. rewrite string_length_app, IH by (simpl in Hl; lia).
    destruct a, b, c, d; reflexivity.
Qed.

Lemma sum_from (l : list Z) (acc : Z) :
  fold_left Z.add l acc = acc + sum l.
Proof.
  unfold sum. revert acc. induction l as [|x l IH]; intros acc; simpl; [lia|].
  rewrite IH. rewrite (IH x). lia.
Qed.

Lemma sum_cons x l : sum (x :: l) = x + sum l.
Proof. unfold sum at 1. simpl. now rewrite sum_from. Qed.

Lemma sum_bounds l :
  Forall (fun p => 0 <= p <= 255) l ->
  0 <= sum l <= 255 * Z.of_nat (List.length l).
Proof.
  induction 1 as [|x l Hx _ IH]; [unfold sum; simpl; lia|].
  rewrite sum_cons. cbn [List.length]. lia.
Qed.

Lemma sum_repeat p n : sum (repeat p n) = Z.of_nat n * p.
Proof.
  induction n as [|n IH]; [reflexivity|].
  cbn [repeat]. rewrite sum_cons, IH. lia.
Qed.

Section Hash.
Context {E : Env}.

(** X11.  On the 64 gray levels of the 8 by 8 thumbnail, [average_hash]
    returns a string of 16 characters. *)
Theorem average_hash_length (png : string) (pixels : list Z) :
  image_gray png 8 = ok pixels ->
  List.length pixels = 64%nat ->
  Forall (fun p => 0 <= p <= 255) pixels ->
  exists h, average_hash png 8 = ok h /\ String.length h = 16%nat.
Proof.
  intros Hg Hl Hp. unfold average_hash. rewrite Hg. cbn [rbind ok].
  rewrite Hl. change (Z.of_nat 64) with 64.
  pose proof (sum_bounds pixels Hp) as Hs. rewrite Hl in Hs.
  change (Z.of_nat 64) with 64 in Hs.
  unfold PyFloat.int_truediv. change (64 =? 0) with false.
  change (64 <? 0) with false. cbv iota.
  pose proof (PyFloatBounds.round_between (sum pixels) 6 0 255
                ltac:(lia) ltac:(lia)) as Hrb.
  change (2 ^ 6) with 64 in Hrb.
  destruct (Hrb ltac:(lia) ltac:(vm_compute; reflexivity)) as (m & e & Hr & _).
  rewrite Hr. cbn [rbind ok].
  eexists. split; [reflexivity|].
  apply hex_of_bits_length. rewrite List.length_map. exact Hl.
Qed.

(** X12.  A thumbnail of one gray level, whatever the level, has the hash
    [ffffffffffffffff]: every pixel is at least the average. *)
Theorem average_hash_uniform (png : string) (p : Z) :
  image_gray png 8 = ok (repeat p 64) ->
  0 <= p <= 255 ->
  average_hash png 8 = ok "ffffffffffffffff".
Proof.
  intros Hg Hp. unfold average_hash. rewrite Hg. cbn [rbind ok].
  rewrite sum_repeat, List.repeat_length. change (Z.of_nat 64) with 64.
  unfold PyFloat.int_truediv. change (64 =? 0) with false.
  change (64 <? 0) with false. cbv iota.
  pose proof (PyFloatBounds.round_between (64 * p) 6 p p
                ltac:(lia) ltac:(lia)) as Hrb.
  change (2 ^ 6) with 64 in Hrb.
  assert (H53 : p < 2 ^ 53).
  { apply Z.le_lt_trans with 255; [lia | vm_compute; reflexivity]. }
  destruct (Hrb ltac:(lia) H53) as (m & e & Hr & He & Hm).
  rewrite Hr. cbn [rbind ok].
  assert (Hge : PyFloat.int_geb p (Fin m e) = true).
  { unfold PyFloat.int_geb. destruct (Z.leb_spec 0 e).
    - assert (e = 0) by lia. subst e. simpl in Hm. apply Z.leb_le.
      change (2 ^ 0) with 1. lia.
    - apply Z.leb_le. lia. }
  rewrite (map_ext_in _ (fun _ => true)).
  2:{ intros a Ha. apply repeat_spec in Ha. now subst a. }
  rewrite map_repeat. reflexivity.
Qed.

End Hash.

Lemma average_hash_length_witness :
  exists h, average_hash (E := Sim.env) Sim.home_png 8 = ok h
            /\ String.length h = 16%nat.
Proof.
  apply (average_hash_length (E := Sim.env) Sim.home_png
           (firstn 64 (Sim.codes Sim.home_png ++ repeat 0 64))).
  - reflexivity.
  - vm_compute. reflexivity.
  - vm_compute. repeat constructor; discriminate.
Defined.

Lemma average_hash_uniform_witness :
  average_hash (E := Sim.env) "" 8 = ok "ffffffffffffffff".
Proof.
  apply (average_hash_uniform (E := Sim.env) "" 0).
  - reflexivity.
  - lia.
Defined.

(* ===================================================================== *)
(** * The verdict of the validator *)
(* ===================================================================== *)

Lemma stage_progression_forward s st :
  new_stage (stage_progression s) = Some st ->
  stage_rank (AgentState.stage s) < stage_rank st
  /\ (st = SEARCH_RESULTS \/ st = REPO \/ st = RELEASES)
  /\ (should_extract (stage_progression s) = true <-> st = RELEASES).
Proof.
  unfold stage_progression.
  destruct (AgentState.current_url s) as [url|]; [|discriminate].
  destruct (Str.truthy url); [|discriminate].
  destruct (AgentState.stage s);
    destruct (Str.contains "github.com/search" url);
    destruct (Str.contains (Str.lower (AgentState.target_repo s)) (Str.lower url));
    destruct (Str.contains "/releases" url);
    cbn; intros H; inversion H; subst; cbn;
    (split; [lia|]); (split; [auto|]); split; congruence.
Qed.

Lemma stage_progression_plain s :
  should_stop (stage_progression s) = false
  /\ recovery_action (stage_progression s) = None
  /\ (new_stage (stage_progression s) = None ->
      should_extract (stage_progression s) = false).
Proof.
  unfold stage_progression.
  destruct (AgentState.current_url s) as [url|]; [|cbn; auto].
  destruct (Str.truthy url); [|cbn; auto].
  destruct (AgentState.stage s);
    destruct (Str.contains "github.com/search" url);
    destruct (Str.contains (Str.lower (AgentState.target_repo s)) (Str.lower url));
    destruct (Str.contains "/releases" url);
    cbn; repeat split; auto; discriminate.
Qed.

Lemma verdict_forward (v : Validator) (h : string) (s : AgentState.t) st :
  new_stage (verdict v h s) = Some st ->
  stage_rank (AgentState.stage s) < stage_rank st.
Proof.
  unfold verdict.
  destruct (_ <=? _); [discriminate|]. destruct (stuck v h s); [discriminate|].
  intros H. now apply stage_progression_forward in H.
Qed.

(** X13.  A verdict carries at most one of: the stop flag, a recovery action,
    a stage transition.  The stop flag is set exactly at the step
    ceiling; a transition always goes to a later stage, one of
    SEARCH_RESULTS, REPO and RELEASES; and the extract flag is set
    exactly with the transition to RELEASES. *)
Theorem verdict_exclusive (v : Validator) (h : string) (s : AgentState.t) :
  (should_stop (verdict v h s) = true <->
   AgentState.max_steps s <= AgentState.step_count s)
  /\ (should_stop (verdict v h s) = true ->
      recovery_action (verdict v h s) = None
      /\ new_stage (verdict v h s) = None
      /\ should_extract (verdict v h s) = false)
  /\ (recovery_action (verdict v h s) <> None ->
      new_stage (verdict v h s) = None
      /\ should_extract (verdict v h s) = false)
  /\ (forall st, new_stage (verdict v h s) = Some st ->
        stage_rank (AgentState.stage s) < stage_rank st
        /\ (st = SEARCH_RESULTS \/ st = REPO \/ st = RELEASES))
  /\ (should_extract (verdict v h s) = true <->
      new_stage (verdict v h s) = Some RELEASES).
Proof.
  unfold verdict.
  destruct (Z.leb_spec (AgentState.max_steps s) (AgentState.step_count s)) as [Hc|Hc].
  { cbn. repeat split; auto; try discriminate; try lia. }
  destruct (stuck v h s).
  { cbn. repeat split; auto; try discriminate; try lia. }
  pose proof (stage_progression_plain s) as (P1 & P2 & P3).
  split; [split; [rewrite P1; discriminate | lia]|].
  split; [rewrite P1; discriminate|].
  split; [rewrite P2; congruence|].
  split.
  - intros st Hst. apply stage_progression_forward in Hst. tauto.
  - destruct (new_stage (stage_progression s)) as [st|] eqn:Hst.
    + apply stage_progression_forward in Hst. destruct Hst as (_ & _ & Hx).
      rewrite Hx. split; congruence.
    + rewrite P3 by reflexivity. split; discriminate.
Qed.

(* ===================================================================== *)
(** * What a step of the graph keeps *)
(* ===================================================================== *)

Section Frame.
Context {E : Env}.

Lemma ro_limits h s : limits (record_observation h s) = limits s.
Proof.
  unfold limits. now rewrite ro_target_repo, ro_max_steps, ro_max_retries_per_stage.
Qed.

Lemma at_limits r s : limits (apply_transition r s) = limits s.
Proof.
  unfold limits. now rewrite at_target_repo, at_max_steps, at_max_retries_per_stage.
Qed.

Lemma decided_limits r s2 s' :
  decided r s2 s' ->
  limits s' = limits s2 /\ AgentState.step_count s' = AgentState.step_count s2
  /\ histories s' = histories s2.
Proof. intros H; destruct H; unfold limits, histories; st_simpl; auto. Qed.

Lemma ro_hashes h s :
  AgentState.last_screenshot_hashes (record_observation h s)
  = AgentState.keep_last 6 (AgentState.last_screenshot_hashes s ++ [h]).
Proof.
  unfold record_observation. st_simpl.
  destruct (AgentState.current_url s) as [u|] eqn:Hu; [destruct (Str.truthy u)|];
    st_simpl; auto.
Qed.

Lemma ro_urls h s :
  AgentState.last_urls (record_observation h s) = AgentState.last_urls s
  \/ exists u, AgentState.last_urls (record_observation h s)
               = AgentState.keep_last 6 (AgentState.last_urls s ++ [u]).
Proof.
  unfold record_observation. st_simpl.
  destruct (AgentState.current_url s) as [u|] eqn:Hu; [destruct (Str.truthy u)|];
    st_simpl; eauto.
Qed.

Lemma at_histories r s : histories (apply_transition r s) = histories s.
Proof. unfold apply_transition, histories. now destruct (new_stage r). Qed.

Variable v : Validator.

Lemma validate_outcome_frame s s' :
  validate_outcome v s s' ->
  limits s' = limits s /\ AgentState.step_count s' = AgentState.step_count s
  /\ (histories s' = histories s
      \/ exists h,
           AgentState.last_screenshot_hashes s'
           = AgentState.keep_last 6 (AgentState.last_screenshot_hashes s ++ [h])
           /\ (AgentState.last_urls s' = AgentState.last_urls s
               \/ exists u, AgentState.last_urls s'
                            = AgentState.keep_last 6 (AgentState.last_urls s ++ [u]))).
Proof.
  intros H. destruct H as [Hp | h Hp Hh Hl | h r s' Hp Hh Hl Hr Hd].
  - unfold limits, histories. st_simpl. auto.
  - split; [unfold limits; st_simpl; apply ro_limits|].
    split; [st_simpl; apply ro_step_count|].
    right. exists h. st_simpl. split; [apply ro_hashes | apply ro_urls].
  - apply decided_limits in Hd. destruct Hd as (L & S & Hi).
    rewrite L, S, at_limits, ro_limits, at_step_count, ro_step_count.
    split; [reflexivity|]. split; [reflexivity|].
    right. exists h.
    assert (Hh' : AgentState.last_screenshot_hashes s'
                  = AgentState.last_screenshot_hashes (record_observation h s)).
    { change (fst (histories s') = fst (histories (record_observation h s))).
      now rewrite Hi, at_histories. }
    assert (Hu' : AgentState.last_urls s'
                  = AgentState.last_urls (record_observation h s)).
    { change (snd (histories s') = snd (histories (record_observation h s))).
      now rewrite Hi, at_histories. }
    rewrite Hh', Hu'. split; [apply ro_hashes | apply ro_urls].
Qed.

Lemma act_outcome_frame s a s' :
  act_outcome s a s' ->
  limits s' = limits s /\ histories s' = histories s
  /\ (AgentState.step_count s' = AgentState.step_count s + 1
      \/ AgentState.step_count s' = AgentState.step_count s
         /\ AgentState.retry_count s' = AgentState.retry_count s + 1).
Proof.
  intros H; destruct H; unfold limits, histories, stepped; st_simpl;
    try (destruct success); st_simpl; auto.
Qed.

Lemma decided_state_frame a s :
  limits (decided_state a s) = limits s
  /\ histories (decided_state a s) = histories s
  /\ AgentState.step_count (decided_state a s) = AgentState.step_count s.
Proof.
  unfold decided_state, force_search_stage, limits, histories.
  destruct (bbox_truthy (Action.bbox a)); destruct (on_search_page s);
    st_simpl; auto.
Qed.

Lemma observe_node_frame s w s' w' :
  observe_node s w = ok (s', w') ->
  limits s' = limits s /\ histories s' = histories s
  /\ AgentState.step_count s' = AgentState.step_count s.
Proof.
  unfold observe_node. intros H. minv.
  unfold limits, histories. split_ifs; st_simpl; auto.
Qed.

Lemma extract_node_frame s w s' w' :
  extract_node s w = ok (s', w') ->
  limits s' = limits s /\ histories s' = histories s
  /\ AgentState.step_count s' = AgentState.step_count s.
Proof.
  unfold extract_node. intros H. minv; unfold limits, histories; st_simpl; auto.
Qed.

Lemma step_frame (n : Node) (s : AgentState.t) (w : World)
  (n' : option Node) (s' : AgentState.t) (w' : World) :
  step v n s w = ok (n', s', w') ->
  limits s' = limits s
  /\ (n <> N_act -> AgentState.step_count s' = AgentState.step_count s)
  /\ (n = N_act ->
      AgentState.step_count s' = AgentState.step_count s + 1
      \/ AgentState.step_count s' = AgentState.step_count s
         /\ AgentState.retry_count s' = AgentState.retry_count s + 1).
Proof.
  intros Hstep. apply step_inv in Hstep. destruct Hstep as [Hnode _].
  destruct n; simpl in Hnode.
  - apply observe_node_frame in Hnode. intuition discriminate.
  - apply decide_node_inv in Hnode. destruct Hnode as (_ & a & -> & _).
    pose proof (decided_state_frame a s). intuition discriminate.
  - apply act_node_inv in Hnode. destruct Hnode as (_ & a & _ & Hout).
    apply act_outcome_frame in Hout. intuition congruence.
  - apply validate_node_inv in Hnode. destruct Hnode as (_ & _ & Hout).
    apply validate_outcome_frame in Hout. intuition discriminate.
  - apply extract_node_frame in Hnode. intuition discriminate.
Qed.

(** X14.  No node changes the repository looked for or the two ceilings;
    [step_count] is changed by [act] alone, which adds one unless it
    rejects a set of candidates (then it counts a retry instead). *)
Theorem step_keeps_limits (n : Node) (s : AgentState.t) (w : World)
  (n' : option Node) (s' : AgentState.t) (w' : World) :
  step v n s w = ok (n', s', w') ->
  AgentState.target_repo s' = AgentState.target_repo s
  /\ AgentState.max_steps s' = AgentState.max_steps s
  /\ AgentState.max_retries_per_stage s' = AgentState.max_retries_per_stage s
  /\ (n <> N_act -> AgentState.step_count s' = AgentState.step_count s)
  /\ (n = N_act ->
      AgentState.step_count s' = AgentState.step_count s + 1
      \/ AgentState.step_count s' = AgentState.step_count s
         /\ AgentState.retry_count s' = AgentState.retry_count s + 1).
Proof.
  intros Hstep. destruct (step_frame _ _ _ _ _ _ Hstep) as (HL & H1 & H2).
  unfold limits in HL. inversion HL. auto.
Qed.

(** X15.  The two histories are written by [validate] alone: a step of any
    other node leaves them as they are, and in every reachable state
    each of them holds at most six entries. *)
Theorem histories_bounded (n : Node) (s : AgentState.t) (w : World) :
  reachable v n s w ->
  (List.length (AgentState.last_screenshot_hashes s) <= 6)%nat
  /\ (List.length (AgentState.last_urls s) <= 6)%nat
  /\ forall n' s' w',
       step v n s w = ok (n', s', w') -> n <> N_validate ->
       histories s' = histories s.
Proof.
  intros Hreach.
  assert (Hstep : forall n s w n' s' w',
            step v n s w = ok (n', s', w') ->
            histories s' = histories s
            \/ n = N_validate /\
               exists h,
                 AgentState.last_screenshot_hashes s'
                 = AgentState.keep_last 6 (AgentState.last_screenshot_hashes s ++ [h])
                 /\ (AgentState.last_urls s' = AgentState.last_urls s
                     \/ exists u, AgentState.last_urls s'
                                  = AgentState.keep_last 6 (AgentState.last_urls s ++ [u]))).
  { clear. intros n s w n' s' w' Hs.
    apply step_inv in Hs. destruct Hs as [Hnode _].
    destruct n; simpl in Hnode.
    - apply observe_node_frame in Hnode. tauto.
    - apply decide_node_inv in Hnode. destruct Hnode as (_ & a & -> & _).
      left. apply decided_state_frame.
    - apply act_node_inv in Hnode. destruct Hnode as (_ & a & _ & Hout).
      apply act_outcome_frame in Hout. tauto.
    - apply validate_node_inv in Hnode. destruct Hnode as (_ & _ & Hout).
      apply validate_outcome_frame in Hout. destruct Hout as (_ & _ & [H|H]); auto.
    - apply extract_node_frame in Hnode. tauto. }
  assert (Hb : (List.length (AgentState.last_screenshot_hashes s) <= 6)%nat
               /\ (List.length (AgentState.last_urls s) <= 6)%nat).
  { induction Hreach as [repo url prompt vlm router pm ms mr w0
                        | n s w n' s' w' Hr IH Hs].
    - simpl. lia.
    - destruct (Hstep _ _ _ _ _ _ Hs) as [Hh | (_ & h & Hh & Hu)].
      + unfold histories in Hh. inversion Hh. now rewrite H0, H1.
      + rewrite Hh. split; [apply keep_last_length|].
        destruct Hu as [-> | (u & ->)]; [tauto | apply keep_last_length]. }
  split; [tauto|]. split; [tauto|].
  intros n' s' w' Hs Hn. destruct (Hstep _ _ _ _ _ _ Hs) as [Hh | (Hv & _)]; tauto.
Qed.

End Frame.

Section Flow.
Context {E : Env}.
Variable v : Validator.

(** X16.  Apart from [decide] (which re-stages a session to SEARCH_RESULTS on
    a search URL), no node moves the stage backwards in the order HOME,
    SEARCH_RESULTS, REPO, RELEASES, then EXTRACTED or DONE. *)
Theorem stage_never_goes_back (n : Node) (s : AgentState.t) (w : World)
  (n' : option Node) (s' : AgentState.t) (w' : World) :
  step v n s w = ok (n', s', w') ->
  n <> N_decide ->
  stage_rank (AgentState.stage s) <= stage_rank (AgentState.stage s').
Proof.
  intros Hstep Hn. apply step_inv in Hstep. destruct Hstep as [Hnode _].
  destruct n; simpl in Hnode; [| contradiction | | |].
  - apply observe_node_inv in Hnode. destruct Hnode as (_ & -> & _). lia.
  - apply act_node_inv in Hnode. destruct Hnode as (_ & a & _ & Hout).
    apply act_summary in Hout. destruct Hout as ([-> | [[-> ->] | ->]] & _);
      [lia | simpl; lia | destruct (AgentState.stage s); simpl; lia].
  - apply validate_node_inv in Hnode. destruct Hnode as (_ & _ & Hout).
    apply validate_summary in Hout.
    destruct Hout as [([-> | ->] & _) | (h & st & Hst & -> & _)].
    + lia.
    + destruct (AgentState.stage s); simpl; lia.
    + apply verdict_forward in Hst. rewrite ro_stage in Hst. lia.
  - apply extract_node_inv in Hnode.
    destruct Hnode as (_ & _ & _ & _ & [[_ ->] | [_ ->]]);
      [lia | destruct (AgentState.stage s); simpl; lia].
Qed.

Lemma step_route (n : Node) (s : AgentState.t) (w : World)
  (s' : AgentState.t) (w' : World) :
  node_fn v n s w = ok (s', w') ->
  step v n s w
  = match route n s' with
    | inl e => inl e
    | inr next => ok (next, s', w')
    end.
Proof.
  intros Hn. unfold step.
  rewrite (@bind_ok _ _ _ _ _ w s' w' Hn).
  unfold lift, bind, ret. now destruct (route n s').
Qed.

Lemma route_next (n : Node) (s : AgentState.t) (name : string) :
  AgentState.next_node s = Some name ->
  route n s = match lookup name (edges n) with
              | Some target => ok target
              | None => raise KeyError
              end.
Proof. unfold route. now intros ->. Qed.

Lemma gave_up_same (s s' : AgentState.t) :
  AgentState.retry_count s' = AgentState.retry_count s -> gave_up s s' = false.
Proof.
  intros H. unfold gave_up. rewrite H.
  destruct (Z.eqb_spec (AgentState.retry_count s) (AgentState.retry_count s + 1));
    [lia|reflexivity].
Qed.

Ltac route_to name :=
  match goal with
  | |- context [route ?n ?x] => rewrite (route_next n x name) by reflexivity
  end.

(** X17.  Where a step of the graph leads, and when it fails on its edge.
    Once the node function has returned: [observe] is followed by
    [decide] and [decide] by [act]; [act] is followed by [validate],
    except that a rejection counted past the retry ceiling, where
    [act_node] sets the stage DONE and the next node END, raises
    [KeyError] (END is no key of the path map of [act]); [validate] is
    followed by [observe], [act] or [extract] or ends the run, and it
    ends the run with stage DONE only; [extract] ends the run when it
    has a screenshot, and raises [KeyError] on its early return to
    [observe] when it has none. *)
Theorem step_routing (n : Node) (s : AgentState.t) (w : World)
  (s' : AgentState.t) (w' : World) :
  node_fn v n s w = ok (s', w') ->
  match n with
  | N_observe => step v n s w = ok (Some N_decide, s', w')
  | N_decide => step v n s w = ok (Some N_act, s', w')
  | N_act =>
      step v n s w
      = if gave_up s s' then raise KeyError else ok (Some N_validate, s', w')
  | N_validate =>
      exists n', step v n s w = ok (n', s', w')
        /\ n' <> Some N_decide /\ n' <> Some N_validate
        /\ (n' = None -> AgentState.stage s' = DONE)
  | N_extract =>
      step v n s w
      = if Str.otruthy (AgentState.last_png_bytes s)
        then ok (None, s', w') else raise KeyError
  end.
Proof.
  intros Hnode. rewrite (step_route n s w s' w' Hnode).
  destruct n; simpl in Hnode.
  - apply observe_node_inv in Hnode.
    destruct Hnode as (_ & _ & _ & _ & _ & _ & Hnext).
    now rewrite (route_next N_observe s' "decide" Hnext).
  - apply decide_node_inv in Hnode. destruct Hnode as (_ & a & -> & _).
    now rewrite (route_next N_decide (decided_state a s) "act" eq_refl).
  - apply act_node_inv in Hnode. destruct Hnode as (_ & a & _ & Hout).
    destruct Hout as [success Hs Hc | Hs Hc Hne Hlt | Hs Hc Hne Hle | chosen Hs Hc Hne | Hc].
    + route_to "validate".
      rewrite gave_up_same; [reflexivity|]. now destruct success.
    + route_to END.
      unfold gave_up. st_simpl. rewrite Z.eqb_refl.
      destruct (Z.ltb_spec (AgentState.max_retries_per_stage s)
                  (AgentState.retry_count s + 1)); [reflexivity|lia].
    + route_to "validate".
      unfold gave_up. st_simpl. rewrite Z.eqb_refl.
      destruct (Z.ltb_spec (AgentState.max_retries_per_stage s)
                  (AgentState.retry_count s + 1)); [lia|reflexivity].
    + route_to "validate".
      rewrite gave_up_same; reflexivity.
    + route_to "validate".
      rewrite gave_up_same; reflexivity.
  - apply validate_node_inv in Hnode. destruct Hnode as (_ & _ & Hout).
    destruct Hout as [Hno | h Ht Hhash Hl | h r s' Ht Hhash Hl -> Hd].
    + route_to "observe".
      eexists. split; [reflexivity|]. repeat split; discriminate.
    + route_to "observe".
      eexists. split; [reflexivity|]. repeat split; discriminate.
    + destruct Hd;
        match goal with
        | |- context [route N_validate (AgentState.set_next_node (Some ?name) _)] =>
            route_to name
        end;
        (eexists; split; [reflexivity|]);
        (split; [discriminate|]); (split; [discriminate|]);
        first [discriminate | reflexivity].
  - unfold extract_node in Hnode. minv.
    + apply (f_equal negb) in Heqb. rewrite negb_involutive in Heqb.
      simpl in Heqb. rewrite Heqb.
      now route_to "observe".
    + apply (f_equal negb) in Heqb. rewrite negb_involutive in Heqb.
      simpl in Heqb. rewrite Heqb.
      now route_to END.
Qed.

End Flow.

Lemma stage_never_goes_back_witness :
  stage_rank (AgentState.stage (Sim.state_at 3 Sim.default_start Sim.repo_world))
  <= stage_rank (AgentState.stage (Sim.state_at 4 Sim.default_start Sim.repo_world)).
Proof.
  apply (stage_never_goes_back (E := Sim.env) default_validator N_validate
           (Sim.state_at 3 Sim.default_start Sim.repo_world)
           (Sim.world_at 3 Sim.default_start Sim.repo_world)
           (Some N_observe)
           (Sim.state_at 4 Sim.default_start Sim.repo_world)
           (Sim.world_at 4 Sim.default_start Sim.repo_world)).
  - vm_compute. reflexivity.
  - discriminate.
Defined.

Lemma step_routing_witness :
  exists s',
    act_node (Sim.state_at 2 Sim.no_retry_start Sim.banner_then_card_world)
      (Sim.world_at 2 Sim.no_retry_start Sim.banner_then_card_world)
    = ok (s', Sim.world_at 2 Sim.no_retry_start Sim.banner_then_card_world)
    /\ AgentState.stage s' = DONE
    /\ step (E := Sim.env) default_validator N_act
         (Sim.state_at 2 Sim.no_retry_start Sim.banner_then_card_world)
         (Sim.world_at 2 Sim.no_retry_start Sim.banner_then_card_world)
       = raise KeyError.
Proof.
  eexists. split; [vm_compute; reflexivity|].
  match goal with
  | |- AgentState.stage ?s1 = DONE /\ _ =>
      pose proof (step_routing (E := Sim.env) default_validator N_act
                    (Sim.state_at 2 Sim.no_retry_start Sim.banner_then_card_world)
                    (Sim.world_at 2 Sim.no_retry_start Sim.banner_then_card_world)
                    s1
                    (Sim.world_at 2 Sim.no_retry_start Sim.banner_then_card_world)
                    ltac:(vm_compute; reflexivity)) as H
  end.
  cbv beta iota in H.
  split; [vm_compute; reflexivity|].
  rewrite H. vm_compute. reflexivity.
Defined.

Lemma step_keeps_limits_witness :
  AgentState.step_count (Sim.state_at 3 Sim.default_start Sim.two_cards_world)
  = AgentState.step_count (Sim.state_at 2 Sim.default_start Sim.two_cards_world) + 1
  \/ AgentState.step_count (Sim.state_at 3 Sim.default_start Sim.two_cards_world)
     = AgentState.step_count (Sim.state_at 2 Sim.default_start Sim.two_cards_world)
     /\ AgentState.retry_count (Sim.state_at 3 Sim.default_start Sim.two_cards_world)
        = AgentState.retry_count (Sim.state_at 2 Sim.default_start Sim.two_cards_world) + 1.
Proof.
  destruct (step_keeps_limits (E := Sim.env) default_validator N_act
              (Sim.state_at 2 Sim.default_start Sim.two_cards_world)
              (Sim.world_at 2 Sim.default_start Sim.two_cards_world)
              (Some N_validate)
              (Sim.state_at 3 Sim.default_start Sim.two_cards_world)
              (Sim.world_at 3 Sim.default_start Sim.two_cards_world))
    as (_ & _ & _ & _ & H).
  - vm_compute. reflexivity.
  - apply H. reflexivity.
Defined.

Lemma histories_bounded_witness :
  (List.length (AgentState.last_screenshot_hashes
                  (Sim.state_at 11 Sim.default_start Sim.idle_world)) <= 6)%nat
  /\ (List.length (AgentState.last_urls
                     (Sim.state_at 11 Sim.default_start Sim.idle_world)) <= 6)%nat.
Proof.
  destruct (histories_bounded (E := Sim.env) default_validator N_validate
              (Sim.state_at 11 Sim.default_start Sim.idle_world)
              (Sim.world_at 11 Sim.default_start Sim.idle_world))
    as (H1 & H2 & _).
  - apply (run_reachable (E := Sim.env) default_validator 11 N_observe
             Sim.default_start Sim.idle_world);
      [apply reach_start | vm_compute; reflexivity].
  - split; assumption.
Defined.

(* ===================================================================== *)
(** * A persistent deadlock ends the run *)
(* ===================================================================== *)

Section Deadlock.
Context {E : Env}.

Lemma run_step (v : Validator) fuel n s w n' s' w' :
  step v n s w = ok (Some n', s', w') ->
  run v (S fuel) n s w = run v fuel n' s' w'.
Proof. intros H. cbn [run]. unfold bind. now rewrite H. Qed.

Lemma run_end (v : Validator) fuel n s w s' w' :
  step v n s w = ok (None, s', w') ->
  run v (S fuel) n s w = ok (inl s', w').
Proof. intros H. cbn [run]. unfold bind. now rewrite H. Qed.

Lemma validate_at_exhaustion url png h s w :
  at_standstill url png h s ->
  AgentState.step_count s < AgentState.max_steps s ->
  AgentState.max_retries_per_stage s < AgentState.retry_count s + 1 ->
  validate_node default_validator s w
  = ok (AgentState.set_next_node (Some END)
          (AgentState.set_stage DONE
             (AgentState.set_retry_count (AgentState.retry_count s + 1)
                (record_observation h s))), w).
Proof.
  intros Hss Hstep Hretry.
  pose proof (standstill_stuck url png h s Hss) as Hstuck.
  destruct Hss as [Hv Hu Ht Hl Hp Hpt Hh Hs].
  unfold validate_node.
  rewrite (@bind_ok _ _ _ _ _ w s w) by (unfold lift; now rewrite Hv).
  cbv beta. rewrite Hp. cbn [Str.otruthy or_empty]. rewrite Hpt. cbn [negb].
  rewrite (@bind_ok _ _ _ _ _ w
             (record_observation h s,
               (verdict default_validator h (record_observation h s), h)) w)
    by (unfold lift, assess; rewrite Hh; reflexivity).
  cbv beta iota.
  assert (Hlogin : on_login_page (record_observation h s) = false).
  { rewrite ro_on_login_page. unfold on_login_page. rewrite Hu, Ht, Hl. reflexivity. }
  rewrite Hlogin.
  assert (Hverdict : verdict default_validator h (record_observation h s)
                     = mkValidationResult None
                         (Some (stuck_recovery (record_observation h s)))
                         false false (Some "stuck")).
  { unfold verdict. rewrite ro_max_steps, ro_step_count.
    destruct (Z.leb_spec (AgentState.max_steps s) (AgentState.step_count s)); [lia|].
    now rewrite Hstuck. }
  rewrite Hverdict. unfold apply_transition. cbn [new_stage should_stop recovery_action].
  assert (Hne : exists kv d, stuck_recovery (record_observation h s) = kv :: d).
  { unfold stuck_recovery. destruct (_ =? 0); [|destruct (_ =? 1)]; eexists _, _; reflexivity. }
  destruct Hne as (kv & d & Hd). rewrite Hd. st_simpl.
  rewrite ro_max_retries_per_stage, ro_retry_count.
  destruct (Z.ltb_spec (AgentState.max_retries_per_stage s) (AgentState.retry_count s + 1)); [|lia].
  reflexivity.
Qed.

Lemma standstill_no_login url png h s :
  at_standstill url png h s -> on_login_page s = false.
Proof.
  intros [Hv Hu Ht Hl Hp Hpt Hh Hs]. unfold on_login_page. now rewrite Hu, Ht, Hl.
Qed.

Lemma deadlock_run (k : nat) :
  forall url png h s w,
    at_standstill url png h s -> decodable s ->
    AgentState.max_retries_per_stage s - AgentState.retry_count s + 1 <= Z.of_nat k ->
    exists fuel s' w',
      (fuel <= 2 * k + 1)%nat
      /\ run default_validator fuel N_validate s w = ok (inl s', w')
      /\ AgentState.stage s' = DONE
      /\ AgentState.next_node s' = Some END
      /\ AgentState.extracted_release s' = AgentState.extracted_release s.
Proof.
  induction k as [|k IH]; intros url png h s w Hss Hdec Hk.
  - (* no retry left *)
    destruct (Z_lt_le_dec (AgentState.step_count s) (AgentState.max_steps s)) as [Hst|Hst].
    + pose proof (validate_at_exhaustion url png h s w Hss Hst ltac:(lia)) as Hv.
      eexists 1%nat, _, w. split; [lia|]. split.
      * apply run_end. apply step_of; [exact Hv|reflexivity].
      * st_simpl. repeat split; try reflexivity. apply ro_extracted_release.
    + destruct (validate_at_ceiling default_validator s w png h) as [Hv _];
        try apply Hss; [now apply standstill_no_login with (1 := Hss) | lia |].
      eexists 1%nat, _, w. split; [lia|]. split.
      * apply run_end. apply step_of; [exact Hv|reflexivity].
      * st_simpl. repeat split; try reflexivity. apply ro_extracted_release.
  - destruct (Z_lt_le_dec (AgentState.step_count s) (AgentState.max_steps s)) as [Hst|Hst].
    + destruct (Z_lt_le_dec (AgentState.max_retries_per_stage s)
                  (AgentState.retry_count s + 1)) as [Hr|Hr].
      * pose proof (validate_at_exhaustion url png h s w Hss Hst Hr) as Hv.
        eexists 1%nat, _, w. split; [lia|]. split.
        -- apply run_end. apply step_of; [exact Hv|reflexivity].
        -- st_simpl. repeat split; try reflexivity. apply ro_extracted_release.
      * destruct (standstill_steps url png h s w Hss Hdec Hst Hr) as (V & w1 & A).
        set (s1 := stepped (recovered h s)) in *.
        assert (Hss1 : at_standstill url png h s1) by now apply standstill_persists.
        destruct (recovered_fields h s)
          as (_ & _ & _ & Rraw & _ & _ & Rmr & Rrc & _).
        destruct (stepped_fields (recovered h s)) as (Src & _ & _ & Smr & Sraw & _).
        fold s1 in Src, Smr, Sraw.
        assert (Hdec1 : decodable s1).
        { intros raw Hraw. apply Hdec. congruence. }
        destruct (IH url png h s1 w1 Hss1 Hdec1) as (fuel & s' & w' & Hf & Hrun & Hd & Hn & He).
        { rewrite Smr, Src, Rmr, Rrc. lia. }
        exists (S (S fuel)), s', w'. split; [lia|]. split.
        -- rewrite (run_step _ _ _ _ _ _ _ _ V). rewrite (run_step _ _ _ _ _ _ _ _ A).
           exact Hrun.
        -- split; [exact Hd|]. split; [exact Hn|]. rewrite He.
           unfold s1, stepped, recovered. st_simpl. apply ro_extracted_release.
    + destruct (validate_at_ceiling default_validator s w png h) as [Hv _];
        try apply Hss; [now apply standstill_no_login with (1 := Hss) | lia |].
      eexists 1%nat, _, w. split; [lia|]. split.
      * apply run_end. apply step_of; [exact Hv|reflexivity].
      * st_simpl. repeat split; try reflexivity. apply ro_extracted_release.
Qed.

(** X18.  A persistent deadlock ends the run.  From a state in which the
    stuck condition holds at [validate] (off a login page, with a
    decodable screenshot), the graph alternates recovery actions and
    validations and stops with stage DONE after at most
    [max_retries_per_stage - retry_count + 1] further recoveries,
    without an extraction. *)
Theorem deadlock_terminates (url png h : string) (s : AgentState.t) (w : World) :
  at_standstill url png h s -> decodable s ->
  exists fuel s' w',
    (fuel <= 2 * Z.to_nat (AgentState.max_retries_per_stage s
                           - AgentState.retry_count s + 1) + 1)%nat
    /\ run default_validator fuel N_validate s w = ok (inl s', w')
    /\ AgentState.stage s' = DONE
    /\ AgentState.next_node s' = Some END
    /\ AgentState.extracted_release s' = AgentState.extracted_release s.
Proof.
  intros Hss Hdec.
  apply (deadlock_run _ url png h s w Hss Hdec). lia.
Qed.

End Deadlock.

Lemma deadlock_terminates_witness :
  exists fuel s' w',
    (fuel <= 9)%nat
    /\ run (E := Sim.env) default_validator fuel N_validate
         (Sim.state_at 11 Sim.default_start Sim.idle_world)
         (Sim.world_at 11 Sim.default_start Sim.idle_world) = ok (inl s', w')
    /\ AgentState.stage s' = DONE
    /\ AgentState.next_node s' = Some END
    /\ AgentState.extracted_release s' = None.
Proof.
  apply (deadlock_terminates (E := Sim.env)
           Sim.home_url Sim.home_png Sim.home_hash
           (Sim.state_at 11 Sim.default_start Sim.idle_world)
           (Sim.world_at 11 Sim.default_start Sim.idle_world)).
  - constructor; try (vm_compute; reflexivity).
    split; apply Z.leb_le; vm_compute; reflexivity.
  - intros raw _. exists (1280, 720). reflexivity.
Defined.

(* ===================================================================== *)
(** * Edge cases of the nodes *)
(* ===================================================================== *)

Section Edges.
Context {E : Env}.

(** X19.  [choose] returns the bbox of the first candidate that passes the
    gate: every candidate before it was rejected, and [None] means that
    all were.  (The loop of [act_node] also computes a blue ratio for
    each candidate it looks at; the ratio goes to the rejection log and
    takes no part in the choice.) *)
Theorem choose_first_in_column (cands : list Candidate) (W H : Z)
  (r : option (list Z)) :
  choose cands W H = ok r ->
  match r with
  | Some b =>
      exists pre c post,
        cands = (pre ++ c :: post)%list /\ c_bbox c = b
        /\ (exists box, unpack4 b = ok box
                        /\ bbox_in_valid_column box W H = ok true)
        /\ Forall (fun c' => exists box, unpack4 (c_bbox c') = ok box
                     /\ bbox_in_valid_column box W H = ok false) pre
  | None =>
      Forall (fun c' => exists box, unpack4 (c_bbox c') = ok box
                /\ bbox_in_valid_column box W H = ok false) cands
  end.
Proof.
  revert r. induction cands as [|c rest IH]; intros r Hc.
  - simpl in Hc. inversion Hc. constructor.
  - cbn [choose] in Hc.
    destruct (unpack4 (c_bbox c)) as [e|box] eqn:Hu; [discriminate|].
    cbn [rbind] in Hc.
    destruct (bbox_in_valid_column box W H) as [e|[|]] eqn:Hg; [discriminate| |];
      cbn [rbind] in Hc.
    + inversion Hc; subst r. exists [], c, rest.
      repeat split; eauto.
    + specialize (IH r Hc). destruct r as [b|].
      * destruct IH as (pre & c0 & post & -> & Hb & Hin & Hpre).
        exists (c :: pre), c0, post. repeat split; eauto.
      * constructor; eauto.
Qed.

Lemma execute_inert a s w :
  inert a = true -> _execute_action a s w = ok (tt, w).
Proof.
  unfold inert, _execute_action. cbv zeta.
  destruct (String.eqb_spec (Action.type a) "click") as [Hc|Hc].
  { intros H. apply negb_true_iff in H. rewrite H, Hc. reflexivity. }
  cbn [andb].
  destruct (String.eqb_spec (Action.type a) "type") as [Ht|Ht]; [discriminate|].
  destruct (String.eqb_spec (Action.type a) "press") as [Hp|Hp].
  { intros H. apply negb_true_iff in H. rewrite H, Hp. reflexivity. }
  cbn [andb].
  destruct (String.eqb_spec (Action.type a) "scroll") as [Hs|Hs].
  { intros H. apply negb_true_iff in H. rewrite H, Hs. reflexivity. }
  cbn [andb].
  destruct (String.eqb_spec (Action.type a) "back") as [Hb|Hb]; [discriminate|].
  destruct (String.eqb_spec (Action.type a) "wait") as [Hw|Hw]; [discriminate|].
  reflexivity.
Qed.

(** X20.  An action the executor has no branch for costs a step and does
    nothing: outside SEARCH_RESULTS, [act_node] on a click without bbox,
    a press without key, a scroll without its spec or an unknown type
    (such as the [noop] that stands for a missing action) returns the
    state with [step_count] one higher, and the browser as it was. *)
Theorem act_inert (s : AgentState.t) (w : World) (a : Action.t) :
  AgentState.model_validate s = ok s ->
  Action_model_validate str_int str_float (JObj (last_action_or_noop s)) = ok a ->
  inert a = true ->
  AgentState.stage s <> SEARCH_RESULTS ->
  act_node s w = ok (stepped s, w).
Proof.
  intros Hv Ha Hi Hst. unfold act_node.
  rewrite (@bind_ok _ _ _ _ _ w s w) by (unfold lift; now rewrite Hv).
  rewrite (@bind_ok _ _ _ _ _ w a w) by (unfold lift; now rewrite Ha).
  assert (Hsr : Stage_eqb (AgentState.stage s) SEARCH_RESULTS = false).
  { destruct (AgentState.stage s); try reflexivity. now elim Hst. }
  rewrite Hsr. cbn [andb]. cbv zeta.
  rewrite (@bind_ok _ _ _ _ _ w tt w) by now apply execute_inert.
  reflexivity.
Qed.

(** X21.  A step of [extract] that returns ends the run: the stage is
    EXTRACTED, a release is stored, and no other field of the counters
    or of the queue has changed. *)
Theorem extract_ends_run (v : Validator) (s : AgentState.t) (w : World)
  (n' : option Node) (s' : AgentState.t) (w' : World) :
  step v N_extract s w = ok (n', s', w') ->
  n' = None
  /\ AgentState.stage s' = EXTRACTED
  /\ (exists release, AgentState.extracted_release s' = Some release)
  /\ AgentState.retry_count s' = AgentState.retry_count s
  /\ AgentState.step_count s' = AgentState.step_count s
  /\ AgentState.pending_candidates s' = AgentState.pending_candidates s.
Proof.
  intros Hstep. apply step_inv in Hstep. destruct Hstep as [Hnode Hr].
  cbn [node_fn] in Hnode. unfold extract_node in Hnode. minv.
  - exfalso. unfold route in Hr. st_simpl. discriminate.
  - unfold route in Hr. st_simpl. cbn in Hr. inversion Hr.
    repeat split; eauto.
Qed.

End Edges.

Lemma act_inert_witness :
  act_node (E := Sim.env) Sim.default_start Sim.idle_world
  = ok (stepped Sim.default_start, Sim.idle_world).
Proof.
  apply (act_inert (E := Sim.env) Sim.default_start Sim.idle_world
           (Action.mk "noop" "missing" None None None None None None)).
  - reflexivity.
  - reflexivity.
  - reflexivity.
  - discriminate.
Defined.

Lemma choose_first_in_column_witness :
  exists pre c post,
    [mkCandidate [10; 10; 100; 40] None None;
     mkCandidate [300; 340; 900; 460] None (Some "primary")]
    = (pre ++ c :: post)%list /\ c_bbox c = [300; 340; 900; 460]
    /\ (exists box, unpack4 [300; 340; 900; 460] = ok box
                    /\ bbox_in_valid_column box 1280 720 = ok true)
    /\ Forall (fun c' => exists box, unpack4 (c_bbox c') = ok box
                 /\ bbox_in_valid_column box 1280 720 = ok false) pre.
Proof.
  apply (choose_first_in_column
           [mkCandidate [10; 10; 100; 40] None None;
            mkCandidate [300; 340; 900; 460] None (Some "primary")]
           1280 720 (Some [300; 340; 900; 460])).
  vm_compute. reflexivity.
Defined.

Lemma extract_ends_run_witness :
  exists n' s',
    step (E := Sim.env) default_validator N_extract
      (Sim.state_at 1 Sim.default_start
         (Sim.mkWorld Sim.repo_url Sim.repo_url
            [JObj [("version", JStr "v1.2.0"); ("tag", JStr "v1.2.0")]] []))
      (Sim.world_at 1 Sim.default_start
         (Sim.mkWorld Sim.repo_url Sim.repo_url
            [JObj [("version", JStr "v1.2.0"); ("tag", JStr "v1.2.0")]] []))
    = ok (n', s', Sim.mkWorld Sim.repo_url Sim.repo_url [] [])
    /\ n' = None /\ AgentState.stage s' = EXTRACTED.
Proof.
  eexists _, _. split; [vm_compute; reflexivity|].
  match goal with
  | |- ?n = None /\ AgentState.stage ?s1 = EXTRACTED =>
      destruct (extract_ends_run (E := Sim.env) default_validator
                  (Sim.state_at 1 Sim.default_start
                     (Sim.mkWorld Sim.repo_url Sim.repo_url
                        [JObj [("version", JStr "v1.2.0"); ("tag", JStr "v1.2.0")]] []))
                  (Sim.world_at 1 Sim.default_start
                     (Sim.mkWorld Sim.repo_url Sim.repo_url
                        [JObj [("version", JStr "v1.2.0"); ("tag", JStr "v1.2.0")]] []))
                  n s1 (Sim.mkWorld Sim.repo_url Sim.repo_url [] []))
        as (H1 & H2 & _)
  end.
  - vm_compute. reflexivity.
  - split; assumption.
Defined.

(* ===================================================================== *)
(** * The extraction path, the counters and the history buffers *)
(* ===================================================================== *)

Lemma optional_str_entry k d :
  (exists o, optional v_str k d = ok o /\ o = str_entry k d)
  \/ optional v_str k d = raise ValidationError.
Proof.
  unfold optional, str_entry.
  destruct (Dict.get k d) as [[| | | |s| |]|]; cbn; eauto.
Qed.

(** X22.  Once the vision service has answered, the extraction call either
    returns the three entries of the answer (a missing or null entry as
    [None]) or raises [RuntimeError "Invalid Release JSON"]: it raises
    nothing else. *)
Theorem call_extract_outcome {E : Env}
  (model system user png : string) (w w1 : World) (j : json) :
  _call_json model system user png w = ok (j, w1) ->
  (exists d, j = JObj d
     /\ _call_extract model system user png w
        = ok (ReleaseExtract.mk (str_entry "version" d) (str_entry "tag" d)
                (str_entry "author" d), w1))
  \/ _call_extract model system user png w
     = raise (RuntimeError "Invalid Release JSON").
Proof.
  intros Hc. unfold _call_extract, bind. rewrite Hc. cbv beta iota delta [ok].
  destruct j as [| | | | | |d]; try (right; reflexivity).
  unfold ReleaseExtract_model_validate.
  destruct (optional_str_entry "version" d) as [(o1 & -> & ->) | ->];
    [|right; reflexivity].
  destruct (optional_str_entry "tag" d) as [(o2 & H2 & ->) | H2];
    cbn [rbind ok]; rewrite H2; [|right; reflexivity].
  destruct (optional_str_entry "author" d) as [(o3 & H3 & ->) | H3];
    cbn [rbind ok]; rewrite H3; [|right; reflexivity].
  left. exists d. split; reflexivity.
Qed.

Lemma call_extract_outcome_witness :
  (exists d, JObj [("version", JStr "v1.2.0"); ("author", JNull)] = JObj d
     /\ _call_extract (E := Sim.env) "gpt-5-mini" "system" "user" Sim.home_png
          (Sim.mkWorld Sim.home_url Sim.repo_url
             [JObj [("version", JStr "v1.2.0"); ("author", JNull)]] [])
        = ok (ReleaseExtract.mk (str_entry "version" d) (str_entry "tag" d)
                (str_entry "author" d),
              Sim.mkWorld Sim.home_url Sim.repo_url [] []))
  \/ _call_extract (E := Sim.env) "gpt-5-mini" "system" "user" Sim.home_png
       (Sim.mkWorld Sim.home_url Sim.repo_url
          [JObj [("version", JStr "v1.2.0"); ("author", JNull)]] [])
     = raise (RuntimeError "Invalid Release JSON").
Proof.
  apply (call_extract_outcome (E := Sim.env) "gpt-5-mini" "system" "user"
           Sim.home_png
           (Sim.mkWorld Sim.home_url Sim.repo_url
              [JObj [("version", JStr "v1.2.0"); ("author", JNull)]] [])
           (Sim.mkWorld Sim.home_url Sim.repo_url [] [])
           (JObj [("version", JStr "v1.2.0"); ("author", JNull)])).
  reflexivity.
Defined.

(** ** The history buffers *)

Lemma keep_last_suffix {A} (l : list A) :
  exists dropped, l = (dropped ++ AgentState.keep_last 6 l)%list
                  /\ (List.length dropped = List.length l - 6)%nat.
Proof.
  unfold AgentState.keep_last.
  destruct (Nat.ltb_spec 6 (List.length l)).
  - exists (firstn (List.length l - 6) l). split.
    + now rewrite firstn_skipn.
    + rewrite List.length_firstn. lia.
  - exists []. split; [reflexivity|]. simpl. lia.
Qed.

Lemma last_app_nonempty {A} (a b : list A) (d : A) :
  b <> [] -> List.last (a ++ b) d = List.last b d.
Proof.
  intros Hb. induction a as [|x a IH]; [reflexivity|].
  cbn [app]. destruct (a ++ b)%list eqn:Hab.
  - destruct a; [simpl in Hab; contradiction | discriminate].
  - cbn [List.last]. exact IH.
Qed.

(** X23.  [push_url] appends the URL and drops the oldest entries beyond six:
    the new history is the end of the old one followed by the URL, it
    has [min (n + 1) 6] entries, and its last entry is the URL pushed.
    [push_hash] does the same on the hashes. *)
Theorem push_keeps_latest (x : string) (s : AgentState.t) :
  (exists dropped,
     (AgentState.last_urls s ++ [x]
      = dropped ++ AgentState.last_urls (AgentState.push_url x s))%list)
  /\ List.length (AgentState.last_urls (AgentState.push_url x s))
     = Nat.min (List.length (AgentState.last_urls s) + 1) 6
  /\ List.last (AgentState.last_urls (AgentState.push_url x s)) "" = x
  /\ (exists dropped,
        (AgentState.last_screenshot_hashes s ++ [x]
         = dropped ++ AgentState.last_screenshot_hashes (AgentState.push_hash x s))%list)
  /\ List.length (AgentState.last_screenshot_hashes (AgentState.push_hash x s))
     = Nat.min (List.length (AgentState.last_screenshot_hashes s) + 1) 6
  /\ List.last (AgentState.last_screenshot_hashes (AgentState.push_hash x s)) "" = x.
Proof.
  assert (Hgen : forall l : list string,
            (exists dropped, (l ++ [x] = dropped ++ AgentState.keep_last 6 (l ++ [x]))%list)
            /\ List.length (AgentState.keep_last 6 (l ++ [x]))
               = Nat.min (List.length l + 1) 6
            /\ List.last (AgentState.keep_last 6 (l ++ [x])) "" = x).
  { intros l. destruct (keep_last_suffix (l ++ [x])) as (dropped & Hd & Hl).
    split; [exists dropped; exact Hd|].
    assert (Hlen : (List.length dropped
                    + List.length (AgentState.keep_last 6 (l ++ [x]))
                    = List.length l + 1)%nat).
    { rewrite <- List.length_app, <- Hd, List.length_app. reflexivity. }
    rewrite List.length_app in Hl. cbn [List.length] in Hl.
    split; [lia|].
    assert (Hne : AgentState.keep_last 6 (l ++ [x]) <> []).
    { intros Hnil. rewrite Hnil in Hlen. simpl in Hlen. lia. }
    rewrite <- (last_last l x "") at 2. rewrite Hd at 2.
    symmetry. apply last_app_nonempty. exact Hne. }
  unfold AgentState.push_url, AgentState.push_hash. st_simpl.
  destruct (Hgen (AgentState.last_urls s)) as (H1 & H2 & H3).
  destruct (Hgen (AgentState.last_screenshot_hashes s)) as (H4 & H5 & H6).
  auto 10.
Qed.

(** ** The counters *)

Section Counters.
Context {E : Env}.
Variable v : Validator.

Lemma at_refine_level r s :
  AgentState.refine_level (apply_transition r s) = AgentState.refine_level s
  \/ AgentState.refine_level (apply_transition r s) = 0.
Proof. unfold apply_transition. destruct (new_stage r); st_simpl; auto. Qed.

Lemma at_retry_nonneg r s :
  0 <= AgentState.retry_count s ->
  0 <= AgentState.retry_count (apply_transition r s).
Proof. unfold apply_transition. destruct (new_stage r); st_simpl; lia. Qed.

Lemma decided_counters r s2 s' :
  decided r s2 s' ->
  0 <= AgentState.refine_level s2 <= 2 -> 0 <= AgentState.retry_count s2 ->
  0 <= AgentState.refine_level s' <= 2 /\ 0 <= AgentState.retry_count s'.
Proof. intros H; destruct H; st_simpl; lia. Qed.

Lemma validate_outcome_counters s s' :
  validate_outcome v s s' ->
  0 <= AgentState.refine_level s <= 2 -> 0 <= AgentState.retry_count s ->
  0 <= AgentState.refine_level s' <= 2 /\ 0 <= AgentState.retry_count s'.
Proof.
  intros H Hr Hc. destruct H as [Hp | h Hp Hh Hl | h r s' Hp Hh Hl Hr' Hd].
  - st_simpl. auto.
  - st_simpl. now rewrite ro_refine_level, ro_retry_count.
  - apply (decided_counters _ _ _ Hd).
    + destruct (at_refine_level r (record_observation h s)) as [-> | ->];
        [rewrite ro_refine_level; lia | lia].
    + apply at_retry_nonneg. rewrite ro_retry_count. lia.
Qed.

Lemma act_outcome_refine s a s' :
  act_outcome s a s' -> AgentState.refine_level s' = AgentState.refine_level s.
Proof.
  intros H; destruct H; unfold stepped; st_simpl; try (destruct success);
    st_simpl; auto.
Qed.

Lemma decided_state_refine a s :
  AgentState.refine_level (decided_state a s) = AgentState.refine_level s.
Proof.
  unfold decided_state, force_search_stage.
  destruct (bbox_truthy (Action.bbox a)); destruct (on_search_page s);
    st_simpl; auto.
Qed.

Lemma observe_node_refine s w s' w' :
  observe_node s w = ok (s', w') ->
  AgentState.refine_level s' = AgentState.refine_level s.
Proof. unfold observe_node. intros H. minv. split_ifs; st_simpl; auto. Qed.

Lemma extract_node_refine s w s' w' :
  extract_node s w = ok (s', w') ->
  AgentState.refine_level s' = AgentState.refine_level s.
Proof. unfold extract_node. intros H. minv; st_simpl; auto. Qed.

Lemma step_counters n s w n' s' w' :
  step v n s w = ok (n', s', w') ->
  0 <= AgentState.refine_level s <= 2 -> 0 <= AgentState.retry_count s ->
  0 <= AgentState.step_count s ->
  0 <= AgentState.refine_level s' <= 2 /\ 0 <= AgentState.retry_count s'
  /\ 0 <= AgentState.step_count s'.
Proof.
  intros Hstep Hr Hc Hs.
  assert (Hsc : 0 <= AgentState.step_count s').
  { destruct (step_frame v _ _ _ _ _ _ Hstep) as (_ & H1 & H2).
    destruct n; try (rewrite H1 by discriminate; lia).
    destruct (H2 eq_refl) as [-> | [-> _]]; lia. }
  apply step_inv in Hstep. destruct Hstep as [Hnode _].
  destruct n; simpl in Hnode.
  - pose proof (observe_node_refine _ _ _ _ Hnode) as R.
    apply observe_node_inv in Hnode. destruct Hnode as (_ & _ & C & _).
    rewrite R, C. auto.
  - apply decide_node_inv in Hnode. destruct Hnode as (_ & a & -> & _).
    rewrite decided_state_refine.
    destruct (ds_fields a s) as (_ & _ & _ & _ & -> & _). auto.
  - apply act_node_inv in Hnode. destruct Hnode as (_ & a & _ & Hout).
    rewrite (act_outcome_refine _ _ _ Hout).
    apply act_summary in Hout. destruct Hout as (_ & C & _).
    split; [lia|]. split; [lia|exact Hsc].
  - apply validate_node_inv in Hnode. destruct Hnode as (_ & _ & Hout).
    destruct (validate_outcome_counters _ _ Hout Hr Hc). auto.
  - pose proof (extract_node_refine _ _ _ _ Hnode) as R.
    apply extract_node_inv in Hnode. destruct Hnode as (_ & C & _).
    rewrite R, C. auto.
Qed.

(** X24.  In every reachable state [refine_level] is 0, 1 or 2, and
    [retry_count] and [step_count] are not negative. *)
Theorem counters_in_range (n : Node) (s : AgentState.t) (w : World) :
  reachable v n s w ->
  0 <= AgentState.refine_level s <= 2
  /\ 0 <= AgentState.retry_count s
  /\ 0 <= AgentState.step_count s.
Proof.
  induction 1 as [repo url prompt vlm router pm ms mr w0
                 | n s w n' s' w' Hr IH Hs].
  - simpl. lia.
  - destruct IH as (A & B & C). now apply (step_counters _ _ _ _ _ _ Hs).
Qed.

End Counters.

Lemma counters_in_range_witness :
  0 <= AgentState.refine_level (Sim.state_at 11 Sim.default_start Sim.idle_world) <= 2
  /\ 0 <= AgentState.retry_count (Sim.state_at 11 Sim.default_start Sim.idle_world)
  /\ 0 <= AgentState.step_count (Sim.state_at 11 Sim.default_start Sim.idle_world).
Proof.
  apply (counters_in_range (E := Sim.env) default_validator N_validate
           (Sim.state_at 11 Sim.default_start Sim.idle_world)
           (Sim.world_at 11 Sim.default_start Sim.idle_world)).
  apply (run_reachable (E := Sim.env) default_validator 11 N_observe
           Sim.default_start Sim.idle_world);
    [apply reach_start | vm_compute; reflexivity].
Defined.

